(** * FormPlay: the TPS report workflow, its stores and the PDF overlay

    A shallow embedding of the server of FormPlay (shared/schema.ts,
    server/storage.ts, server/database-storage.ts, server/db.ts,
    server/routes.ts) and of the two client functions that read a PDF's
    form fields and lay them over the rendered page (client/src/lib/pdf.ts),
    followed by the properties of the workflow that hold of that code. *)

From Stdlib Require Import ZArith Ascii String DecimalString List Bool Lia.
From Stdlib Require Import Permutation Sorted Floats.
From stdpp Require Import base option gmap strings list.

#[local] Set Warnings "-register-all".
Local Open Scope Z_scope.
Local Open Scope string_scope.

(** ** JSON values

    [form_data] and [details] are [jsonb] columns, and request bodies are
    parsed JSON: the values that flow through them are JSON values.  An
    object keeps its keys in insertion order, as a JavaScript object does. *)

Inductive json : Type :=
| JNull
| JBool (b : bool)
| JNum (n : Z)
| JStr (s : string)
| JArr (xs : list json)
| JObj (kvs : list (string * json)).

(** What a thrown JavaScript or driver error is, as far as the server's
    [catch] blocks can tell them apart (they cannot: all end in a 500). *)
Inductive exn : Type :=
| TypeError (msg : string)
| DbError (constraint : string).

Inductive outcome (A : Type) : Type :=
| Ok (a : A)
| Throw (e : exn).
Arguments Ok {A} a.
Arguments Throw {A} e.

(** JavaScript truthiness of a value read from JSON; [None] is [undefined]. *)
Definition js_truthy (v : option json) : bool :=
  match v with
  | None => false
  | Some JNull => false
  | Some (JBool b) => b
  | Some (JNum n) => negb (n =? 0)%Z
  | Some (JStr s) => negb (s =? "")%string
  | Some (JArr _) => true
  | Some (JObj _) => true
  end.

Fixpoint assoc_get (k : string) (kvs : list (string * json)) : option json :=
  match kvs with
  | [] => None
  | (k', v) :: rest => if (k' =? k)%string then Some v else assoc_get k rest
  end.

(** [o[k] = v] on an object: an existing key keeps its place, a new key is
    added last. *)
Fixpoint assoc_set (k : string) (v : json) (kvs : list (string * json))
  : list (string * json) :=
  match kvs with
  | [] => [(k, v)]
  | (k', v') :: rest =>
      if (k' =? k)%string then (k', v) :: rest else (k', v') :: assoc_set k v rest
  end.

(** [o.k] for a key [k] that is neither an index nor [length]: reading a
    property of [null] throws, a primitive or an array has no such property. *)
Definition js_get (o : json) (k : string) : outcome (option json) :=
  match o with
  | JNull => Throw (TypeError "Cannot read properties of null")
  | JObj kvs => Ok (assoc_get k kvs)
  | _ => Ok None
  end.

(** [o.k = v]: on an object the property is written; on [null] it throws; on
    a primitive or (for such a key) observably on nothing that JSON keeps. *)
Definition js_set (o : json) (k : string) (v : json) : outcome json :=
  match o with
  | JNull => Throw (TypeError "Cannot set properties of null")
  | JObj kvs => Ok (JObj (assoc_set k v kvs))
  | other => Ok other
  end.

(** [JSON.parse(JSON.stringify(v))] of a JSON value is a fresh, structurally
    equal value; values here are immutable, so the copy is the value. *)
Definition JSON_clone (v : json) : json := v.

(** ** shared/schema.ts *)

(** A [Date]: the instant and its ISO-8601 rendering. *)
Record Date : Type := mkDate { getTime : Z; toISOString : string }.

Module TpsStatus.
Definition DRAFT : string := "draft".
Definition PENDING_REVIEW : string := "pending_review".
Definition PENDING_APPROVAL : string := "pending_approval".
Definition COMPLETED : string := "completed".
Definition ABORTED : string := "aborted".
End TpsStatus.

Module User.
Record t : Type := mk {
  id : Z;
  username : string;
  password : string;
  name : string;
  email : string;
  partner_id : option Z
}.
End User.

(** A row of [tps_reports].  [status] is a [text] column: any string. *)
Module TpsReport.
Record t : Type := mk {
  id : Z;
  created_at : Date;
  updated_at : Date;
  creator_id : Z;
  receiver_id : Z;
  status : string;
  date : string;
  time_start : string;
  time_end : string;
  location : string;
  location_other : option string;
  sound : string;
  form_data : json;
  creator_notes : option string;
  receiver_notes : option string;
  creator_initials : option string;
  receiver_initials : option string;
  replicated_from_id : option Z;
  pdf_path : option string
}.
End TpsReport.

(** [InsertTpsReport]: as a type, the row without [id], [created_at] and
    [updated_at].  An object passed at that type may carry the three keys
    all the same (the create route passes the request body on as it came,
    and [insert(...).values(...)] reads every column it finds): they are the
    last three fields, [None] when the object has no such key.  A date that
    came with a request body arrived as its ISO string; the [Date] stands
    for the instant that string names. *)
Module InsertTpsReport.
Record t : Type := mk {
  creator_id : Z;
  receiver_id : Z;
  status : string;
  date : string;
  time_start : string;
  time_end : string;
  location : string;
  location_other : option string;
  sound : string;
  form_data : json;
  creator_notes : option string;
  receiver_notes : option string;
  creator_initials : option string;
  receiver_initials : option string;
  replicated_from_id : option Z;
  pdf_path : option string;
  id : option Z;
  created_at : option Date;
  updated_at : option Date
}.
End InsertTpsReport.

(** [Partial<TpsReport>]: every key may be absent ([None]); a key that is
    present holds a value of its column's type, and a nullable column may
    hold [null] ([Some None]).  A payload is parsed JSON, so a date in it is
    its ISO string: the [Date] stands for the instant that string names, and
    the value is not a [Date] object. *)
Module PartialTpsReport.
Record t : Type := mk {
  id : option Z;
  created_at : option Date;
  updated_at : option Date;
  creator_id : option Z;
  receiver_id : option Z;
  status : option string;
  date : option string;
  time_start : option string;
  time_end : option string;
  location : option string;
  location_other : option (option string);
  sound : option string;
  form_data : option json;
  creator_notes : option (option string);
  receiver_notes : option (option string);
  creator_initials : option (option string);
  receiver_initials : option (option string);
  replicated_from_id : option (option Z);
  pdf_path : option (option string)
}.

Definition empty : t :=
  mk None None None None None None None None None None
     None None None None None None None None None.
End PartialTpsReport.

Module TpsLog.
Record t : Type := mk {
  id : Z;
  tps_id : Z;
  user_id : Z;
  action : string;
  timestamp : Date;
  details : json
}.
End TpsLog.

Module InsertTpsLog.
Record t : Type := mk {
  tps_id : Z;
  user_id : Z;
  action : string;
  details : json
}.
End InsertTpsLog.

(** ** The world a request runs in

    Besides the store, a request reads the wall clock ([new Date()]), writes
    to the console (which is all [sendEmail] and [addToCalendar] do) and to
    the PDF directory.  The clock is the sequence of readings the
    environment will give; each [new Date()] consumes one. *)

Record CalendarEvent : Type := mkEvent {
  summary : string;
  start : Date;
  description : string
}.

Inductive Buffer : Type :=
| Buffer_from_base64 (data : string).

Inductive ConsoleLine : Type :=
| EmailSent (to subject body : string)
| CalendarEventAdded (userId : Z) (event : CalendarEvent)
| ConsoleError (label : string) (e : exn).

Record World (S : Type) : Type := mkWorld {
  ticks : nat;
  clock : nat -> Date;
  console : list ConsoleLine;
  disk : list (string * Buffer);
  stg : S
}.
Arguments mkWorld {S} _ _ _ _ _.
Arguments ticks {S} _.
Arguments clock {S} _.
Arguments console {S} _.
Arguments disk {S} _.
Arguments stg {S} _.

(** State and exceptions: a thrown error keeps the state reached so far. *)
Definition M (S A : Type) : Type := World S -> outcome A * World S.

Definition ret {S A} (a : A) : M S A := fun w => (Ok a, w).

Definition bind {S A B} (m : M S A) (k : A -> M S B) : M S B :=
  fun w => match m w with
           | (Ok a, w') => k a w'
           | (Throw e, w') => (Throw e, w')
           end.

Definition throw {S A} (e : exn) : M S A := fun w => (Throw e, w).

Definition try_catch {S A} (m : M S A) (handler : exn -> M S A) : M S A :=
  fun w => match m w with
           | (Ok a, w') => (Ok a, w')
           | (Throw e, w') => handler e w'
           end.

Definition lift_outcome {S A} (o : outcome A) : M S A := fun w => (o, w).

Declare Scope io_scope.
Delimit Scope io_scope with io.
Notation "x <- c ;; k" := (bind c (fun x => k))
  (at level 100, c at next level, right associativity) : io_scope.
Notation "c ;;; k" := (bind c (fun _ => k))
  (at level 100, right associativity) : io_scope.
Local Open Scope io_scope.

Definition get_stg {S} : M S S := fun w => (Ok (stg w), w).

Definition put_stg {S} (s : S) : M S unit :=
  fun w => (Ok tt, mkWorld (ticks w) (clock w) (console w) (disk w) s).

(** [new Date()] *)
Definition new_Date {S} : M S Date :=
  fun w => (Ok (clock w (ticks w)),
            mkWorld (Datatypes.S (ticks w)) (clock w) (console w) (disk w) (stg w)).

Definition console_log {S} (l : ConsoleLine) : M S unit :=
  fun w => (Ok tt, mkWorld (ticks w) (clock w) (console w ++ [l]) (disk w) (stg w)).

(** [fs.writeFile(path, data)] *)
Definition writeFile {S} (path : string) (data : Buffer) : M S unit :=
  fun w => (Ok tt, mkWorld (ticks w) (clock w) (console w) ((path, data) :: disk w) (stg w)).

(** ** server/storage.ts: the interface

    The methods of [IStorage] that the report routes call. *)

Class IStorage (S : Type) : Type := {
  getUser : Z -> M S (option User.t);
  getUserWithPartner : Z -> M S (option (User.t * User.t));
  createTpsReport : InsertTpsReport.t -> M S TpsReport.t;
  getTpsReport : Z -> M S (option TpsReport.t);
  updateTpsReport : Z -> PartialTpsReport.t -> M S (option TpsReport.t);
  replicateTpsReport : Z -> M S (option TpsReport.t);
  createTpsLog : InsertTpsLog.t -> M S TpsLog.t;
  sendEmail : string -> string -> string -> M S bool;
  addToCalendar : Z -> CalendarEvent -> M S bool;
  savePdfToDisk : Z -> Buffer -> M S string
}.

(** The object spread [{...report, ...data, updated_at: now}]: a key of
    [data] wins over the stored one, and [updated_at] is written last. *)
Definition spread_update (report : TpsReport.t) (data : PartialTpsReport.t)
    (now : Date) : TpsReport.t :=
  TpsReport.mk
    (default (TpsReport.id report) (PartialTpsReport.id data))
    (default (TpsReport.created_at report) (PartialTpsReport.created_at data))
    now
    (default (TpsReport.creator_id report) (PartialTpsReport.creator_id data))
    (default (TpsReport.receiver_id report) (PartialTpsReport.receiver_id data))
    (default (TpsReport.status report) (PartialTpsReport.status data))
    (default (TpsReport.date report) (PartialTpsReport.date data))
    (default (TpsReport.time_start report) (PartialTpsReport.time_start data))
    (default (TpsReport.time_end report) (PartialTpsReport.time_end data))
    (default (TpsReport.location report) (PartialTpsReport.location data))
    (default (TpsReport.location_other report) (PartialTpsReport.location_other data))
    (default (TpsReport.sound report) (PartialTpsReport.sound data))
    (default (TpsReport.form_data report) (PartialTpsReport.form_data data))
    (default (TpsReport.creator_notes report) (PartialTpsReport.creator_notes data))
    (default (TpsReport.receiver_notes report) (PartialTpsReport.receiver_notes data))
    (default (TpsReport.creator_initials report) (PartialTpsReport.creator_initials data))
    (default (TpsReport.receiver_initials report) (PartialTpsReport.receiver_initials data))
    (default (TpsReport.replicated_from_id report) (PartialTpsReport.replicated_from_id data))
    (default (TpsReport.pdf_path report) (PartialTpsReport.pdf_path data)).

(** [{...report, id, created_at: now, updated_at: now}] *)
Definition spread_insert (report : InsertTpsReport.t) (id : Z) (now : Date)
  : TpsReport.t :=
  TpsReport.mk id now now
    (InsertTpsReport.creator_id report)
    (InsertTpsReport.receiver_id report)
    (InsertTpsReport.status report)
    (InsertTpsReport.date report)
    (InsertTpsReport.time_start report)
    (InsertTpsReport.time_end report)
    (InsertTpsReport.location report)
    (InsertTpsReport.location_other report)
    (InsertTpsReport.sound report)
    (InsertTpsReport.form_data report)
    (InsertTpsReport.creator_notes report)
    (InsertTpsReport.receiver_notes report)
    (InsertTpsReport.creator_initials report)
    (InsertTpsReport.receiver_initials report)
    (InsertTpsReport.replicated_from_id report)
    (InsertTpsReport.pdf_path report).

(** [s.split('T')[0]]: the part of [s] before its first ['T']. *)
Fixpoint before_T (s : string) : string :=
  match s with
  | EmptyString => EmptyString
  | String c rest =>
      if Ascii.eqb c "T"%char then EmptyString else String c (before_T rest)
  end.

Definition string_of_Z (z : Z) : string :=
  DecimalString.NilZero.string_of_int (Z.to_int z).

(** The replica both stores build from [original] once its form data has
    been copied and reset. *)
Definition replica_of (original : TpsReport.t) (formData : json) (today : string)
  : InsertTpsReport.t :=
  InsertTpsReport.mk
    (TpsReport.creator_id original)
    (TpsReport.receiver_id original)
    TpsStatus.DRAFT
    today
    (TpsReport.time_start original)
    (TpsReport.time_end original)
    (TpsReport.location original)
    (TpsReport.location_other original)
    (TpsReport.sound original)
    formData
    (Some "")
    (Some "")
    (Some "")
    (Some "")
    (Some (TpsReport.id original))
    (Some "")
    None None None.

(** [{ matt: '', mina: '' }] *)
Definition blank_emotional_state : json :=
  JObj [("matt", JStr ""); ("mina", JStr "")].

(** The copy of [original.form_data] with its emotional state reset:
    [formData = JSON.parse(JSON.stringify(original.form_data));
     if (formData.emotional_state) formData.emotional_state = {matt:'', mina:''}]. *)
Definition reset_form_data (form_data : json) : outcome json :=
  let formData := JSON_clone form_data in
  match js_get formData "emotional_state" with
  | Throw e => Throw e
  | Ok es =>
      if js_truthy es
      then js_set formData "emotional_state" blank_emotional_state
      else Ok formData
  end.

(** [sendEmail], [addToCalendar] and [savePdfToDisk] read the same in both
    storage classes: the first two only write a console line. *)
Definition log_email {S} (to subject body : string) : M S bool :=
  console_log (EmailSent to subject body) ;;; ret true.

Definition log_calendar {S} (userId : Z) (event : CalendarEvent) : M S bool :=
  console_log (CalendarEventAdded userId event) ;;; ret true.

(** [path.join(pdfDir, `tps_report_${reportId}.pdf`)] *)
Definition pdf_path_of (pdfDir : string) (reportId : Z) : string :=
  pdfDir ++ "/tps_report_" ++ string_of_Z reportId ++ ".pdf".

Definition write_pdf {S} (pdfDir : string) (reportId : Z) (pdfData : Buffer)
  : M S string :=
  let pdfPath := pdf_path_of pdfDir reportId in
  writeFile pdfPath pdfData ;;; ret pdfPath.

(** ** server/storage.ts: [MemStorage] *)

Module MemStorage.

Record t : Type := mk {
  users : gmap Z User.t;
  tpsReports : gmap Z TpsReport.t;
  tpsLogs : gmap Z TpsLog.t;
  userId : Z;
  tpsId : Z;
  logId : Z;
  pdfDir : string
}.

Definition matt : User.t :=
  User.mk 1 "matt" "password" "Matt" "matt@example.com" (Some 2).
Definition mina : User.t :=
  User.mk 2 "mina" "password" "Mina" "mina@example.com" (Some 1).

(** The constructor, [initUsers] included. *)
Definition new (pdfDir : string) : t :=
  mk (<[2 := mina]> (<[1 := matt]> ∅)) ∅ ∅ 3 1 1 pdfDir.

Definition set_reports (f : gmap Z TpsReport.t -> gmap Z TpsReport.t) (s : t) : t :=
  mk (users s) (f (tpsReports s)) (tpsLogs s) (userId s) (tpsId s) (logId s) (pdfDir s).
Definition set_logs (f : gmap Z TpsLog.t -> gmap Z TpsLog.t) (s : t) : t :=
  mk (users s) (tpsReports s) (f (tpsLogs s)) (userId s) (tpsId s) (logId s) (pdfDir s).
Definition bump_tpsId (s : t) : t :=
  mk (users s) (tpsReports s) (tpsLogs s) (userId s) (tpsId s + 1) (logId s) (pdfDir s).
Definition bump_logId (s : t) : t :=
  mk (users s) (tpsReports s) (tpsLogs s) (userId s) (tpsId s) (logId s + 1) (pdfDir s).

Definition modify (f : t -> t) : M t unit :=
  s <- get_stg ;; put_stg (f s).

Definition getUser (id : Z) : M t (option User.t) :=
  s <- get_stg ;; ret (users s !! id).

Definition getUserWithPartner (userId : Z) : M t (option (User.t * User.t)) :=
  user <- getUser userId ;;
  match user with
  | None => ret None
  | Some user =>
      match User.partner_id user with
      | None => ret None
      | Some partner_id =>
          if (partner_id =? 0)%Z then ret None
          else
            partner <- getUser partner_id ;;
            match partner with
            | None => ret None
            | Some partner => ret (Some (user, partner))
            end
      end
  end.

Definition createTpsLog (log : InsertTpsLog.t) : M t TpsLog.t :=
  s <- get_stg ;;
  let id := logId s in
  modify bump_logId ;;;
  now <- new_Date ;;
  let tpsLog :=
    TpsLog.mk id (InsertTpsLog.tps_id log) (InsertTpsLog.user_id log)
              (InsertTpsLog.action log) now (InsertTpsLog.details log) in
  modify (set_logs (insert id tpsLog)) ;;;
  ret tpsLog.

Definition createTpsReport (report : InsertTpsReport.t) : M t TpsReport.t :=
  s <- get_stg ;;
  let id := tpsId s in
  modify bump_tpsId ;;;
  now <- new_Date ;;
  let tpsReport := spread_insert report id now in
  modify (set_reports (insert id tpsReport)) ;;;
  createTpsLog
    (InsertTpsLog.mk id (InsertTpsReport.creator_id report) "created" (JObj [])) ;;;
  ret tpsReport.

Definition getTpsReport (id : Z) : M t (option TpsReport.t) :=
  s <- get_stg ;; ret (tpsReports s !! id).

Definition updateTpsReport (id : Z) (data : PartialTpsReport.t)
  : M t (option TpsReport.t) :=
  s <- get_stg ;;
  match tpsReports s !! id with
  | None => ret None
  | Some report =>
      now <- new_Date ;;
      let updatedReport := spread_update report data now in
      modify (set_reports (insert id updatedReport)) ;;;
      ret (Some updatedReport)
  end.

Definition replicateTpsReport (id : Z) : M t (option TpsReport.t) :=
  original <- getTpsReport id ;;
  match original with
  | None => ret None
  | Some original =>
      formData <- lift_outcome (reset_form_data (TpsReport.form_data original)) ;;
      d <- new_Date ;;
      let today := before_T (toISOString d) in
      let newReport := replica_of original formData today in
      report <- createTpsReport newReport ;;
      createTpsLog
        (InsertTpsLog.mk (TpsReport.id report) (TpsReport.creator_id original)
           "replicated"
           (JObj [("original_id", JNum (TpsReport.id original))])) ;;;
      ret (Some report)
  end.

Definition sendEmail (to subject body : string) : M t bool :=
  log_email to subject body.

Definition addToCalendar (userId : Z) (event : CalendarEvent) : M t bool :=
  log_calendar userId event.

Definition savePdfToDisk (reportId : Z) (pdfData : Buffer) : M t string :=
  s <- get_stg ;; write_pdf (pdfDir s) reportId pdfData.

End MemStorage.

#[export] Instance MemStorage_IStorage : IStorage MemStorage.t := {
  getUser := MemStorage.getUser;
  getUserWithPartner := MemStorage.getUserWithPartner;
  createTpsReport := MemStorage.createTpsReport;
  getTpsReport := MemStorage.getTpsReport;
  updateTpsReport := MemStorage.updateTpsReport;
  replicateTpsReport := MemStorage.replicateTpsReport;
  createTpsLog := MemStorage.createTpsLog;
  sendEmail := MemStorage.sendEmail;
  addToCalendar := MemStorage.addToCalendar;
  savePdfToDisk := MemStorage.savePdfToDisk
}.

(** ** server/db.ts

    The tables of [shared/schema.ts] as lists of rows with their [serial]
    sequences.  A statement commits when the declared constraints (primary
    keys, [references], [notNull]) hold of the tables it leaves; otherwise the driver
    throws and the tables stay as they were.  A sequence value, once drawn,
    is not given back. *)

Module db.

Record t : Type := mk {
  users : list User.t;
  tpsReports : list TpsReport.t;
  tpsLogs : list TpsLog.t;
  tps_reports_id_seq : Z;
  tps_logs_id_seq : Z
}.

Definition has_user (d : t) (id : Z) : bool :=
  existsb (fun u => (User.id u =? id)%Z) (users d).

Definition has_report (d : t) (id : Z) : bool :=
  existsb (fun r => (TpsReport.id r =? id)%Z) (tpsReports d).

Fixpoint unique (ids : list Z) : bool :=
  match ids with
  | [] => true
  | i :: rest => negb (existsb (Z.eqb i) rest) && unique rest
  end.

Definition report_fk_ok (d : t) (r : TpsReport.t) : bool :=
  has_user d (TpsReport.creator_id r)
  && has_user d (TpsReport.receiver_id r)
  && match TpsReport.replicated_from_id r with
     | None => true
     | Some parent => has_report d parent
     end.

Definition log_fk_ok (d : t) (l : TpsLog.t) : bool :=
  has_report d (TpsLog.tps_id l) && has_user d (TpsLog.user_id l).

(** [notNull()]: of the columns so declared only [form_data] has a type
    here that holds [null]. *)
Definition report_not_null (r : TpsReport.t) : bool :=
  match TpsReport.form_data r with
  | JNull => false
  | _ => true
  end.

Definition constraints_ok (d : t) : bool :=
  unique (map TpsReport.id (tpsReports d))
  && forallb (report_fk_ok d) (tpsReports d)
  && unique (map TpsLog.id (tpsLogs d))
  && forallb (log_fk_ok d) (tpsLogs d)
  && forallb report_not_null (tpsReports d).

Definition violation : exn := DbError "integrity constraint violation".

(** What the encoder of a [timestamp] column throws when it is handed a
    value that is not a [Date] object: it calls [value.toISOString()]. *)
Definition not_a_date : exn := TypeError "value.toISOString is not a function".

(** Commit [d'] and hand back [returning], or throw and keep the tables. *)
Definition commit {A} (d' : t) (returning : A) : M t A :=
  if constraints_ok d' then put_stg d' ;;; ret returning
  else throw violation.

Definition with_reports (rows : list TpsReport.t) (d : t) : t :=
  mk (users d) rows (tpsLogs d) (tps_reports_id_seq d) (tps_logs_id_seq d).
Definition with_logs (rows : list TpsLog.t) (d : t) : t :=
  mk (users d) (tpsReports d) rows (tps_reports_id_seq d) (tps_logs_id_seq d).
Definition next_report_id (d : t) : t :=
  mk (users d) (tpsReports d) (tpsLogs d) (tps_reports_id_seq d + 1) (tps_logs_id_seq d).
Definition next_log_id (d : t) : t :=
  mk (users d) (tpsReports d) (tpsLogs d) (tps_reports_id_seq d) (tps_logs_id_seq d + 1).

Definition getUserById (id : Z) : M t (option User.t) :=
  d <- get_stg ;;
  ret (head (List.filter (fun u => (User.id u =? id)%Z) (users d))).

Definition getUserWithPartner (userId : Z) : M t (option (User.t * User.t)) :=
  user <- getUserById userId ;;
  match user with
  | None => ret None
  | Some user =>
      match User.partner_id user with
      | None => ret None
      | Some partner_id =>
          if (partner_id =? 0)%Z then ret None
          else
            partner <- getUserById partner_id ;;
            match partner with
            | None => ret None
            | Some partner => ret (Some (user, partner))
            end
      end
  end.

(** [insert(tpsReports).values(reportData).returning()], first row.  A
    [created_at] or [updated_at] that came with [reportData] is not a [Date]
    object, and encoding it throws before any statement is sent; an [id]
    that came with it is inserted as it is, and the sequence is drawn from
    only when there is none. *)
Definition createTpsReport (reportData : InsertTpsReport.t) : M t TpsReport.t :=
  match InsertTpsReport.created_at reportData, InsertTpsReport.updated_at reportData with
  | None, None =>
      match InsertTpsReport.id reportData with
      | None =>
          d <- get_stg ;;
          let id := tps_reports_id_seq d in
          put_stg (next_report_id d) ;;;
          now <- new_Date ;;
          let report := spread_insert reportData id now in
          d <- get_stg ;;
          commit (with_reports (tpsReports d ++ [report]) d) report
      | Some id =>
          now <- new_Date ;;
          let report := spread_insert reportData id now in
          d <- get_stg ;;
          commit (with_reports (tpsReports d ++ [report]) d) report
      end
  | _, _ => throw not_a_date
  end.

Definition getTpsReport (id : Z) : M t (option TpsReport.t) :=
  d <- get_stg ;;
  ret (head (List.filter (fun r => (TpsReport.id r =? id)%Z) (tpsReports d))).

(** [update(tpsReports).set({...data, updated_at: new Date()})
     .where(eq(tpsReports.id, id)).returning()], first row.  The payload's
    own [updated_at] is overwritten by the [Date] just taken; a [created_at]
    in it is not a [Date] object, and encoding it throws before any
    statement is sent. *)
Definition updateTpsReport (id : Z) (data : PartialTpsReport.t)
  : M t (option TpsReport.t) :=
  now <- new_Date ;;
  match PartialTpsReport.created_at data with
  | Some _ => throw not_a_date
  | None =>
      d <- get_stg ;;
      let set_row r := spread_update r data now in
      let rows :=
        map (fun r => if (TpsReport.id r =? id)%Z then set_row r else r) (tpsReports d) in
      let returning :=
        map set_row (List.filter (fun r => (TpsReport.id r =? id)%Z) (tpsReports d)) in
      commit (with_reports rows d) (head returning)
  end.

(** [insert(tpsLogs).values(logData).returning()], first row; [logData]
    carries its timestamp. *)
Definition createTpsLog (logData : InsertTpsLog.t) (timestamp : Date)
  : M t TpsLog.t :=
  d <- get_stg ;;
  let id := tps_logs_id_seq d in
  put_stg (next_log_id d) ;;;
  let log :=
    TpsLog.mk id (InsertTpsLog.tps_id logData) (InsertTpsLog.user_id logData)
              (InsertTpsLog.action logData) timestamp (InsertTpsLog.details logData) in
  d <- get_stg ;;
  commit (with_logs (tpsLogs d ++ [log]) d) log.

(** The tables with one more report, one more log. *)
Definition add_report (row : TpsReport.t) (d : t) : t :=
  with_reports (tpsReports d ++ [row]) (next_report_id d).
Definition add_log (row : TpsLog.t) (d : t) : t :=
  with_logs (tpsLogs d ++ [row]) (next_log_id d).

(** Every id in use lies below its sequence: what [serial] maintains as
    long as no statement writes an id of its own choosing. *)
Definition ids_below (bound : Z) (ids : list Z) : bool :=
  forallb (fun i => (i <? bound)%Z) ids.

Definition wf (d : t) : bool :=
  constraints_ok d
  && ids_below (tps_reports_id_seq d) (map TpsReport.id (tpsReports d))
  && ids_below (tps_logs_id_seq d) (map TpsLog.id (tpsLogs d)).

(** The tables after [seedDatabase]. *)
Definition seeded : t :=
  mk [ User.mk 1 "matt" "password" "Matt" "matt@example.com" (Some 2);
       User.mk 2 "mina" "password" "Mina" "mina@example.com" (Some 1) ]
     [] [] 1 1.

End db.

(** Run a computation on a part of the store. *)
Definition zoom {S T A} (get : S -> T) (set : T -> S -> S) (m : M T A) : M S A :=
  fun w =>
    match m (mkWorld (ticks w) (clock w) (console w) (disk w) (get (stg w))) with
    | (o, w') =>
        (o, mkWorld (ticks w') (clock w') (console w') (disk w') (set (stg w') (stg w)))
    end.

(** ** server/database-storage.ts: [DatabaseStorage] *)

Module DatabaseStorage.

Record t : Type := mk {
  pdfDir : string;
  conn : db.t
}.

Definition new (pdfDir : string) : t := mk pdfDir db.seeded.

(** The world [n] clock readings later, with tables [d]. *)
Definition later (w : World t) (n : nat) (d : db.t) : World t :=
  mkWorld (n + ticks w) (clock w) (console w) (disk w) (mk (pdfDir (stg w)) d).

Definition on_db {A} (m : M db.t A) : M t A :=
  zoom conn (fun d s => mk (pdfDir s) d) m.

Definition getUser (id : Z) : M t (option User.t) :=
  on_db (db.getUserById id).

Definition getUserWithPartner (userId : Z) : M t (option (User.t * User.t)) :=
  on_db (db.getUserWithPartner userId).

Definition createTpsLog (log : InsertTpsLog.t) : M t TpsLog.t :=
  now <- new_Date ;;
  on_db (db.createTpsLog log now).

Definition createTpsReport (report : InsertTpsReport.t) : M t TpsReport.t :=
  newReport <- on_db (db.createTpsReport report) ;;
  createTpsLog
    (InsertTpsLog.mk (TpsReport.id newReport) (InsertTpsReport.creator_id report)
       "created" (JObj [])) ;;;
  ret newReport.

Definition getTpsReport (id : Z) : M t (option TpsReport.t) :=
  on_db (db.getTpsReport id).

Definition updateTpsReport (id : Z) (data : PartialTpsReport.t)
  : M t (option TpsReport.t) :=
  on_db (db.updateTpsReport id data).

Definition replicateTpsReport (id : Z) : M t (option TpsReport.t) :=
  original <- getTpsReport id ;;
  match original with
  | None => ret None
  | Some original =>
      formData <- lift_outcome (reset_form_data (TpsReport.form_data original)) ;;
      d <- new_Date ;;
      let today := before_T (toISOString d) in
      let newReport := replica_of original formData today in
      report <- createTpsReport newReport ;;
      createTpsLog
        (InsertTpsLog.mk (TpsReport.id report) (TpsReport.creator_id original)
           "replicated"
           (JObj [("original_id", JNum (TpsReport.id original))])) ;;;
      ret (Some report)
  end.

Definition sendEmail (to subject body : string) : M t bool :=
  log_email to subject body.

Definition addToCalendar (userId : Z) (event : CalendarEvent) : M t bool :=
  log_calendar userId event.

Definition savePdfToDisk (reportId : Z) (pdfData : Buffer) : M t string :=
  s <- get_stg ;; write_pdf (pdfDir s) reportId pdfData.

End DatabaseStorage.

#[export] Instance DatabaseStorage_IStorage : IStorage DatabaseStorage.t := {
  getUser := DatabaseStorage.getUser;
  getUserWithPartner := DatabaseStorage.getUserWithPartner;
  createTpsReport := DatabaseStorage.createTpsReport;
  getTpsReport := DatabaseStorage.getTpsReport;
  updateTpsReport := DatabaseStorage.updateTpsReport;
  replicateTpsReport := DatabaseStorage.replicateTpsReport;
  createTpsLog := DatabaseStorage.createTpsLog;
  sendEmail := DatabaseStorage.sendEmail;
  addToCalendar := DatabaseStorage.addToCalendar;
  savePdfToDisk := DatabaseStorage.savePdfToDisk
}.

(** ** server/routes.ts: the report routes

    Each handler is given the session's user (the [authenticate] middleware
    has let the request through), the [:id] segment after [parseInt]
    ([None] is [NaN]) and the body.  A body is taken at the type the store
    methods declare for it, each field with a value of its column's type:
    an [InsertTpsReport] that [insertTpsReportSchema.parse] has accepted
    (with the [id], [created_at] and [updated_at] it may carry besides,
    which the route does not strip), a [Partial<TpsReport>]. *)

Inductive Body : Type :=
| Message (message : string)
| ReportJson (report : TpsReport.t).

Record Response : Type := mkResponse { code : Z; body : Body }.

(** What the permission part of the update handler ends in: an answer, or
    the report it read together with the caller's two roles. *)
Inductive Checked : Type :=
| Denied (res : Response)
| Granted (report : TpsReport.t) (isCreator isReceiver : bool).

Definition status_is (data : PartialTpsReport.t) (s : string) : bool :=
  match PartialTpsReport.status data with
  | Some s' => (s' =? s)%string
  | None => false
  end.

Definition only_pdf_path (pdfPath : string) : PartialTpsReport.t :=
  PartialTpsReport.mk None None None None None None None None None None
    None None None None None None None None (Some (Some pdfPath)).

Section Routes.

Context {S : Type} {storage : IStorage S}.

Definition respond (c : Z) (message : string) : Response :=
  mkResponse c (Message message).

Definition server_error (label message : string) (e : exn) : M S Response :=
  console_log (ConsoleError label e) ;;; ret (respond 500 message).

(** POST /api/tps-reports, for a body that [insertTpsReportSchema.parse]
    lets through, which is what the type of [body] says: every required
    column has a value of its type, and [form_data] is any JSON value,
    [null] included.  Keys the schema does not know pass the check
    unnoticed; the parsed copy is dropped and the body itself goes to the
    store, with the parties overwritten. *)
Definition post_tps_report (userId : Z) (body : InsertTpsReport.t)
    (pdfData : option string) : M S Response :=
  try_catch
    (userData <- getUserWithPartner userId ;;
     match userData with
     | None => ret (respond 404 "User or partner not found")
     | Some (user, partner) =>
         let reportData :=
           InsertTpsReport.mk userId (User.id partner)
             (InsertTpsReport.status body) (InsertTpsReport.date body)
             (InsertTpsReport.time_start body) (InsertTpsReport.time_end body)
             (InsertTpsReport.location body) (InsertTpsReport.location_other body)
             (InsertTpsReport.sound body) (InsertTpsReport.form_data body)
             (InsertTpsReport.creator_notes body) (InsertTpsReport.receiver_notes body)
             (InsertTpsReport.creator_initials body)
             (InsertTpsReport.receiver_initials body)
             (InsertTpsReport.replicated_from_id body) (InsertTpsReport.pdf_path body)
             (InsertTpsReport.id body) (InsertTpsReport.created_at body)
             (InsertTpsReport.updated_at body) in
         report <- createTpsReport reportData ;;
         match pdfData with
         | Some data =>
             if (data =? "")%string then ret tt
             else
               pdfPath <- savePdfToDisk (TpsReport.id report) (Buffer_from_base64 data) ;;
               updateTpsReport (TpsReport.id report) (only_pdf_path pdfPath) ;;;
               ret tt
         | None => ret tt
         end ;;;
         (if (TpsReport.status report =? TpsStatus.PENDING_REVIEW)%string
          then
            sendEmail (User.email partner) "New TPS Report Available"
              (User.name user ++ " has created a new TPS report for you to review. Please log in to FormPlay to check it out!") ;;;
            ret tt
          else ret tt) ;;;
         ret (mkResponse 201 (ReportJson report))
     end)
    (server_error "Create TPS report error:" "Server error creating TPS report").

(** PUT /api/tps-reports/:id, from reading the report up to and including
    the status checks. *)
Definition put_check (userId reportId : Z) : M S Checked :=
  report <- getTpsReport reportId ;;
  match report with
  | None => ret (Denied (respond 404 "TPS report not found"))
  | Some report =>
      let isCreator := (TpsReport.creator_id report =? userId)%Z in
      let isReceiver := (TpsReport.receiver_id report =? userId)%Z in
      let status := TpsReport.status report in
      if negb isCreator && negb isReceiver then
        ret (Denied (respond 403 "Access denied to this report"))
      else if (status =? TpsStatus.DRAFT)%string && negb isCreator then
        ret (Denied (respond 403 "Only the creator can edit a draft"))
      else if (status =? TpsStatus.PENDING_REVIEW)%string && negb isReceiver then
        ret (Denied (respond 403 "Only the receiver can review this report"))
      else if (status =? TpsStatus.PENDING_APPROVAL)%string && negb isCreator then
        ret (Denied (respond 403 "Only the creator can approve this report"))
      else if (status =? TpsStatus.COMPLETED)%string
              || (status =? TpsStatus.ABORTED)%string then
        ret (Denied (respond 403 "This report is already finalized"))
      else ret (Granted report isCreator isReceiver)
  end.

(** The notifications of the update handler. *)
Definition put_notify (userId : Z) (report : TpsReport.t)
    (isCreator isReceiver : bool) (updateData : PartialTpsReport.t)
    (user partner : User.t) : M S unit :=
  if status_is updateData TpsStatus.PENDING_REVIEW && isCreator then
    sendEmail (User.email partner) "TPS Report Ready for Review"
      (User.name user ++ " has submitted a TPS report for your review. Please log in to FormPlay to check it out!") ;;;
    ret tt
  else if status_is updateData TpsStatus.PENDING_APPROVAL && isReceiver then
    sendEmail (User.email partner) "TPS Report Ready for Your Approval"
      (User.name user ++ " has reviewed your TPS report. Please log in to FormPlay to check it out!") ;;;
    ret tt
  else if status_is updateData TpsStatus.COMPLETED && isCreator then
    sendEmail (User.email partner) "TPS Report Completed"
      (User.name user ++ " has approved the TPS report. It's time to review TPS reports!") ;;;
    now <- new_Date ;;
    let event :=
      mkEvent "Review TPS Reports" now
        ("TPS Report #" ++ string_of_Z (TpsReport.id report) ++ " review time!") in
    addToCalendar userId event ;;;
    addToCalendar (User.id partner) event ;;;
    ret tt
  else if status_is updateData TpsStatus.ABORTED then
    let partner := if isCreator then partner else user in
    sendEmail (User.email partner) "TPS Report Aborted"
      "A TPS report has been aborted. Please log in to FormPlay for details." ;;;
    ret tt
  else ret tt.

(** PUT /api/tps-reports/:id, from the store update on. *)
Definition put_apply (userId reportId : Z) (report : TpsReport.t)
    (isCreator isReceiver : bool) (updateData : PartialTpsReport.t)
  : M S Response :=
  updatedReport <- updateTpsReport reportId updateData ;;
  match updatedReport with
  | None => ret (respond 500 "Failed to update TPS report")
  | Some updatedReport =>
      createTpsLog
        (InsertTpsLog.mk reportId userId "updated"
           (JObj [("status", JStr (TpsReport.status updatedReport))])) ;;;
      userData <- getUserWithPartner userId ;;
      match userData with
      | Some (user, partner) =>
          put_notify userId report isCreator isReceiver updateData user partner
      | None => ret tt
      end ;;;
      ret (mkResponse 200 (ReportJson updatedReport))
  end.

Definition put_error : exn -> M S Response :=
  server_error "Update TPS report error:" "Server error updating TPS report".

(** PUT /api/tps-reports/:id *)
Definition put_tps_report (userId : Z) (reportId : option Z)
    (updateData : PartialTpsReport.t) : M S Response :=
  try_catch
    (match reportId with
     | None => ret (respond 400 "Invalid report ID")
     | Some reportId =>
         checked <- put_check userId reportId ;;
         match checked with
         | Denied res => ret res
         | Granted report isCreator isReceiver =>
             put_apply userId reportId report isCreator isReceiver updateData
         end
     end)
    put_error.

(** POST /api/tps-reports/:id/replicate *)
Definition post_replicate (userId : Z) (reportId : option Z) : M S Response :=
  try_catch
    (match reportId with
     | None => ret (respond 400 "Invalid report ID")
     | Some reportId =>
         report <- getTpsReport reportId ;;
         match report with
         | None => ret (respond 404 "TPS report not found")
         | Some report =>
             if negb (TpsReport.status report =? TpsStatus.COMPLETED)%string
                && negb (TpsReport.status report =? TpsStatus.ABORTED)%string
             then ret (respond 400 "Only completed or aborted reports can be replicated")
             else
               newReport <- replicateTpsReport reportId ;;
               match newReport with
               | None => ret (respond 500 "Failed to replicate TPS report")
               | Some newReport => ret (mkResponse 201 (ReportJson newReport))
               end
         end
     end)
    (server_error "Replicate TPS report error:" "Server error replicating TPS report").

End Routes.

(** [Forbidden] and [Conflict] as the HTTP layer spells them. *)
Definition Forbidden (res : Response) : Prop := code res = 403.
Definition Conflict (res : Response) : Prop := code res = 409.

(** What a read returns in a world, [None] also when it throws. *)
Definition result_of {S A} (m : M S (option A)) (w : World S) : option A :=
  match fst (m w) with
  | Ok o => o
  | Throw _ => None
  end.

(** ** Statements under examination, as predicates on a store *)

Definition is_terminal (status : string) : Prop :=
  status = TpsStatus.COMPLETED \/ status = TpsStatus.ABORTED.

(** "[updateTpsReport] refuses to apply changes to a report whose persisted
    status is terminal": no report comes back and the stored one is as it
    was. *)
Definition store_refuses_terminal (S : Type) {storage : IStorage S} : Prop :=
  forall (w : World S) (id : Z) (data : PartialTpsReport.t) (report : TpsReport.t),
    getTpsReport id w = (Ok (Some report), w) ->
    is_terminal (TpsReport.status report) ->
    (forall updated, fst (updateTpsReport id data w) <> Ok (Some updated))
    /\ fst (getTpsReport id (snd (updateTpsReport id data w))) = Ok (Some report).

(** A payload the database takes for the report [reportId]: it names no
    [created_at], does not set [form_data] to [null], names no id but the
    report's own, and names in [creator_id], [receiver_id] and
    [replicated_from_id] only rows that exist. *)
Definition acceptable (d : db.t) (reportId : Z) (data : PartialTpsReport.t) : Prop :=
  PartialTpsReport.created_at data = None
  /\ PartialTpsReport.form_data data <> Some JNull
  /\ (forall j, PartialTpsReport.id data = Some j -> j = reportId)
  /\ (forall u, PartialTpsReport.creator_id data = Some u -> db.has_user d u = true)
  /\ (forall u, PartialTpsReport.receiver_id data = Some u -> db.has_user d u = true)
  /\ (forall p, PartialTpsReport.replicated_from_id data = Some (Some p) ->
                 db.has_report d p = true).

(** The row function of [UPDATE ... WHERE id = i]. *)
Definition set_where (i : Z) (data : PartialTpsReport.t) (now : Date)
    (r : TpsReport.t) : TpsReport.t :=
  if (TpsReport.id r =? i)%Z then spread_update r data now else r.

(** ** What replication is said to produce, and what it produces *)

(** The replica stored under [id] at [created], the date taken at [today]. *)
Definition replica (original : TpsReport.t) (formData : json) (id : Z)
    (today created : Date) : TpsReport.t :=
  spread_insert (replica_of original formData (before_T (toISOString today)))
    id created.

(** The specification's "cleared", of a text field, read at its widest:
    absent or empty. *)
Definition cleared (field : option string) : Prop :=
  field = None \/ field = Some "".

(** [form_data.emotional_state], where reading it does not throw. *)
Definition emotional_state_of (form_data : json) : option json :=
  match form_data with
  | JObj kvs => assoc_get "emotional_state" kvs
  | _ => None
  end.

(** The specification's "cleared", of the emotional state of a form, read
    at its widest: it reads as the blank pair or as nothing truthy. *)
Definition emotional_state_cleared (form_data : json) : Prop :=
  emotional_state_of form_data = Some blank_emotional_state
  \/ js_truthy (emotional_state_of form_data) = false.

Definition other_form_data_kept (original copy : json) : Prop :=
  forall k, k <> "emotional_state" -> js_get copy k = js_get original k.

(** The fields both descriptions agree on. *)
Definition replica_core (R R' : TpsReport.t) (today : string) : Prop :=
  TpsReport.status R' = TpsStatus.DRAFT
  /\ TpsReport.replicated_from_id R' = Some (TpsReport.id R)
  /\ TpsReport.date R' = today
  /\ TpsReport.creator_id R' = TpsReport.creator_id R
  /\ TpsReport.receiver_id R' = TpsReport.receiver_id R
  /\ TpsReport.time_start R' = TpsReport.time_start R
  /\ TpsReport.time_end R' = TpsReport.time_end R
  /\ TpsReport.location R' = TpsReport.location R
  /\ TpsReport.location_other R' = TpsReport.location_other R
  /\ TpsReport.sound R' = TpsReport.sound R
  /\ other_form_data_kept (TpsReport.form_data R) (TpsReport.form_data R').

(** As the specification has it: apart from status, provenance, date,
    initials and emotional state, the content is R's. *)
Definition replica_as_specified (R R' : TpsReport.t) (today : string) : Prop :=
  replica_core R R' today
  /\ cleared (TpsReport.creator_initials R')
  /\ cleared (TpsReport.receiver_initials R')
  /\ emotional_state_cleared (TpsReport.form_data R')
  /\ TpsReport.creator_notes R' = TpsReport.creator_notes R
  /\ TpsReport.receiver_notes R' = TpsReport.receiver_notes R.

(** As the stores build it: both initials, both notes and the PDF path are
    the empty string; an emotional state that was truthy is the blank pair,
    and form data whose emotional state was not truthy is the original's. *)
Definition replica_as_built (R R' : TpsReport.t) (today : string) : Prop :=
  replica_core R R' today
  /\ TpsReport.creator_initials R' = Some ""
  /\ TpsReport.receiver_initials R' = Some ""
  /\ TpsReport.creator_notes R' = Some ""
  /\ TpsReport.receiver_notes R' = Some ""
  /\ TpsReport.pdf_path R' = Some ""
  /\ (js_truthy (emotional_state_of (TpsReport.form_data R)) = true ->
      emotional_state_of (TpsReport.form_data R') = Some blank_emotional_state)
  /\ (js_truthy (emotional_state_of (TpsReport.form_data R)) = false ->
      TpsReport.form_data R' = TpsReport.form_data R).

(** "Replicating a completed report yields the replica the specification
    describes and leaves the report as it was", for the replicate route over
    a store. *)
Definition replicate_as_specified (S : Type) {storage : IStorage S} : Prop :=
  forall (w : World S) (userId id : Z) (R : TpsReport.t),
    getTpsReport id w = (Ok (Some R), w) ->
    TpsReport.status R = TpsStatus.COMPLETED ->
    exists R' w',
      post_replicate userId (Some id) w = (Ok (mkResponse 201 (ReportJson R')), w')
      /\ replica_as_specified R R' (before_T (toISOString (clock w (ticks w))))
      /\ getTpsReport id w' = (Ok (Some R), w').

(** ** The status of stored reports across requests *)

Inductive Request : Type :=
| Create (userId : Z) (body : InsertTpsReport.t) (pdfData : option string)
| Update (userId : Z) (reportId : option Z) (updateData : PartialTpsReport.t).

Definition handle {S} {storage : IStorage S} (req : Request) : M S Response :=
  match req with
  | Create userId body pdfData => post_tps_report userId body pdfData
  | Update userId reportId updateData => put_tps_report userId reportId updateData
  end.

(** The world after a sequence of requests, handled one after the other. *)
Definition run {S} {storage : IStorage S} (reqs : list Request) (w : World S)
  : World S :=
  fold_left (fun w req => snd (handle req w)) reqs w.

(** The report stored under [id]. *)
Definition stored {S} {storage : IStorage S} (id : Z) (w : World S)
  : option TpsReport.t :=
  result_of (getTpsReport id) w.

(** The five members of [TpsStatus]. *)
Definition enumerated (status : string) : Prop :=
  In status [TpsStatus.DRAFT; TpsStatus.PENDING_REVIEW; TpsStatus.PENDING_APPROVAL;
             TpsStatus.COMPLETED; TpsStatus.ABORTED].

(** The transitions of the specification's table between stored statuses. *)
Definition listed_transition (from to : string) : Prop :=
  (from = TpsStatus.DRAFT /\ to = TpsStatus.PENDING_REVIEW)
  \/ (from = TpsStatus.PENDING_REVIEW /\ to = TpsStatus.PENDING_APPROVAL)
  \/ (from = TpsStatus.PENDING_REVIEW /\ to = TpsStatus.ABORTED)
  \/ (from = TpsStatus.PENDING_APPROVAL /\ to = TpsStatus.COMPLETED)
  \/ (from = TpsStatus.PENDING_APPROVAL /\ to = TpsStatus.ABORTED).

(** "Every stored status is enumerated, and every status change a request
    brings about is listed", from the initial world [w0]. *)
Definition transition_graph_closed {S} {storage : IStorage S} (w0 : World S) : Prop :=
  forall (reqs : list Request) (req : Request) (id : Z) (r r' : TpsReport.t),
    stored id (run reqs w0) = Some r ->
    stored id (snd (handle req (run reqs w0))) = Some r' ->
    enumerated (TpsReport.status r')
    /\ (TpsReport.status r' <> TpsReport.status r ->
        listed_transition (TpsReport.status r) (TpsReport.status r')).

(** The role that may write a report of a given status, as the update
    handler checks it for [userId]. *)
Definition writes_as_owner (userId : Z) (r : TpsReport.t) : Prop :=
  (TpsReport.creator_id r = userId \/ TpsReport.receiver_id r = userId)
  /\ ~ is_terminal (TpsReport.status r)
  /\ (TpsReport.status r = TpsStatus.DRAFT -> TpsReport.creator_id r = userId)
  /\ (TpsReport.status r = TpsStatus.PENDING_REVIEW -> TpsReport.receiver_id r = userId)
  /\ (TpsReport.status r = TpsStatus.PENDING_APPROVAL -> TpsReport.creator_id r = userId).

(** The rows of [tps_reports] in a world of the database store. *)
Definition reports_of (w : World DatabaseStorage.t) : list TpsReport.t :=
  db.tpsReports (DatabaseStorage.conn (stg w)).

Definition find_report (id : Z) (rows : list TpsReport.t) : option TpsReport.t :=
  head (List.filter (fun r => (TpsReport.id r =? id)%Z) rows).

(** A computation that leaves [tps_reports] as it is, however it ends. *)
Definition keeps_reports {A} (m : M DatabaseStorage.t A) : Prop :=
  forall w, reports_of (snd (m w)) = reports_of w.

(** Rows found before are found after, with the status they had. *)
Definition status_stable (rows rows' : list TpsReport.t) : Prop :=
  forall id r, find_report id rows = Some r ->
    exists r', find_report id rows' = Some r'
               /\ TpsReport.status r' = TpsReport.status r.

Definition keeps_statuses {A} (m : M DatabaseStorage.t A) : Prop :=
  forall w, status_stable (reports_of w) (reports_of (snd (m w))).

(** ** Completion, as specified *)





(** ** Two update requests in flight

    The update handler awaits the store twice before it answers: once to
    read the report, once to write it.  Between the two another request may
    run.  A request is therefore handled in two steps, each of which runs
    undisturbed: the check, which ends in an answer or in the permission to
    go on, and the rest. *)

Record UpdateRequest : Type := mkUpdate {
  by_user : Z;
  for_report : Z;
  payload : PartialTpsReport.t
}.

Definition check_phase {S} {storage : IStorage S} (q : UpdateRequest) : M S Checked :=
  try_catch (put_check (by_user q) (for_report q))
    (fun e => res <- put_error e ;; ret (Denied res)).

Definition apply_phase {S} {storage : IStorage S} (q : UpdateRequest) (c : Checked)
  : M S Response :=
  match c with
  | Denied res => ret res
  | Granted report isCreator isReceiver =>
      try_catch
        (put_apply (by_user q) (for_report q) report isCreator isReceiver (payload q))
        put_error
  end.

(** Both requests are checked before either goes on. *)
Definition race {S} {storage : IStorage S} (a b : UpdateRequest)
  : M S (Response * Response) :=
  ca <- check_phase a ;;
  cb <- check_phase b ;;
  ra <- apply_phase a ca ;;
  rb <- apply_phase b cb ;;
  ret (ra, rb).

(** "Of two conflicting transition requests for one report exactly one
    succeeds, the other fails with Conflict, and the report ends with the
    winner's status", for the requests [a] and [b] racing from [w]. *)
Definition exactly_one_succeeds {S} {storage : IStorage S} : Prop :=
  forall (w w' : World S) (a b : UpdateRequest) (ra rb : Response) (sa sb : string),
    for_report a = for_report b ->
    PartialTpsReport.status (payload a) = Some sa ->
    PartialTpsReport.status (payload b) = Some sb ->
    sa <> sb ->
    race a b w = (Ok (ra, rb), w') ->
    (code ra = 200 /\ Conflict rb
     /\ option_map TpsReport.status (stored (for_report a) w') = Some sa)
    \/ (code rb = 200 /\ Conflict ra
        /\ option_map TpsReport.status (stored (for_report a) w') = Some sb).

(** ** Sample worlds *)

Module Sample.

Definition clock (n : nat) : Date :=
  mkDate (Z.of_nat n) "2025-03-04T20:15:00.000Z".

Definition fresh_db : World DatabaseStorage.t :=
  mkWorld 0%nat clock [] [] (DatabaseStorage.new "/app/storage/pdfs").

Definition fresh_mem : World MemStorage.t :=
  mkWorld 0%nat clock [] [] (MemStorage.new "/app/storage/pdfs").

Definition body (status : string) : InsertTpsReport.t :=
  InsertTpsReport.mk 0 0 status "2025-03-01" "21:30" "22:00" "bedroom" None
    "music"
    (JObj [("emotional_state", JObj [("matt", JStr "calm"); ("mina", JStr "curious")]);
           ("netflix_show", JStr "Severance")])
    (Some "bring snacks") (Some "ok") None None None None None None None.

Definition set_status (status : string) : PartialTpsReport.t :=
  PartialTpsReport.mk None None None None None (Some status) None None None None
    None None None None None None None None None.

Definition after {S A} (m : M S A) (w : World S) : World S := snd (m w).

(** Matt has saved a draft. *)
Definition db_draft : World DatabaseStorage.t :=
  after (post_tps_report 1 (body "draft") None) fresh_db.

(** ... submitted it, *)
Definition db_pending_review : World DatabaseStorage.t :=
  after (put_tps_report 1 (Some 1) (set_status "pending_review")) db_draft.

(** ... Mina has sent it back, *)
Definition db_pending_approval : World DatabaseStorage.t :=
  after (put_tps_report 2 (Some 1) (set_status "pending_approval")) db_pending_review.

(** ... and Matt has approved it. *)
Definition db_completed : World DatabaseStorage.t :=
  after (put_tps_report 1 (Some 1) (set_status "completed")) db_pending_approval.

Definition mem_draft : World MemStorage.t :=
  after (post_tps_report 1 (body "draft") None) fresh_mem.

Definition mem_completed : World MemStorage.t :=
  after (put_tps_report 1 (Some 1) (set_status "completed"))
    (after (put_tps_report 2 (Some 1) (set_status "pending_approval"))
       (after (put_tps_report 1 (Some 1) (set_status "pending_review")) mem_draft)).

(** The report stored under [id], if the read succeeds. *)
Definition stored {S} {storage : IStorage S} (id : Z) (w : World S)
  : option TpsReport.t :=
  match fst (getTpsReport id w) with
  | Ok r => r
  | Throw _ => None
  end.

End Sample.

(** * More of the server: the reads

    [server/db.ts] and [server/database-storage.ts], the queries, and the
    routes of [server/routes.ts] that answer with them.  A SELECT without
    ORDER BY promises no order; the rows are given here in table order, and
    what is proved of them does not depend on it. *)

(** [db.getAllUsers] *)
Definition db_getAllUsers : M db.t (list User.t) :=
  d <- get_stg ;; ret (db.users d).

(** [db.getTpsReportsByUser] *)
Definition db_getTpsReportsByUser (userId : Z) : M db.t (list TpsReport.t) :=
  d <- get_stg ;;
  ret (List.filter
         (fun r => (TpsReport.creator_id r =? userId)%Z
                   || (TpsReport.receiver_id r =? userId)%Z)
         (db.tpsReports d)).

(** [db.getTpsReportsByStatus] *)
Definition db_getTpsReportsByStatus (status : string) : M db.t (list TpsReport.t) :=
  d <- get_stg ;;
  ret (List.filter (fun r => (TpsReport.status r =? status)%string) (db.tpsReports d)).

(** [db.getTpsLogsByReport] *)
Definition db_getTpsLogsByReport (tpsId : Z) : M db.t (list TpsLog.t) :=
  d <- get_stg ;;
  ret (List.filter (fun l => (TpsLog.tps_id l =? tpsId)%Z) (db.tpsLogs d)).

(** [logs.sort((a, b) => time(b) - time(a))]: [Array.prototype.sort] is a
    stable sort; with this comparator the newest entry comes first and
    entries of one instant keep their order. *)
Fixpoint insert_newest_first (x : TpsLog.t) (l : list TpsLog.t) : list TpsLog.t :=
  match l with
  | [] => [x]
  | y :: ys =>
      if (getTime (TpsLog.timestamp y) <=? getTime (TpsLog.timestamp x))%Z
      then x :: y :: ys
      else y :: insert_newest_first x ys
  end.

Definition sort_newest_first (logs : list TpsLog.t) : list TpsLog.t :=
  fold_right insert_newest_first [] logs.

Definition DatabaseStorage_getAllUsers : M DatabaseStorage.t (list User.t) :=
  DatabaseStorage.on_db db_getAllUsers.

Definition DatabaseStorage_getTpsReportsByUser (userId : Z)
  : M DatabaseStorage.t (list TpsReport.t) :=
  DatabaseStorage.on_db (db_getTpsReportsByUser userId).

Definition DatabaseStorage_getTpsReportsByStatus (status : string)
  : M DatabaseStorage.t (list TpsReport.t) :=
  DatabaseStorage.on_db (db_getTpsReportsByStatus status).

Definition DatabaseStorage_getTpsLogsByReport (tpsId : Z)
  : M DatabaseStorage.t (list TpsLog.t) :=
  logs <- DatabaseStorage.on_db (db_getTpsLogsByReport tpsId) ;;
  ret (sort_newest_first logs).

(** What the reading routes answer with. *)
Inductive ReadBody : Type :=
| ReadMessage (message : string)
| EnrichedReport (report : TpsReport.t) (creator_name receiver_name : string)
| EnrichedReports (reports : list (TpsReport.t * string * string))
| EnrichedLogs (logs : list (TpsLog.t * string))
| Stats (pending completed aborted : nat).

Record ReadResponse : Type := mkRead { read_code : Z; read_body : ReadBody }.

(** [usersMap.get(id)?.name || 'Unknown'] for
    [usersMap = new Map(users.map(user => [user.id, user]))]: of several
    users with one id the map keeps the last. *)
Definition name_in (users : list User.t) (id : Z) : string :=
  match head (List.filter (fun u => (User.id u =? id)%Z) (rev users)) with
  | Some u => if (User.name u =? "")%string then "Unknown" else User.name u
  | None => "Unknown"
  end.

Definition enrich (users : list User.t) (report : TpsReport.t)
  : TpsReport.t * string * string :=
  (report, name_in users (TpsReport.creator_id report),
   name_in users (TpsReport.receiver_id report)).

Definition read_error (label message : string) (e : exn)
  : M DatabaseStorage.t ReadResponse :=
  console_log (ConsoleError label e) ;;; ret (mkRead 500 (ReadMessage message)).

(** GET /api/tps-reports ([status] is the query parameter, if any) *)
Definition get_tps_reports (userId : Z) (status : option string)
  : M DatabaseStorage.t ReadResponse :=
  try_catch
    (reports <-
       match status with
       | Some (String c s) =>
           reports <- DatabaseStorage_getTpsReportsByStatus (String c s) ;;
           ret (List.filter
                  (fun report => (TpsReport.creator_id report =? userId)%Z
                                 || (TpsReport.receiver_id report =? userId)%Z)
                  reports)
       | _ => DatabaseStorage_getTpsReportsByUser userId
       end ;;
     users <- DatabaseStorage_getAllUsers ;;
     ret (mkRead 200 (EnrichedReports (map (enrich users) reports))))
    (read_error "Get TPS reports error:" "Server error fetching TPS reports").

(** GET /api/tps-reports/:id *)
Definition get_tps_report (userId : Z) (reportId : option Z)
  : M DatabaseStorage.t ReadResponse :=
  try_catch
    (match reportId with
     | None => ret (mkRead 400 (ReadMessage "Invalid report ID"))
     | Some reportId =>
         report <- DatabaseStorage.getTpsReport reportId ;;
         match report with
         | None => ret (mkRead 404 (ReadMessage "TPS report not found"))
         | Some report =>
             if negb (TpsReport.creator_id report =? userId)%Z
                && negb (TpsReport.receiver_id report =? userId)%Z
             then ret (mkRead 403 (ReadMessage "Access denied to this report"))
             else
               DatabaseStorage.createTpsLog
                 (InsertTpsLog.mk reportId userId "viewed" (JObj [])) ;;;
               users <- DatabaseStorage_getAllUsers ;;
               match enrich users report with
               | (r, creator_name, receiver_name) =>
                   ret (mkRead 200 (EnrichedReport r creator_name receiver_name))
               end
         end
     end)
    (read_error "Get TPS report error:" "Server error fetching TPS report").

(** GET /api/tps-reports/:id/logs *)
Definition get_tps_logs (userId : Z) (reportId : option Z)
  : M DatabaseStorage.t ReadResponse :=
  try_catch
    (match reportId with
     | None => ret (mkRead 400 (ReadMessage "Invalid report ID"))
     | Some reportId =>
         report <- DatabaseStorage.getTpsReport reportId ;;
         match report with
         | None => ret (mkRead 404 (ReadMessage "TPS report not found"))
         | Some report =>
             if negb (TpsReport.creator_id report =? userId)%Z
                && negb (TpsReport.receiver_id report =? userId)%Z
             then ret (mkRead 403 (ReadMessage "Access denied to this report logs"))
             else
               logs <- DatabaseStorage_getTpsLogsByReport reportId ;;
               users <- DatabaseStorage_getAllUsers ;;
               ret (mkRead 200
                      (EnrichedLogs
                         (map (fun log => (log, name_in users (TpsLog.user_id log)))
                            logs)))
         end
     end)
    (read_error "Get TPS logs error:" "Server error fetching TPS logs").

(** [reports.filter(p).length] *)
Definition count_reports (p : TpsReport.t -> bool) (reports : list TpsReport.t) : nat :=
  length (List.filter p reports).

(** GET /api/stats *)
Definition get_stats (userId : Z) : M DatabaseStorage.t ReadResponse :=
  try_catch
    (reports <- DatabaseStorage_getTpsReportsByUser userId ;;
     let pending :=
       count_reports
         (fun r => (TpsReport.status r =? TpsStatus.PENDING_REVIEW)%string
                   || (TpsReport.status r =? TpsStatus.PENDING_APPROVAL)%string)
         reports in
     let completed :=
       count_reports (fun r => (TpsReport.status r =? TpsStatus.COMPLETED)%string)
         reports in
     let aborted :=
       count_reports (fun r => (TpsReport.status r =? TpsStatus.ABORTED)%string)
         reports in
     ret (mkRead 200 (Stats pending completed aborted)))
    (read_error "Get stats error:" "Server error fetching stats").

(** The rows a listing answers with, none if it is not a listing. *)
Definition listed (res : outcome ReadResponse) : list TpsReport.t :=
  match res with
  | Ok (mkRead _ (EnrichedReports reports)) => map (fun x => fst (fst x)) reports
  | _ => []
  end.

(** ** Any call of the report API *)

Inductive ApiCall : Type :=
| CreateReport (userId : Z) (body : InsertTpsReport.t) (pdfData : option string)
| UpdateReport (userId : Z) (reportId : option Z) (updateData : PartialTpsReport.t)
| ReplicateReport (userId : Z) (reportId : option Z)
| ViewReport (userId : Z) (reportId : option Z)
| ListReports (userId : Z) (status : option string)
| ListLogs (userId : Z) (reportId : option Z)
| GetStats (userId : Z).

(** The world a call leaves. *)
Definition world_after (call : ApiCall) (w : World DatabaseStorage.t)
  : World DatabaseStorage.t :=
  match call with
  | CreateReport userId body pdfData => snd (post_tps_report userId body pdfData w)
  | UpdateReport userId reportId updateData =>
      snd (put_tps_report userId reportId updateData w)
  | ReplicateReport userId reportId => snd (post_replicate userId reportId w)
  | ViewReport userId reportId => snd (get_tps_report userId reportId w)
  | ListReports userId status => snd (get_tps_reports userId status w)
  | ListLogs userId reportId => snd (get_tps_logs userId reportId w)
  | GetStats userId => snd (get_stats userId w)
  end.

Definition serve (calls : list ApiCall) (w : World DatabaseStorage.t)
  : World DatabaseStorage.t :=
  fold_left (fun w call => world_after call w) calls w.

(** A call that does not try to write an id of its own choosing: neither a
    create body nor an update payload has an [id] key. *)
Definition writes_no_id (call : ApiCall) : Prop :=
  match call with
  | CreateReport _ body _ => InsertTpsReport.id body = None
  | UpdateReport _ _ updateData => PartialTpsReport.id updateData = None
  | _ => True
  end.

(** A computation after which a well-formed database is well formed,
    however it ends. *)
Definition keeps_wf {A} (m : M DatabaseStorage.t A) : Prop :=
  forall w, db.wf (DatabaseStorage.conn (stg w)) = true ->
            db.wf (DatabaseStorage.conn (stg (snd (m w)))) = true.

(** ** [MemStorage]: ids in use lie below the next id *)

Definition mem_ids_below (s : MemStorage.t) : Prop :=
  forall k, is_Some (MemStorage.tpsReports s !! k) -> (k < MemStorage.tpsId s)%Z.

(** The order of [(a, b) => time(b) - time(a)]: [a] may stand before [b]. *)
Definition newer_or_same (a b : TpsLog.t) : Prop :=
  (getTime (TpsLog.timestamp b) <= getTime (TpsLog.timestamp a))%Z.

(** Every report is stored under its own id. *)
Definition mem_keyed_by_id (s : MemStorage.t) : Prop :=
  forall k r, MemStorage.tpsReports s !! k = Some r -> TpsReport.id r = k.

(** * client/src/lib/pdf.ts

    The form fields of a loaded PDF and the form elements laid over its
    canvas.  A JavaScript number that is a coordinate or a length is the
    double it is: [float] is binary64, and its operations round as
    JavaScript's do.  A property that may be [undefined] is an [option], as
    above. *)

(** The double of an integer, as the DOM hands out [canvas.width]. *)
Definition Number_of_Z (z : Z) : float :=
  SF2Prim (binary_normalize prec emax z 0 false).

(** [Math.min(a, b)]: [NaN] if either is, and [-0] before [+0]. *)
Definition Math_min (a b : float) : float :=
  if is_nan a || is_nan b then nan
  else if (a <? b)%float then a
  else if (b <? a)%float then b
  else if get_sign a then a
  else b.

(** [style.left = n + 'px'] and [style.top = n + 'px']: the length the
    style then has.  [NaNpx] and [Infinitypx] are no lengths, and the
    declaration is dropped ([None]); [-0] is written [0]. *)
Definition css_length (n : float) : option float :=
  if is_finite n then Some (if is_zero n then zero else n) else None.

(** The same for [width], [height] and [font-size], which take no negative
    length either. *)
Definition css_size (n : float) : option float :=
  if (n <? 0)%float then None else css_length n.

(** ** Plain objects

    [values] is a plain object: its own properties, here a list of keys and
    JSON values, in front of [Object.prototype].  A read [obj[name]] of a
    name the object does not own finds the member of [Object.prototype] of
    that name, if there is one. *)
Definition Object_prototype : list string :=
  ["constructor"; "__defineGetter__"; "__defineSetter__"; "hasOwnProperty";
   "__lookupGetter__"; "__lookupSetter__"; "isPrototypeOf";
   "propertyIsEnumerable"; "toString"; "valueOf"; "__proto__"; "toLocaleString"].

(** What such a read gives when it gives something: a value the object
    owns, or the member of [Object.prototype] of that name, which is a
    function (and for [__proto__] the prototype itself): truthy, and
    strictly equal to no boolean and no string. *)
Inductive jsvalue : Type :=
| Data (v : json)
| Builtin (name : string).

(** [obj[name]], [None] for [undefined] *)
Definition js_read (name : string) (obj : list (string * json)) : option jsvalue :=
  match assoc_get name obj with
  | Some v => Some (Data v)
  | None =>
      if existsb (String.eqb name) Object_prototype then Some (Builtin name)
      else None
  end.

(** [a || b] *)
Definition js_or (a b : option json) : option json :=
  if js_truthy a then a else b.

(** [a || d], for a [d] that is a value *)
Definition js_or_else (a : option json) (d : json) : json :=
  match js_or a (Some d) with
  | Some v => v
  | None => d
  end.

(** [a || d] for strings: the empty string is falsy. *)
Definition str_or (a : option string) (d : string) : string :=
  match a with
  | Some (String c s) => String c s
  | _ => d
  end.

Definition str_truthy (a : option string) : bool :=
  match a with
  | Some (String _ _) => true
  | _ => false
  end.

(** [v === s] for an [s] that is a string or [undefined], and a [v] that is
    never [undefined]. *)
Definition strict_eq_str (v : jsvalue) (s : option string) : bool :=
  match v, s with
  | Data (JStr a), Some b => (a =? b)%string
  | _, _ => false
  end.

(** One entry of [annotation.options], as pdf.js gives it. *)
Module AnnotationOption.
Record t : Type := mk {
  displayValue : option string;
  exportValue : option string
}.
End AnnotationOption.

(** An annotation of a page, as [page.getAnnotations()] gives it; [rect],
    where present, is the four numbers [x1, y1, x2, y2]. *)
Module Annotation.
Record t : Type := mk {
  subtype : string;
  fieldName : option string;
  fieldType : option string;
  buttonValue : option json;
  fieldValue : option json;
  defaultValue : option json;
  required : option bool;
  rect : option (float * float * float * float);
  options : option (list AnnotationOption.t);
  exportValue : option string;
  maxLen : option Z
}.
End Annotation.

Module Rect.
Record t : Type := mk { left : float; top : float; right : float; bottom : float }.
End Rect.

(** [interface FormField] *)
Module FormField.
Record t : Type := mk {
  name : string;
  type : string;
  value : json;
  exportValue : option string;
  options : option (list (option string));
  rect : option Rect.t;
  pageNumber : option Z;
  defaultValue : option json;
  isRequired : option bool;
  maxLength : option Z
}.
End FormField.

(** A PDF document, as far as [extractFormFields] looks at it: its pages in
    order, page [i] (counted from 1) with its annotations in order. *)
Definition PDFDocumentProxy : Type := list (list Annotation.t).

Definition is_widget (annotation : Annotation.t) : bool :=
  (Annotation.subtype annotation =? "Widget")%string.

(** The body of the [forEach] of [extractFormFields], on page [i]. *)
Definition field_of (i : Z) (annotation : Annotation.t) : FormField.t :=
  FormField.mk
    (str_or (Annotation.fieldName annotation) "unnamed")
    (str_or (Annotation.fieldType annotation) "unknown")
    (js_or_else (js_or (Annotation.buttonValue annotation)
                   (Annotation.fieldValue annotation)) (JStr ""))
    (if str_truthy (Annotation.exportValue annotation)
     then Annotation.exportValue annotation else None)
    (match Annotation.options annotation with
     | Some opts =>
         Some (map (fun opt =>
                      if str_truthy (AnnotationOption.displayValue opt)
                      then AnnotationOption.displayValue opt
                      else AnnotationOption.exportValue opt) opts)
     | None => None
     end)
    (match Annotation.rect annotation with
     | Some (x1, y1, x2, y2) => Some (Rect.mk x1 y1 x2 y2)
     | None => None
     end)
    (Some i)
    (Some (js_or_else (Annotation.defaultValue annotation) (JStr "")))
    (Some (match Annotation.required annotation with
           | Some b => b
           | None => false
           end))
    (match Annotation.maxLen annotation with
     | Some n => if (n =? 0)%Z then None else Some n
     | None => None
     end).

(** The loop [for (let i = ...; i <= numPages; i++)] over the pages that
    are left, pushing onto [formFields]. *)
Fixpoint extract_pages (i : Z) (pages : list (list Annotation.t))
    (formFields : list FormField.t) : list FormField.t :=
  match pages with
  | [] => formFields
  | annotations :: rest =>
      extract_pages (i + 1) rest
        (formFields ++ map (field_of i) (List.filter is_widget annotations))%list
  end.

Definition extractFormFields (pdfDoc : PDFDocumentProxy) : list FormField.t :=
  extract_pages 1 pdfDoc [].

(** [getFormFields], of the fields of the loaded document *)
Definition getFormFields (currentPdfFields : list FormField.t)
  : outcome (list FormField.t) :=
  match currentPdfFields with
  | [] => Throw (TypeError "No PDF loaded or no form fields found")
  | _ => Ok currentPdfFields
  end.

(** ** [createInteractiveFormElements] *)

Record Canvas : Type := mkCanvas {
  offsetLeft : Z;
  offsetTop : Z;
  width : Z;
  height : Z
}.

(** The element put into a field's container; [value] is what was
    assigned to [textInput.value], [fontSize] the font size in px the style
    has ([None]: the declaration was dropped). *)
Inductive FormElement : Type :=
| TextInput (value : jsvalue) (disabled : bool) (fontSize : option float)
| Checkbox (checked disabled : bool)
| Select (disabled : bool) (fontSize : option float)
    (options : list (option string * bool))
| Button (textContent : json) (disabled : bool)
| Overlay (title : string).

(** A field's container: the four lengths in px its style has ([None]: the
    declaration was dropped), the element in it, and the field its
    listeners close over ([None]: no listener). *)
Record FieldContainer : Type := mkContainer {
  style_left : option float;
  style_top : option float;
  style_width : option float;
  style_height : option float;
  formElement : FormElement;
  listens_for : option FormField.t
}.

(** The container element after the call: its style and its children. *)
Record ContainerElement : Type := mkElement {
  container_left : Z;
  container_top : Z;
  container_width : Z;
  container_height : Z;
  children : list FieldContainer
}.

Definition scale_of (canvasElement : Canvas) : float :=
  (Number_of_Z (width canvasElement) / 595)%float.

(** [values[field.name] || field.value || ''] *)
Definition currentValue_of (field : FormField.t) (values : list (string * json))
  : jsvalue :=
  match js_read (FormField.name field) values with
  | Some (Builtin name) => Builtin name
  | Some (Data v) =>
      Data (js_or_else (js_or (Some v) (Some (FormField.value field))) (JStr ""))
  | None => Data (js_or_else (js_or None (Some (FormField.value field))) (JStr ""))
  end.

(** [Math.min(height * 0.8, 16) + 'px'] as a font size; the double written
    [0.8] is [0x1.999999999999ap-1]. *)
Definition fontSize_of (height : float) : option float :=
  css_size (Math_min (height * 0x1.999999999999ap-1) 16)%float.

(** The [switch (field.type)]. *)
Definition element_of (field : FormField.t) (currentValue : jsvalue) (height : float)
    (readOnly : bool) : FormElement :=
  if (FormField.type field =? "text")%string then
    TextInput currentValue readOnly (fontSize_of height)
  else if (FormField.type field =? "checkbox")%string then
    Checkbox (match currentValue with Data (JBool true) => true | _ => false end
              || strict_eq_str currentValue (FormField.exportValue field))
      readOnly
  else if (FormField.type field =? "choice")%string then
    Select readOnly (fontSize_of height)
      ((Some "", false)
       :: match FormField.options field with
          | Some options =>
              map (fun option =>
                     (option, strict_eq_str currentValue option)) options
          | None => []
          end)
  else if (FormField.type field =? "button")%string then
    Button (js_or_else (Some (FormField.value field)) (JStr (FormField.name field)))
      readOnly
  else
    Overlay ("Unsupported field type: " ++ FormField.type field).

(** Whether the element made for [field] gets listeners. *)
Definition has_listeners (field : FormField.t) : bool :=
  (FormField.type field =? "text")%string
  || (FormField.type field =? "checkbox")%string
  || (FormField.type field =? "choice")%string
  || (FormField.type field =? "button")%string.

(** The body of [pageFields.forEach]: [None] is the early [return]. *)
Definition container_of (canvasElement : Canvas) (values : list (string * json))
    (readOnly : bool) (field : FormField.t) : option FieldContainer :=
  match FormField.rect field with
  | None => None
  | Some rect =>
      let scale := scale_of canvasElement in
      let left := (Rect.left rect * scale)%float in
      let top :=
        (Number_of_Z (height canvasElement) - Rect.top rect * scale)%float in
      let width := ((Rect.right rect - Rect.left rect) * scale)%float in
      let height := ((Rect.top rect - Rect.bottom rect) * scale)%float in
      Some (mkContainer (css_length left) (css_length (top - height)%float)
              (css_size width) (css_size height)
              (element_of field (currentValue_of field values) height readOnly)
              (if negb readOnly && has_listeners field then Some field else None))
  end.

Definition on_page (pageNumber : Z) (field : FormField.t) : bool :=
  match FormField.pageNumber field with
  | Some n => (n =? pageNumber)%Z
  | None => false
  end.

(** The container is emptied, placed over the canvas, and filled. *)
Definition createInteractiveFormElements (canvasElement : Canvas)
    (formFields : list FormField.t) (values : list (string * json))
    (readOnly : bool) : ContainerElement :=
  let pageNumber := 1%Z in
  let pageFields := List.filter (on_page pageNumber) formFields in
  mkElement (offsetLeft canvasElement) (offsetTop canvasElement)
    (width canvasElement) (height canvasElement)
    (omap (container_of canvasElement values readOnly) pageFields).

(** What the user does to the element of a field. *)
Inductive UserEvent : Type :=
| Typed (text : string)
| Toggled (checked : bool)
| Chosen (value : string)
| Clicked.

(** What [onChange] is called with when the user does [event] to the
    element made for [field], if it is called at all. *)
Definition emitted (readOnly : bool) (field : FormField.t) (event : UserEvent)
  : option (string * json) :=
  if readOnly then None
  else if (FormField.type field =? "text")%string then
    match event with
    | Typed text => Some (FormField.name field, JStr text)
    | _ => None
    end
  else if (FormField.type field =? "checkbox")%string then
    match event with
    | Toggled checked =>
        Some (FormField.name field,
              if checked
              then match FormField.exportValue field with
                   | Some (String c s) => JStr (String c s)
                   | _ => JBool true
                   end
              else JBool false)
    | _ => None
    end
  else if (FormField.type field =? "choice")%string then
    match event with
    | Chosen value => Some (FormField.name field, JStr value)
    | _ => None
    end
  else if (FormField.type field =? "button")%string then
    match event with
    | Clicked => Some (FormField.name field, JBool true)
    | _ => None
    end
  else None.

(** Whether a checkbox made for [field] shows checked under [values]. *)
Definition shows_checked (field : FormField.t) (values : list (string * json)) : bool :=
  match element_of field (currentValue_of field values) 0 false with
  | Checkbox checked _ => checked
  | _ => false
  end.

(** The fields of the pages [i], [i + 1], ..., page by page. *)
Fixpoint fields_from (i : Z) (pages : list (list Annotation.t)) : list FormField.t :=
  match pages with
  | [] => []
  | annotations :: rest =>
      (map (field_of i) (List.filter is_widget annotations)
       ++ fields_from (i + 1) rest)%list
  end.

(** The page a field was found on, 0 if it carries none. *)
Definition page_of (field : FormField.t) : Z :=
  default 0 (FormField.pageNumber field).

Definition has_rect (annotation : Annotation.t) : bool :=
  match Annotation.rect annotation with
  | Some _ => true
  | None => false
  end.

(** A canvas twice as wide as the nominal page, and a checkbox on it. *)
Module SamplePdf.
Definition canvas : Canvas := mkCanvas 0 0 1190 1684.
Definition agree : Annotation.t :=
  Annotation.mk "Widget" (Some "agree") (Some "checkbox") None (Some (JStr "Yes"))
    None None (Some (0, 700, 595, 720)%float) None (Some "Yes") None.
Definition link : Annotation.t :=
  Annotation.mk "Link" None None None None None None None None None None.
End SamplePdf.

(** * client/src/pages/view-tps.tsx

    The mode [ViewTps] opens a loaded report in, for the logged-in user. *)
Definition formMode (report : TpsReport.t) (userId : Z) : string :=
  let isCreator := (TpsReport.creator_id report =? userId)%Z in
  if (TpsReport.status report =? TpsStatus.DRAFT)%string && isCreator then "edit"
  else if (TpsReport.status report =? TpsStatus.PENDING_REVIEW)%string
          && negb isCreator then "review"
  else if (TpsReport.status report =? TpsStatus.PENDING_APPROVAL)%string
          && isCreator then "approve"
  else "view".

(** * More of the server: logging in

    [req.session.userId], if set. *)
Definition Session : Type := option Z.

(** The [authenticate] middleware lets a request through. *)
Definition authenticate (session : Session) : bool :=
  match session with
  | Some userId => negb (userId =? 0)%Z
  | None => false
  end.

(** [db.getUserByUsername] *)
Definition db_getUserByUsername (username : string) : M db.t (option User.t) :=
  d <- get_stg ;;
  ret (head (List.filter (fun u => (User.username u =? username)%string) (db.users d))).

Definition DatabaseStorage_getUserByUsername (username : string)
  : M DatabaseStorage.t (option User.t) :=
  DatabaseStorage.on_db (db_getUserByUsername username).

Inductive LoginBody : Type :=
| LoginMessage (message : string)
| LoggedIn (id : Z) (username name email : string).

Record LoginResponse : Type := mkLogin { login_code : Z; login_body : LoginBody }.

(** POST /api/login, for a body whose [username] and [password] are strings
    where present; the answer and the session it leaves. *)
Definition post_login (session : Session) (username password : option string)
  : M DatabaseStorage.t (LoginResponse * Session) :=
  try_catch
    (match username, password with
     | Some (String c u), Some (String c' p) =>
         user <- DatabaseStorage_getUserByUsername (String c u) ;;
         match user with
         | None => ret (mkLogin 401 (LoginMessage "Invalid credentials"), session)
         | Some user =>
             if negb (User.password user =? String c' p)%string
             then ret (mkLogin 401 (LoginMessage "Invalid credentials"), session)
             else ret (mkLogin 200
                         (LoggedIn (User.id user) (User.username user) (User.name user)
                            (User.email user)),
                       Some (User.id user))
         end
     | _, _ =>
         ret (mkLogin 400 (LoginMessage "Username and password are required"), session)
     end)
    (fun e =>
       console_log (ConsoleError "Login error:" e) ;;;
       ret (mkLogin 500 (LoginMessage "Server error during login"), session)).

(** * client/src/lib/utils.ts *)

(** [getStatusLabel] *)
Definition getStatusLabel (status : string) (isCreator : bool) : string :=
  if (status =? "draft")%string then "Draft"
  else if (status =? "pending_review")%string then
    if isCreator then "Awaiting Review" else "Your Review Needed"
  else if (status =? "pending_approval")%string then
    if isCreator then "Your Approval Needed" else "Awaiting Approval"
  else if (status =? "completed")%string then "Completed"
  else if (status =? "aborted")%string then "Aborted"
  else status.

(** The label [TpsListItem] shows for a report in the list of [userId]. *)
Definition list_label (report : TpsReport.t) (userId : Z) : string :=
  getStatusLabel (TpsReport.status report) (TpsReport.creator_id report =? userId)%Z.

(** An object of type [InsertTpsReport] that has none of the three keys the
    type omits. *)
Definition plain (reportData : InsertTpsReport.t) : Prop :=
  InsertTpsReport.id reportData = None
  /\ InsertTpsReport.created_at reportData = None
  /\ InsertTpsReport.updated_at reportData = None.



(** * Properties *)

Local Open Scope list_scope.

(** ** Who may write, and when (routes.ts, the update handler) *)

Lemma Zeqb_false_of_ne (a b : Z) : a <> b -> (a =? b)%Z = false.
Proof. intros H. now apply Z.eqb_neq. Qed.

Ltac run_io :=
  unfold try_catch, bind, ret, respond; cbn [fst snd].

(** Rewrite with [E : m w = r] where the goal runs a computation convertible
    with [m] on a world convertible with [w]. *)
Ltac rewrite_call E :=
  match type of E with
  | ?m ?w = _ =>
      match goal with
      | |- context [match ?m' ?w' with _ => _ end] =>
          change (m' w') with (m w); rewrite E
      end
  end.

(** The update handler denies with the answer [put_check] denies with, and
    in the world [put_check] leaves. *)
Lemma put_tps_report_denied {S} {storage : IStorage S}
    (w w' : World S) (userId reportId : Z) (data : PartialTpsReport.t)
    (res : Response) :
  put_check userId reportId w = (Ok (Denied res), w') ->
  put_tps_report userId (Some reportId) data w = (Ok res, w').
Proof.
  intros H. unfold put_tps_report. run_io. now rewrite H.
Qed.

(** (C2) An update of an existing report is refused with 403, and nothing
    at all is written, when the caller is neither the report's creator nor
    its receiver, when the report is a draft or pending approval and the
    caller is not its creator, and when it is pending review and the caller
    is not its receiver. *)
Theorem put_only_by_status_owner {S} {storage : IStorage S}
    (w : World S) (userId reportId : Z) (data : PartialTpsReport.t)
    (report : TpsReport.t) :
  getTpsReport reportId w = (Ok (Some report), w) ->
  (TpsReport.creator_id report <> userId /\ TpsReport.receiver_id report <> userId)
  \/ (TpsReport.status report = TpsStatus.DRAFT
      /\ TpsReport.creator_id report <> userId)
  \/ (TpsReport.status report = TpsStatus.PENDING_REVIEW
      /\ TpsReport.receiver_id report <> userId)
  \/ (TpsReport.status report = TpsStatus.PENDING_APPROVAL
      /\ TpsReport.creator_id report <> userId) ->
  exists res,
    put_tps_report userId (Some reportId) data w = (Ok res, w) /\ Forbidden res.
Proof.
  intros Hget Hcase.
  assert (Hden : exists res,
             put_check userId reportId w = (Ok (Denied res), w) /\ Forbidden res).
  { unfold put_check. run_io. rewrite Hget.
    destruct Hcase as [[Hc Hr] | [[Hs Hc] | [[Hs Hr] | [Hs Hc]]]].
    - rewrite (Zeqb_false_of_ne _ _ Hc), (Zeqb_false_of_ne _ _ Hr). cbn.
      eexists; split; [reflexivity | reflexivity].
    - rewrite (Zeqb_false_of_ne _ _ Hc), Hs. cbn.
      destruct (TpsReport.receiver_id report =? userId)%Z; cbn;
        eexists; split; reflexivity.
    - rewrite (Zeqb_false_of_ne _ _ Hr), Hs. cbn.
      destruct (TpsReport.creator_id report =? userId)%Z; cbn;
        eexists; split; reflexivity.
    - rewrite (Zeqb_false_of_ne _ _ Hc), Hs. cbn.
      destruct (TpsReport.receiver_id report =? userId)%Z; cbn;
        eexists; split; reflexivity. }
  destruct Hden as (res & Hden & Hf).
  exists res. split; [| exact Hf].
  now apply put_tps_report_denied.
Qed.

(** (C3) Once a report is completed or aborted, the update handler answers
    every request for it with 403, whoever the caller is, and writes
    nothing. *)
Theorem put_terminal_forbidden {S} {storage : IStorage S}
    (w : World S) (userId reportId : Z) (data : PartialTpsReport.t)
    (report : TpsReport.t) :
  getTpsReport reportId w = (Ok (Some report), w) ->
  TpsReport.status report = TpsStatus.COMPLETED
  \/ TpsReport.status report = TpsStatus.ABORTED ->
  exists res,
    put_tps_report userId (Some reportId) data w = (Ok res, w) /\ Forbidden res.
Proof.
  intros Hget Hterm.
  assert (Hden : exists res,
             put_check userId reportId w = (Ok (Denied res), w) /\ Forbidden res).
  { unfold put_check. run_io. rewrite Hget.
    destruct (TpsReport.creator_id report =? userId)%Z;
      destruct (TpsReport.receiver_id report =? userId)%Z;
      destruct Hterm as [-> | ->]; cbn; eexists; split; reflexivity. }
  destruct Hden as (res & Hden & Hf).
  exists res. split; [| exact Hf].
  now apply put_tps_report_denied.
Qed.

Lemma put_only_by_status_owner_witness :
  exists res,
    put_tps_report 2 (Some 1) (Sample.set_status "pending_review") Sample.db_draft
    = (Ok res, Sample.db_draft)
    /\ Forbidden res.
Proof.
  eapply (put_only_by_status_owner Sample.db_draft 2 1).
  - vm_compute. reflexivity.
  - right; left. split; [reflexivity | discriminate].
Defined.

Lemma put_terminal_forbidden_witness :
  exists res,
    put_tps_report 1 (Some 1) (Sample.set_status "draft") Sample.db_completed
    = (Ok res, Sample.db_completed)
    /\ Forbidden res.
Proof.
  eapply (put_terminal_forbidden Sample.db_completed 1 1).
  - vm_compute. reflexivity.
  - left. reflexivity.
Defined.

(** ** The stores' [updateTpsReport] *)

Lemma getTpsReport_mem_lookup (w w' : World MemStorage.t) (id : Z) (o : option TpsReport.t) :
  MemStorage.getTpsReport id w = (Ok o, w') ->
  MemStorage.tpsReports (stg w) !! id = o /\ w' = w.
Proof.
  unfold MemStorage.getTpsReport, get_stg. run_io. intros H.
  inversion H. split; reflexivity.
Qed.

Lemma mem_update_spec (w : World MemStorage.t) (id : Z)
    (data : PartialTpsReport.t) (report : TpsReport.t) :
  MemStorage.tpsReports (stg w) !! id = Some report ->
  MemStorage.updateTpsReport id data w
  = (Ok (Some (spread_update report data (clock w (ticks w)))),
     mkWorld (S (ticks w)) (clock w) (console w) (disk w)
       (MemStorage.set_reports
          (insert id (spread_update report data (clock w (ticks w)))) (stg w))).
Proof.
  intros H. unfold MemStorage.updateTpsReport, MemStorage.modify, get_stg, put_stg,
    new_Date.
  run_io. rewrite H. reflexivity.
Qed.

(** *** The database: an UPDATE that keeps the ids *)

Section IdsKept.

Variable f : TpsReport.t -> TpsReport.t.
Hypothesis f_id : forall r, TpsReport.id (f r) = TpsReport.id r.

Lemma map_keeps_ids (rows : list TpsReport.t) :
  map TpsReport.id (map f rows) = map TpsReport.id rows.
Proof.
  induction rows as [| r rows IH]; cbn; [reflexivity |].
  now rewrite f_id, IH.
Qed.

Lemma map_keeps_has_report (d : db.t) (j : Z) :
  db.has_report (db.with_reports (map f (db.tpsReports d)) d) j = db.has_report d j.
Proof.
  unfold db.has_report. cbn.
  induction (db.tpsReports d) as [| r rows IH]; cbn; [reflexivity |].
  now rewrite f_id, IH.
Qed.

Lemma map_keeps_filter (j : Z) (rows : list TpsReport.t) :
  List.filter (fun r => (TpsReport.id r =? j)%Z) (map f rows)
  = map f (List.filter (fun r => (TpsReport.id r =? j)%Z) rows).
Proof.
  induction rows as [| r rows IH]; cbn; [reflexivity |].
  rewrite f_id. destruct (TpsReport.id r =? j)%Z; cbn; now rewrite IH.
Qed.

Lemma map_keeps_fk (d : db.t) (r : TpsReport.t) :
  db.report_fk_ok (db.with_reports (map f (db.tpsReports d)) d) r = db.report_fk_ok d r.
Proof.
  unfold db.report_fk_ok.
  change (db.has_user (db.with_reports (map f (db.tpsReports d)) d))
    with (db.has_user d).
  destruct (TpsReport.replicated_from_id r); [| reflexivity].
  now rewrite map_keeps_has_report.
Qed.

(** Rows rewritten so that each keeps its id, its references still point at
    rows that exist and its [form_data] is not [null], satisfy the
    constraints again. *)
Lemma map_keeps_constraints (d : db.t) :
  (forall r, In r (db.tpsReports d) -> db.report_fk_ok d r = true ->
             db.report_fk_ok d (f r) = true) ->
  (forall r, In r (db.tpsReports d) -> db.report_not_null r = true ->
             db.report_not_null (f r) = true) ->
  db.constraints_ok d = true ->
  db.constraints_ok (db.with_reports (map f (db.tpsReports d)) d) = true.
Proof.
  intros Hfk Hnull. unfold db.constraints_ok.
  rewrite !andb_true_iff. intros [[[[Hu Hr] Hlu] Hl] Hnn].
  change (db.tpsLogs (db.with_reports (map f (db.tpsReports d)) d))
    with (db.tpsLogs d).
  change (db.tpsReports (db.with_reports (map f (db.tpsReports d)) d))
    with (map f (db.tpsReports d)).
  split; [split; [split; [split |] |] |].
  - now rewrite map_keeps_ids.
  - apply forallb_forall. intros r' Hin.
    apply in_map_iff in Hin. destruct Hin as (r & <- & Hin).
    rewrite forallb_forall in Hr. rewrite map_keeps_fk.
    apply Hfk; [exact Hin | now apply Hr].
  - exact Hlu.
  - apply forallb_forall. intros l Hin.
    rewrite forallb_forall in Hl. specialize (Hl l Hin).
    unfold db.log_fk_ok in *. rewrite map_keeps_has_report.
    exact Hl.
  - apply forallb_forall. intros r' Hin.
    apply in_map_iff in Hin. destruct Hin as (r & <- & Hin).
    rewrite forallb_forall in Hnn. apply Hnull; [exact Hin | now apply Hnn].
Qed.

End IdsKept.

Lemma acceptable_keeps_id (d : db.t) (i : Z) (data : PartialTpsReport.t) (now : Date)
    (r : TpsReport.t) :
  acceptable d i data ->
  TpsReport.id (set_where i data now r) = TpsReport.id r.
Proof.
  intros (_ & _ & Hid & _). unfold set_where.
  destruct (Z.eqb_spec (TpsReport.id r) i) as [E | _]; [| reflexivity].
  unfold spread_update. cbn.
  destruct (PartialTpsReport.id data) as [j |]; [| reflexivity].
  cbn. rewrite (Hid j eq_refl). now symmetry.
Qed.

Lemma acceptable_constraints (d : db.t) (i : Z) (data : PartialTpsReport.t)
    (now : Date) :
  db.constraints_ok d = true ->
  acceptable d i data ->
  db.constraints_ok
    (db.with_reports (map (set_where i data now) (db.tpsReports d)) d) = true.
Proof.
  intros Hok Hacc.
  apply map_keeps_constraints; [| | | exact Hok].
  - intros r. now apply (acceptable_keeps_id d).
  - intros r _ Hfk. unfold set_where.
    destruct (TpsReport.id r =? i)%Z; [| exact Hfk].
    destruct Hacc as (_ & _ & _ & Hc & Hr & Hp).
    unfold db.report_fk_ok in *. rewrite !andb_true_iff in Hfk.
    destruct Hfk as [[H1 H2] H3].
    unfold spread_update. cbn.
    rewrite !andb_true_iff. split; [split |].
    + destruct (PartialTpsReport.creator_id data) as [u |]; cbn; [now apply Hc | exact H1].
    + destruct (PartialTpsReport.receiver_id data) as [u |]; cbn; [now apply Hr | exact H2].
    + destruct (PartialTpsReport.replicated_from_id data) as [[p |] |]; cbn;
        [now apply Hp | reflexivity | exact H3].
  - intros r _ Hnn. unfold set_where.
    destruct (TpsReport.id r =? i)%Z; [| exact Hnn].
    destruct Hacc as (_ & Hfd & _).
    unfold db.report_not_null, spread_update in *. cbn.
    destruct (PartialTpsReport.form_data data) as [[] |]; cbn; congruence.
Qed.

Lemma set_where_on_filter (i : Z) (data : PartialTpsReport.t) (now : Date)
    (rows : list TpsReport.t) :
  map (set_where i data now) (List.filter (fun r => (TpsReport.id r =? i)%Z) rows)
  = map (fun r => spread_update r data now)
        (List.filter (fun r => (TpsReport.id r =? i)%Z) rows).
Proof.
  induction rows as [| r rows IH]; cbn; [reflexivity |].
  destruct (TpsReport.id r =? i)%Z eqn:E; cbn; [| exact IH].
  unfold set_where at 1. rewrite E. now rewrite IH.
Qed.

Lemma head_map {A B} (g : A -> B) (l : list A) : head (map g l) = option_map g (head l).
Proof. destruct l; reflexivity. Qed.

Lemma dbs_get_spec (w : World DatabaseStorage.t) (i : Z) :
  DatabaseStorage.getTpsReport i w
  = (Ok (head (List.filter (fun r => (TpsReport.id r =? i)%Z)
                 (db.tpsReports (DatabaseStorage.conn (stg w))))), w).
Proof.
  destruct w as [t c co d [p cn]]. reflexivity.
Qed.

(** [UPDATE tps_reports] in any database: a payload with a [created_at]
    throws in the encoder; otherwise the statement commits the rewritten
    rows when they satisfy the constraints, and throws when they do not. *)
Lemma dbs_update_general (w : World DatabaseStorage.t) (i : Z)
    (data : PartialTpsReport.t) :
  let d := DatabaseStorage.conn (stg w) in
  let now := clock w (ticks w) in
  let d1 := db.with_reports (map (set_where i data now) (db.tpsReports d)) d in
  DatabaseStorage.updateTpsReport i data w
  = match PartialTpsReport.created_at data with
    | Some _ => (Throw db.not_a_date, DatabaseStorage.later w 1 d)
    | None =>
        if db.constraints_ok d1
        then (Ok (option_map (fun r => spread_update r data now)
                    (find_report i (db.tpsReports d))),
              DatabaseStorage.later w 1 d1)
        else (Throw db.violation, DatabaseStorage.later w 1 d)
    end.
Proof.
  destruct w as [t c co dk [p d]]. cbv zeta.
  cbn [stg ticks clock console disk DatabaseStorage.conn].
  unfold DatabaseStorage.updateTpsReport, DatabaseStorage.on_db, zoom,
    db.updateTpsReport, db.commit, new_Date, get_stg, put_stg, throw.
  run_io. cbn [stg ticks clock console disk DatabaseStorage.conn].
  destruct (PartialTpsReport.created_at data); [reflexivity |].
  cbn [stg ticks clock console disk DatabaseStorage.conn].
  change (map (fun r => if (TpsReport.id r =? i)%Z then spread_update r data (c t) else r)
            (db.tpsReports d))
    with (map (set_where i data (c t)) (db.tpsReports d)).
  destruct (db.constraints_ok
              (db.with_reports (map (set_where i data (c t)) (db.tpsReports d)) d)).
  - cbn [stg ticks clock console disk]. unfold find_report. rewrite head_map.
    reflexivity.
  - reflexivity.
Qed.

Lemma dbs_update_spec (w : World DatabaseStorage.t) (i : Z) (data : PartialTpsReport.t) :
  db.constraints_ok (DatabaseStorage.conn (stg w)) = true ->
  acceptable (DatabaseStorage.conn (stg w)) i data ->
  DatabaseStorage.updateTpsReport i data w
  = (Ok (option_map (fun r => spread_update r data (clock w (ticks w)))
           (head (List.filter (fun r => (TpsReport.id r =? i)%Z)
                    (db.tpsReports (DatabaseStorage.conn (stg w)))))),
     mkWorld (S (ticks w)) (clock w) (console w) (disk w)
       (DatabaseStorage.mk (DatabaseStorage.pdfDir (stg w))
          (db.with_reports
             (map (set_where i data (clock w (ticks w)))
                  (db.tpsReports (DatabaseStorage.conn (stg w))))
             (DatabaseStorage.conn (stg w))))).
Proof.
  intros Hok Hacc. rewrite dbs_update_general. cbv zeta.
  rewrite (proj1 Hacc).
  now rewrite (acceptable_constraints _ i data (clock w (ticks w)) Hok Hacc).
Qed.

(** Reading back the row that an update just wrote. *)
Lemma dbs_update_then_get (w : World DatabaseStorage.t) (i : Z)
    (data : PartialTpsReport.t) (report : TpsReport.t) :
  db.constraints_ok (DatabaseStorage.conn (stg w)) = true ->
  acceptable (DatabaseStorage.conn (stg w)) i data ->
  DatabaseStorage.getTpsReport i w = (Ok (Some report), w) ->
  exists w',
    DatabaseStorage.updateTpsReport i data w
    = (Ok (Some (spread_update report data (clock w (ticks w)))), w')
    /\ DatabaseStorage.getTpsReport i w'
       = (Ok (Some (spread_update report data (clock w (ticks w)))), w').
Proof.
  intros Hok Hacc Hget.
  rewrite dbs_get_spec in Hget.
  assert (Hhead : head (List.filter (fun r => (TpsReport.id r =? i)%Z)
                          (db.tpsReports (DatabaseStorage.conn (stg w)))) = Some report)
    by congruence.
  eexists. split.
  - rewrite (dbs_update_spec w i data Hok Hacc), Hhead. reflexivity.
  - rewrite dbs_get_spec. cbn [stg DatabaseStorage.conn db.tpsReports db.with_reports].
    rewrite map_keeps_filter.
    + rewrite set_where_on_filter, head_map, Hhead. reflexivity.
    + intros r. now apply (acceptable_keeps_id (DatabaseStorage.conn (stg w))).
Qed.

(** A payload that only names a status is acceptable anywhere. *)
Lemma acceptable_set_status (d : db.t) (i : Z) (status : string) :
  acceptable d i (Sample.set_status status).
Proof.
  unfold acceptable. cbn.
  repeat split; try reflexivity; try discriminate; intros ? H; discriminate H.
Qed.

(** (C4, as the code has it) Neither store looks at the status: a report
    that is there is overwritten with the payload and handed back, a
    completed or aborted one like any other.  In memory that is
    unconditional.  In the database, whose constraints hold, it is so for
    every payload the tables accept: one that names no [created_at], does
    not set [form_data] to [null], names no id but the report's own, and
    names in [creator_id], [receiver_id] and [replicated_from_id] only rows
    that exist. *)
Theorem updateTpsReport_ignores_status :
  (forall (w : World MemStorage.t) (id : Z) (data : PartialTpsReport.t)
          (report : TpsReport.t),
      MemStorage.getTpsReport id w = (Ok (Some report), w) ->
      exists w',
        MemStorage.updateTpsReport id data w
        = (Ok (Some (spread_update report data (clock w (ticks w)))), w')
        /\ MemStorage.getTpsReport id w'
           = (Ok (Some (spread_update report data (clock w (ticks w)))), w'))
  /\
  (forall (w : World DatabaseStorage.t) (id : Z) (data : PartialTpsReport.t)
          (report : TpsReport.t),
      db.constraints_ok (DatabaseStorage.conn (stg w)) = true ->
      acceptable (DatabaseStorage.conn (stg w)) id data ->
      DatabaseStorage.getTpsReport id w = (Ok (Some report), w) ->
      exists w',
        DatabaseStorage.updateTpsReport id data w
        = (Ok (Some (spread_update report data (clock w (ticks w)))), w')
        /\ DatabaseStorage.getTpsReport id w'
           = (Ok (Some (spread_update report data (clock w (ticks w)))), w')).
Proof.
  split.
  - intros w id data report Hget.
    apply getTpsReport_mem_lookup in Hget. destruct Hget as [Hlook _].
    eexists. split.
    + apply (mem_update_spec w id data report Hlook).
    + unfold MemStorage.getTpsReport, get_stg. run_io.
      cbn [stg MemStorage.tpsReports MemStorage.set_reports].
      now rewrite lookup_insert_eq.
  - intros w id data report Hok Hacc Hget.
    now apply dbs_update_then_get.
Qed.

Lemma updateTpsReport_ignores_status_witness :
  (exists w' updated,
      MemStorage.updateTpsReport 1 (Sample.set_status "draft") Sample.mem_completed
      = (Ok (Some updated), w')
      /\ TpsReport.status updated = "draft"
      /\ MemStorage.getTpsReport 1 w' = (Ok (Some updated), w'))
  /\
  (exists w' updated,
      DatabaseStorage.updateTpsReport 1 (Sample.set_status "draft") Sample.db_completed
      = (Ok (Some updated), w')
      /\ TpsReport.status updated = "draft"
      /\ DatabaseStorage.getTpsReport 1 w' = (Ok (Some updated), w')).
Proof.
  split.
  - edestruct (proj1 updateTpsReport_ignores_status Sample.mem_completed 1
                 (Sample.set_status "draft")) as (w' & Hup & Hget).
    + vm_compute. reflexivity.
    + exists w'. eexists. split; [exact Hup | split; [reflexivity | exact Hget]].
  - edestruct (proj2 updateTpsReport_ignores_status Sample.db_completed 1
                 (Sample.set_status "draft")) as (w' & Hup & Hget).
    + vm_compute. reflexivity.
    + apply acceptable_set_status.
    + vm_compute. reflexivity.
    + exists w'. eexists. split; [exact Hup | split; [reflexivity | exact Hget]].
Defined.

(** (C4, as stated) Both stores do apply an update to a completed report:
    the one Matt and Mina have just completed goes back to a draft. *)
Lemma stores_update_terminal_reports :
  ~ store_refuses_terminal MemStorage.t /\ ~ store_refuses_terminal DatabaseStorage.t.
Proof.
  split; intros H.
  - edestruct (H Sample.mem_completed 1 (Sample.set_status "draft")) as [Hno _].
    + vm_compute. reflexivity.
    + left. reflexivity.
    + eapply Hno. vm_compute. reflexivity.
  - edestruct (H Sample.db_completed 1 (Sample.set_status "draft")) as [Hno _].
    + vm_compute. reflexivity.
    + left. reflexivity.
    + eapply Hno. vm_compute. reflexivity.
Qed.

(** ** Inserting rows *)

Lemma unique_snoc (bound x : Z) (ids : list Z) :
  db.unique ids = true -> db.ids_below bound ids = true -> (bound <= x)%Z ->
  db.unique (ids ++ [x]) = true.
Proof.
  induction ids as [| i ids IH]; cbn; [reflexivity |].
  rewrite !andb_true_iff, !negb_true_iff. intros [Hn Hu] [Hi Hb] Hx.
  split; [| now apply IH].
  rewrite existsb_app, Hn. cbn. rewrite orb_false_r.
  apply Z.eqb_neq. apply Z.ltb_lt in Hi. lia.
Qed.

Lemma ids_below_snoc (bound x : Z) (ids : list Z) :
  db.ids_below bound ids = true -> (bound <= x)%Z ->
  db.ids_below (x + 1) (ids ++ [x]) = true.
Proof.
  unfold db.ids_below. rewrite forallb_app. intros Hb Hx.
  apply andb_true_iff. split.
  - rewrite forallb_forall in *. intros i Hin. specialize (Hb i Hin).
    apply Z.ltb_lt in Hb. apply Z.ltb_lt. lia.
  - cbn. rewrite andb_true_r. apply Z.ltb_lt. lia.
Qed.

Lemma ids_below_weaken (bound bound' : Z) (ids : list Z) :
  db.ids_below bound ids = true -> (bound <= bound')%Z ->
  db.ids_below bound' ids = true.
Proof.
  unfold db.ids_below. rewrite !forallb_forall. intros Hb Hle i Hin.
  specialize (Hb i Hin). apply Z.ltb_lt in Hb. apply Z.ltb_lt. lia.
Qed.

Lemma has_report_in (d : db.t) (r : TpsReport.t) :
  In r (db.tpsReports d) -> db.has_report d (TpsReport.id r) = true.
Proof.
  intros Hin. unfold db.has_report. apply existsb_exists.
  exists r. split; [exact Hin | apply Z.eqb_refl].
Qed.

Lemma has_report_snoc (d : db.t) (row : TpsReport.t) (j : Z) :
  db.has_report d j = true ->
  db.has_report (db.add_report row d) j = true.
Proof.
  unfold db.has_report, db.add_report. cbn [db.tpsReports db.with_reports].
  rewrite existsb_app. intros ->. reflexivity.
Qed.

Lemma head_filter_in {A} (p : A -> bool) (l : list A) (x : A) :
  head (List.filter p l) = Some x -> In x l /\ p x = true.
Proof.
  intros H. assert (Hin : In x (List.filter p l)).
  { destruct (List.filter p l); cbn in H; [discriminate |].
    inversion H. now left. }
  now apply List.filter_In in Hin.
Qed.

Lemma head_filter_snoc {A} (p : A -> bool) (l : list A) (x y : A) :
  head (List.filter p l) = Some x -> head (List.filter p (l ++ [y])) = Some x.
Proof.
  rewrite List.filter_app. destruct (List.filter p l); cbn; [discriminate | trivial].
Qed.

Lemma head_filter_fresh (rows : list TpsReport.t) (row : TpsReport.t) (bound : Z) :
  db.ids_below bound (map TpsReport.id rows) = true ->
  (bound <= TpsReport.id row)%Z ->
  head (List.filter (fun r => (TpsReport.id r =? TpsReport.id row)%Z) (rows ++ [row]))
  = Some row.
Proof.
  intros Hb Hle. rewrite List.filter_app.
  assert (Hnil : List.filter (fun r => (TpsReport.id r =? TpsReport.id row)%Z) rows = []).
  { induction rows as [| r rows IH]; cbn; [reflexivity |].
    cbn in Hb. apply andb_true_iff in Hb. destruct Hb as [Hr Hb].
    apply Z.ltb_lt in Hr.
    replace (TpsReport.id r =? TpsReport.id row)%Z with false
      by (symmetry; apply Z.eqb_neq; lia).
    now apply IH. }
  rewrite Hnil. cbn. now rewrite Z.eqb_refl.
Qed.

(** [INSERT INTO tps_reports]: in a well-formed database a row without an
    id or dates of its own, whose references exist and whose form data is
    not [null], is stored under the next sequence value. *)
Lemma db_createTpsReport_spec (w : World db.t) (reportData : InsertTpsReport.t) :
  db.wf (stg w) = true ->
  plain reportData ->
  InsertTpsReport.form_data reportData <> JNull ->
  db.has_user (stg w) (InsertTpsReport.creator_id reportData) = true ->
  db.has_user (stg w) (InsertTpsReport.receiver_id reportData) = true ->
  (forall parent, InsertTpsReport.replicated_from_id reportData = Some parent ->
                  db.has_report (stg w) parent = true) ->
  let row := spread_insert reportData (db.tps_reports_id_seq (stg w))
               (clock w (ticks w)) in
  let d' := db.add_report row (stg w) in
  db.createTpsReport reportData w
  = (Ok row, mkWorld (S (ticks w)) (clock w) (console w) (disk w) d')
  /\ db.wf d' = true.
Proof.
  intros Hwf (Hnoid & Hnoc & Hnou) Hfd Hc Hr Hp row d'.
  unfold db.wf in Hwf. rewrite !andb_true_iff in Hwf.
  destruct Hwf as [[Hok Hrb] Hlb].
  unfold db.constraints_ok in Hok. rewrite !andb_true_iff in Hok.
  destruct Hok as [[[[Hu Hfk] Hlu] Hlfk] Hnn].
  assert (Hok' : db.constraints_ok d' = true).
  { unfold db.constraints_ok. rewrite !andb_true_iff.
    change (db.tpsReports d') with (db.tpsReports (stg w) ++ [row]).
    change (db.tpsLogs d') with (db.tpsLogs (stg w)).
    split; [split; [split; [split |] |] |].
    5: { rewrite forallb_app, Hnn. cbn [forallb andb].
         rewrite andb_true_r. unfold db.report_not_null.
         cbn [row spread_insert TpsReport.form_data].
         destruct (InsertTpsReport.form_data reportData); congruence. }
    - rewrite map_app. cbn [map].
      apply (unique_snoc (db.tps_reports_id_seq (stg w))); trivial.
      cbn. lia.
    - rewrite forallb_app. apply andb_true_iff. split.
      + apply forallb_forall. intros r Hin.
        rewrite forallb_forall in Hfk. specialize (Hfk r Hin).
        unfold db.report_fk_ok in *.
        change (db.has_user d') with (db.has_user (stg w)).
        rewrite !andb_true_iff in Hfk. destruct Hfk as [[H1 H2] H3].
        rewrite H1, H2. cbn [andb].
        destruct (TpsReport.replicated_from_id r); [| reflexivity].
        now apply has_report_snoc.
      + cbn [forallb]. rewrite andb_true_r.
        unfold db.report_fk_ok.
        change (db.has_user d') with (db.has_user (stg w)).
        cbn [row spread_insert TpsReport.creator_id TpsReport.receiver_id
                 TpsReport.replicated_from_id].
        rewrite Hc, Hr. cbn [andb].
        destruct (InsertTpsReport.replicated_from_id reportData) as [parent |] eqn:E;
          [| reflexivity].
        apply has_report_snoc. now apply Hp.
    - exact Hlu.
    - apply forallb_forall. intros l Hin.
      rewrite forallb_forall in Hlfk. specialize (Hlfk l Hin).
      unfold db.log_fk_ok in *.
      change (db.has_user d') with (db.has_user (stg w)).
      rewrite andb_true_iff in Hlfk. destruct Hlfk as [H1 H2].
      rewrite H2, andb_true_r. now apply has_report_snoc. }
  split.
  - unfold db.createTpsReport. rewrite Hnoid, Hnoc, Hnou.
    unfold db.commit, new_Date, get_stg, put_stg.
    run_io. cbn [stg ticks clock console disk].
    fold row. 
    change (db.with_reports (db.tpsReports (db.next_report_id (stg w)) ++ [row])
              (db.next_report_id (stg w))) with d'.
    rewrite Hok'. reflexivity.
  - unfold db.wf. rewrite Hok'. cbn [andb].
    apply andb_true_iff. split.
    + change (db.tpsReports d') with (db.tpsReports (stg w) ++ [row]).
      change (db.tps_reports_id_seq d') with (db.tps_reports_id_seq (stg w) + 1)%Z.
      rewrite map_app. cbn [map].
      change (TpsReport.id row) with (db.tps_reports_id_seq (stg w)).
      apply (ids_below_snoc (db.tps_reports_id_seq (stg w))); [exact Hrb | lia].
    + exact Hlb.
Qed.

(** [INSERT INTO tps_logs], likewise. *)
Lemma db_createTpsLog_spec (w : World db.t) (logData : InsertTpsLog.t) (ts : Date) :
  db.wf (stg w) = true ->
  db.has_report (stg w) (InsertTpsLog.tps_id logData) = true ->
  db.has_user (stg w) (InsertTpsLog.user_id logData) = true ->
  let row := TpsLog.mk (db.tps_logs_id_seq (stg w)) (InsertTpsLog.tps_id logData)
               (InsertTpsLog.user_id logData) (InsertTpsLog.action logData) ts
               (InsertTpsLog.details logData) in
  let d' := db.add_log row (stg w) in
  db.createTpsLog logData ts w
  = (Ok row, mkWorld (ticks w) (clock w) (console w) (disk w) d')
  /\ db.wf d' = true.
Proof.
  intros Hwf Hrep Husr row d'.
  unfold db.wf in Hwf. rewrite !andb_true_iff in Hwf.
  destruct Hwf as [[Hok Hrb] Hlb].
  unfold db.constraints_ok in Hok. rewrite !andb_true_iff in Hok.
  destruct Hok as [[[[Hu Hfk] Hlu] Hlfk] Hnn].
  assert (Hok' : db.constraints_ok d' = true).
  { unfold db.constraints_ok. rewrite !andb_true_iff.
    change (db.tpsReports d') with (db.tpsReports (stg w)).
    change (db.tpsLogs d') with (db.tpsLogs (stg w) ++ [row]).
    change (db.report_fk_ok d') with (db.report_fk_ok (stg w)).
    change (db.log_fk_ok d') with (db.log_fk_ok (stg w)).
    split; [split; [split; [split |] |] |]; trivial.
    - rewrite map_app. cbn [map].
      apply (unique_snoc (db.tps_logs_id_seq (stg w))); trivial.
      cbn. lia.
    - rewrite forallb_app, Hlfk. cbn [forallb andb].
      rewrite andb_true_r. unfold db.log_fk_ok. cbn [row TpsLog.tps_id TpsLog.user_id].
      now rewrite Hrep, Husr. }
  split.
  - unfold db.createTpsLog, db.commit, get_stg, put_stg.
    run_io. cbn [stg ticks clock console disk].
    fold row.
    change (db.with_logs (db.tpsLogs (db.next_log_id (stg w)) ++ [row])
              (db.next_log_id (stg w))) with d'.
    rewrite Hok'. reflexivity.
  - unfold db.wf. rewrite Hok'. cbn [andb].
    apply andb_true_iff. split.
    + exact Hrb.
    + change (db.tpsLogs d') with (db.tpsLogs (stg w) ++ [row]).
      change (db.tps_logs_id_seq d') with (db.tps_logs_id_seq (stg w) + 1)%Z.
      rewrite map_app. cbn [map].
      change (TpsLog.id row) with (db.tps_logs_id_seq (stg w)).
      apply (ids_below_snoc (db.tps_logs_id_seq (stg w))); [exact Hlb | lia].
Qed.

(** *** The same, seen from [DatabaseStorage] *)

Lemma has_user_add_report (d : db.t) (row : TpsReport.t) (u : Z) :
  db.has_user (db.add_report row d) u = db.has_user d u.
Proof. reflexivity. Qed.

Lemma has_report_add_log (d : db.t) (row : TpsLog.t) (j : Z) :
  db.has_report (db.add_log row d) j = db.has_report d j.
Proof. reflexivity. Qed.

Lemma has_user_add_log (d : db.t) (row : TpsLog.t) (u : Z) :
  db.has_user (db.add_log row d) u = db.has_user d u.
Proof. reflexivity. Qed.

Lemma has_report_added (d : db.t) (row : TpsReport.t) :
  db.has_report (db.add_report row d) (TpsReport.id row) = true.
Proof.
  apply has_report_in. unfold db.add_report. cbn [db.tpsReports db.with_reports].
  apply in_or_app. right. now left.
Qed.

Lemma dbs_createTpsLog_spec (w : World DatabaseStorage.t) (log : InsertTpsLog.t) :
  db.wf (DatabaseStorage.conn (stg w)) = true ->
  db.has_report (DatabaseStorage.conn (stg w)) (InsertTpsLog.tps_id log) = true ->
  db.has_user (DatabaseStorage.conn (stg w)) (InsertTpsLog.user_id log) = true ->
  let d := DatabaseStorage.conn (stg w) in
  let row := TpsLog.mk (db.tps_logs_id_seq d) (InsertTpsLog.tps_id log)
               (InsertTpsLog.user_id log) (InsertTpsLog.action log)
               (clock w (ticks w)) (InsertTpsLog.details log) in
  DatabaseStorage.createTpsLog log w
  = (Ok row, DatabaseStorage.later w 1 (db.add_log row d))
  /\ db.wf (db.add_log row d) = true.
Proof.
  intros Hwf Hrep Husr d row.
  destruct (db_createTpsLog_spec
              (mkWorld (S (ticks w)) (clock w) (console w) (disk w) d)
              log (clock w (ticks w)) Hwf Hrep Husr) as [E Hwf'].
  split; [| exact Hwf'].
  unfold DatabaseStorage.createTpsLog, DatabaseStorage.on_db, zoom, new_Date.
  run_io. cbn [stg ticks clock console disk].
  fold d. cbn [stg ticks clock console disk] in E. rewrite E.
  reflexivity.
Qed.

Lemma dbs_createTpsReport_spec (w : World DatabaseStorage.t)
    (report : InsertTpsReport.t) :
  db.wf (DatabaseStorage.conn (stg w)) = true ->
  plain report ->
  InsertTpsReport.form_data report <> JNull ->
  db.has_user (DatabaseStorage.conn (stg w)) (InsertTpsReport.creator_id report) = true ->
  db.has_user (DatabaseStorage.conn (stg w)) (InsertTpsReport.receiver_id report) = true ->
  (forall parent, InsertTpsReport.replicated_from_id report = Some parent ->
                  db.has_report (DatabaseStorage.conn (stg w)) parent = true) ->
  let d := DatabaseStorage.conn (stg w) in
  let row := spread_insert report (db.tps_reports_id_seq d) (clock w (ticks w)) in
  let log := TpsLog.mk (db.tps_logs_id_seq d) (db.tps_reports_id_seq d)
               (InsertTpsReport.creator_id report) "created"
               (clock w (S (ticks w))) (JObj []) in
  DatabaseStorage.createTpsReport report w
  = (Ok row, DatabaseStorage.later w 2 (db.add_log log (db.add_report row d)))
  /\ db.wf (db.add_log log (db.add_report row d)) = true.
Proof.
  intros Hwf Hplain Hfd Hc Hr Hp d row log.
  destruct (db_createTpsReport_spec
              (mkWorld (ticks w) (clock w) (console w) (disk w) d)
              report Hwf Hplain Hfd Hc Hr Hp) as [E Hwf'].
  cbn [stg ticks clock console disk] in E, Hwf'. fold d row in E, Hwf'.
  destruct (dbs_createTpsLog_spec
              (DatabaseStorage.later w 1 (db.add_report row d))
              (InsertTpsLog.mk (TpsReport.id row) (InsertTpsReport.creator_id report)
                 "created" (JObj []))) as [E2 Hwf''].
  { exact Hwf'. }
  { apply has_report_added. }
  { exact Hc. }
  split; [| exact Hwf''].
  unfold DatabaseStorage.createTpsReport. unfold bind at 1.
  unfold DatabaseStorage.on_db, zoom.
  change (DatabaseStorage.conn (stg w)) with d. rewrite E.
  cbn [stg ticks clock console disk].
  unfold bind at 1.
  change (mkWorld (S (ticks w)) (clock w) (console w) (disk w)
            (DatabaseStorage.mk (DatabaseStorage.pdfDir (stg w)) (db.add_report row d)))
    with (DatabaseStorage.later w 1 (db.add_report row d)).
  rewrite E2. reflexivity.
Qed.

(** ** Replication *)

Lemma assoc_get_set_other (k k' : string) (v : json) (kvs : list (string * json)) :
  k' <> k -> assoc_get k' (assoc_set k v kvs) = assoc_get k' kvs.
Proof.
  intros Hne. induction kvs as [| [k0 v0] kvs IH]; cbn.
  - destruct (String.eqb_spec k k'); [congruence | reflexivity].
  - destruct (String.eqb_spec k0 k) as [-> | Hk0]; cbn.
    + destruct (String.eqb_spec k k'); [congruence | reflexivity].
    + destruct (String.eqb_spec k0 k'); [reflexivity | exact IH].
Qed.

Lemma assoc_get_set_same (k : string) (v : json) (kvs : list (string * json)) :
  assoc_get k (assoc_set k v kvs) = Some v.
Proof.
  induction kvs as [| [k0 v0] kvs IH]; cbn.
  - now rewrite String.eqb_refl.
  - destruct (String.eqb_spec k0 k) as [-> | Hk0]; cbn.
    + now rewrite String.eqb_refl.
    + destruct (String.eqb_spec k0 k); [congruence | exact IH].
Qed.

(** Copying and resetting form data succeeds on everything but [null]; it
    leaves every key but [emotional_state] as it was, makes a truthy
    emotional state the blank pair, and changes nothing at all when the
    emotional state was not truthy. *)
Lemma reset_form_data_spec (form_data : json) :
  form_data <> JNull ->
  exists formData,
    reset_form_data form_data = Ok formData
    /\ other_form_data_kept form_data formData
    /\ (js_truthy (emotional_state_of form_data) = true ->
        emotional_state_of formData = Some blank_emotional_state)
    /\ (js_truthy (emotional_state_of form_data) = false -> formData = form_data).
Proof.
  intros Hnn. unfold reset_form_data, JSON_clone, other_form_data_kept.
  destruct form_data as [| b | n | s | xs | kvs]; try congruence;
    try (eexists; split; [reflexivity |]; cbn; repeat split; auto; discriminate).
  cbn [js_get emotional_state_of].
  destruct (js_truthy (assoc_get "emotional_state" kvs)) eqn:Et.
  - eexists. split; [reflexivity |]. cbn [js_set js_get emotional_state_of].
    repeat split.
    + intros k Hk. f_equal. now apply assoc_get_set_other.
    + intros _. apply assoc_get_set_same.
    + discriminate.
  - eexists. split; [reflexivity |]. cbn [js_get emotional_state_of].
    repeat split; auto. discriminate.
Qed.

Lemma reset_form_data_not_null (form_data formData : json) :
  reset_form_data form_data = Ok formData -> formData <> JNull.
Proof.
  unfold reset_form_data, JSON_clone.
  destruct form_data as [| b | n | s | xs | kvs]; cbn; try discriminate;
    try (intros H; inversion H; discriminate).
  destruct (js_truthy (assoc_get "emotional_state" kvs));
    intros H; inversion H; discriminate.
Qed.

Lemma mem_replicate_spec (w : World MemStorage.t) (id : Z) (R : TpsReport.t)
    (formData : json) :
  MemStorage.tpsReports (stg w) !! id = Some R ->
  reset_form_data (TpsReport.form_data R) = Ok formData ->
  let s := stg w in
  let R' := replica R formData (MemStorage.tpsId s) (clock w (ticks w))
              (clock w (S (ticks w))) in
  let created := TpsLog.mk (MemStorage.logId s) (MemStorage.tpsId s)
                   (TpsReport.creator_id R) "created" (clock w (2 + ticks w)%nat)
                   (JObj []) in
  let replicated := TpsLog.mk (MemStorage.logId s + 1) (MemStorage.tpsId s)
                      (TpsReport.creator_id R) "replicated"
                      (clock w (3 + ticks w)%nat)
                      (JObj [("original_id", JNum (TpsReport.id R))]) in
  MemStorage.replicateTpsReport id w
  = (Ok (Some R'),
     mkWorld (4 + ticks w) (clock w) (console w) (disk w)
       (MemStorage.mk (MemStorage.users s)
          (<[MemStorage.tpsId s := R']> (MemStorage.tpsReports s))
          (<[MemStorage.logId s + 1 := replicated]>
             (<[MemStorage.logId s := created]> (MemStorage.tpsLogs s)))
          (MemStorage.userId s) (MemStorage.tpsId s + 1)
          (MemStorage.logId s + 1 + 1) (MemStorage.pdfDir s))).
Proof.
  intros Hlook Hreset s R' created replicated.
  unfold MemStorage.replicateTpsReport, MemStorage.getTpsReport, get_stg.
  unfold bind at 1. unfold bind at 1. cbn [ret]. rewrite Hlook.
  unfold bind at 1. unfold lift_outcome. rewrite Hreset.
  reflexivity.
Qed.

Lemma wf_report_users (d : db.t) (R : TpsReport.t) :
  db.wf d = true -> In R (db.tpsReports d) ->
  db.has_user d (TpsReport.creator_id R) = true
  /\ db.has_user d (TpsReport.receiver_id R) = true.
Proof.
  unfold db.wf, db.constraints_ok. rewrite !andb_true_iff.
  intros [[[[[[_ Hfk] _] _] _] _] _] Hin.
  rewrite forallb_forall in Hfk. specialize (Hfk R Hin).
  unfold db.report_fk_ok in Hfk. rewrite !andb_true_iff in Hfk.
  tauto.
Qed.

Lemma dbs_replicate_spec (w : World DatabaseStorage.t) (id : Z) (R : TpsReport.t)
    (formData : json) :
  db.wf (DatabaseStorage.conn (stg w)) = true ->
  head (List.filter (fun r => (TpsReport.id r =? id)%Z)
          (db.tpsReports (DatabaseStorage.conn (stg w)))) = Some R ->
  reset_form_data (TpsReport.form_data R) = Ok formData ->
  let d := DatabaseStorage.conn (stg w) in
  let R' := replica R formData (db.tps_reports_id_seq d) (clock w (ticks w))
              (clock w (S (ticks w))) in
  let created := TpsLog.mk (db.tps_logs_id_seq d) (db.tps_reports_id_seq d)
                   (TpsReport.creator_id R) "created" (clock w (2 + ticks w)%nat)
                   (JObj []) in
  let replicated := TpsLog.mk (db.tps_logs_id_seq d + 1) (db.tps_reports_id_seq d)
                      (TpsReport.creator_id R) "replicated"
                      (clock w (3 + ticks w)%nat)
                      (JObj [("original_id", JNum (TpsReport.id R))]) in
  DatabaseStorage.replicateTpsReport id w
  = (Ok (Some R'),
     DatabaseStorage.later w 4
       (db.add_log replicated (db.add_log created (db.add_report R' d))))
  /\ db.wf (db.add_log replicated (db.add_log created (db.add_report R' d))) = true.
Proof.
  intros Hwf Hhead Hreset.
  cbv zeta.
  destruct w as [t c co dk [p d0]]. cbn [stg ticks clock console disk
    DatabaseStorage.conn] in *.
  set (R' := replica R formData (db.tps_reports_id_seq d0) (c t) (c (S t))).
  set (created := TpsLog.mk (db.tps_logs_id_seq d0) (db.tps_reports_id_seq d0)
                    (TpsReport.creator_id R) "created" (c (2 + t)%nat) (JObj [])).
  set (replicated := TpsLog.mk (db.tps_logs_id_seq d0 + 1) (db.tps_reports_id_seq d0)
                       (TpsReport.creator_id R) "replicated" (c (3 + t)%nat)
                       (JObj [("original_id", JNum (TpsReport.id R))])).
  destruct (head_filter_in _ _ _ Hhead) as [Hin Hid].
  destruct (wf_report_users d0 R Hwf Hin) as [Hc Hr].
  destruct (dbs_createTpsReport_spec
              (mkWorld (S t) c co dk (DatabaseStorage.mk p d0))
              (replica_of R formData (before_T (toISOString (c t))))) as [E1 Hwf1];
    cbn [stg ticks clock console disk DatabaseStorage.conn]; trivial.
  { repeat split. }
  { cbn [replica_of InsertTpsReport.form_data].
    now apply (reset_form_data_not_null (TpsReport.form_data R)). }
  { intros parent Hp. cbn in Hp. inversion Hp. now apply has_report_in. }
  cbn [stg ticks clock console disk DatabaseStorage.conn
         replica_of InsertTpsReport.creator_id] in E1, Hwf1.
  fold (replica R formData (db.tps_reports_id_seq d0) (c t) (c (S t))) in E1, Hwf1.
  fold R' in E1, Hwf1. fold created in E1, Hwf1.
  destruct (dbs_createTpsLog_spec
              (DatabaseStorage.later (mkWorld (S t) c co dk (DatabaseStorage.mk p d0)) 2
                 (db.add_log created (db.add_report R' d0)))
              (InsertTpsLog.mk (TpsReport.id R') (TpsReport.creator_id R) "replicated"
                 (JObj [("original_id", JNum (TpsReport.id R))]))) as [E2 Hwf2];
    cbn [stg ticks clock console disk DatabaseStorage.conn DatabaseStorage.later
           InsertTpsLog.tps_id InsertTpsLog.user_id]; trivial.
  { rewrite has_report_add_log. apply has_report_added. }
  cbn [stg ticks clock console disk DatabaseStorage.conn DatabaseStorage.later
         InsertTpsLog.tps_id InsertTpsLog.user_id InsertTpsLog.action
         InsertTpsLog.details DatabaseStorage.pdfDir] in E2, Hwf2.
  split; [| exact Hwf2].
  unfold DatabaseStorage.replicateTpsReport.
  unfold bind at 1. rewrite dbs_get_spec.
  cbn [stg DatabaseStorage.conn]. rewrite Hhead.
  unfold bind at 1. unfold lift_outcome. rewrite Hreset.
  unfold bind at 1. unfold new_Date. cbn [stg ticks clock console disk].
  unfold bind at 1. rewrite_call E1.
  unfold bind at 1. rewrite_call E2.
  reflexivity.
Qed.

(** The replicate route hands a terminal report to the store and answers
    201 with what the store returns, whoever asks. *)
Lemma post_replicate_runs {S} {storage : IStorage S} (w w' : World S)
    (userId id : Z) (R R' : TpsReport.t) :
  getTpsReport id w = (Ok (Some R), w) ->
  is_terminal (TpsReport.status R) ->
  replicateTpsReport id w = (Ok (Some R'), w') ->
  post_replicate userId (Some id) w = (Ok (mkResponse 201 (ReportJson R')), w').
Proof.
  intros Hget Hterm Hrep. unfold post_replicate. run_io. rewrite Hget.
  destruct Hterm as [-> | ->]; cbn; now rewrite Hrep.
Qed.

Lemma replica_built (R : TpsReport.t) (formData : json) (id : Z) (today created : Date) :
  TpsReport.form_data R <> JNull ->
  reset_form_data (TpsReport.form_data R) = Ok formData ->
  replica_as_built R (replica R formData id today created)
    (before_T (toISOString today)).
Proof.
  intros Hnn Hreset.
  destruct (reset_form_data_spec _ Hnn) as (fd & Hfd & Hkept & Hblank & Hsame).
  rewrite Hreset in Hfd. inversion Hfd; subst fd.
  unfold replica_as_built, replica_core. cbn.
  repeat split; auto.
Qed.

Lemma wf_not_null (d : db.t) (R : TpsReport.t) :
  db.wf d = true -> In R (db.tpsReports d) -> TpsReport.form_data R <> JNull.
Proof.
  unfold db.wf, db.constraints_ok. rewrite !andb_true_iff.
  intros [[[_ Hnn] _] _] Hin.
  rewrite forallb_forall in Hnn. specialize (Hnn R Hin).
  unfold db.report_not_null in Hnn. intros E. rewrite E in Hnn. discriminate.
Qed.


(** (C5, as the code has it) Replicating a completed or aborted report whose
    form data is not [null] answers 201 with a new draft: it points back to
    the original, is dated today, has both initials, both notes and the PDF
    path set to the empty string, carries the original's parties, times,
    location and sound, and its form data is the original's with a truthy
    [emotional_state] replaced by the blank pair, and the original's
    unchanged when its [emotional_state] is not truthy.  The new report is
    stored under its own id and the original is still what is stored under
    its id.  This holds of the memory store when its next id is unused, and
    of the database when its constraints hold and its ids lie below their
    sequences (its form data is then never [null]). *)
Theorem replicate_resets_and_copies :
  (forall (w : World MemStorage.t) (userId id : Z) (R : TpsReport.t),
      MemStorage.tpsReports (stg w) !! MemStorage.tpsId (stg w) = None ->
      MemStorage.getTpsReport id w = (Ok (Some R), w) ->
      is_terminal (TpsReport.status R) ->
      TpsReport.form_data R <> JNull ->
      exists R' w',
        post_replicate userId (Some id) w = (Ok (mkResponse 201 (ReportJson R')), w')
        /\ replica_as_built R R' (before_T (toISOString (clock w (ticks w))))
        /\ MemStorage.getTpsReport id w' = (Ok (Some R), w')
        /\ MemStorage.getTpsReport (TpsReport.id R') w' = (Ok (Some R'), w'))
  /\
  (forall (w : World DatabaseStorage.t) (userId id : Z) (R : TpsReport.t),
      db.wf (DatabaseStorage.conn (stg w)) = true ->
      DatabaseStorage.getTpsReport id w = (Ok (Some R), w) ->
      is_terminal (TpsReport.status R) ->
      exists R' w',
        post_replicate userId (Some id) w = (Ok (mkResponse 201 (ReportJson R')), w')
        /\ replica_as_built R R' (before_T (toISOString (clock w (ticks w))))
        /\ DatabaseStorage.getTpsReport id w' = (Ok (Some R), w')
        /\ DatabaseStorage.getTpsReport (TpsReport.id R') w' = (Ok (Some R'), w')).
Proof.
  split.
  - intros w userId id R Hfree Hget Hterm Hnn.
    destruct (getTpsReport_mem_lookup _ _ _ _ Hget) as [Hlook _].
    destruct (reset_form_data_spec _ Hnn) as (fd & Hfd & _).
    pose proof (mem_replicate_spec w id R fd Hlook Hfd) as Hrep. cbv zeta in Hrep.
    eexists. eexists. split; [| split; [| split]].
    + apply (post_replicate_runs (storage := MemStorage_IStorage) _ _ userId id R _
               Hget Hterm). exact Hrep.
    + now apply replica_built.
    + unfold MemStorage.getTpsReport, get_stg. run_io.
      cbn [stg MemStorage.tpsReports].
      rewrite lookup_insert_ne; [now rewrite Hlook |].
      intros Heq. rewrite Heq in Hfree. congruence.
    + unfold MemStorage.getTpsReport, get_stg. run_io.
      cbn [stg MemStorage.tpsReports replica spread_insert TpsReport.id].
      now rewrite lookup_insert_eq.
  - intros w userId id R Hwf Hget Hterm.
    pose proof Hget as Hhead. rewrite dbs_get_spec in Hhead.
    assert (Hh : head (List.filter (fun r => (TpsReport.id r =? id)%Z)
                         (db.tpsReports (DatabaseStorage.conn (stg w)))) = Some R)
      by congruence.
    assert (Hnn : TpsReport.form_data R <> JNull)
      by (apply (wf_not_null _ R Hwf); now apply (head_filter_in _ _ _ Hh)).
    destruct (reset_form_data_spec _ Hnn) as (fd & Hfd & _).
    destruct (dbs_replicate_spec w id R fd Hwf Hh Hfd) as [Hrep Hwf'].
    cbv zeta in Hrep.
    eexists. eexists. split; [| split; [| split]].
    + apply (post_replicate_runs (storage := DatabaseStorage_IStorage) _ _ userId id R _
               Hget Hterm). exact Hrep.
    + now apply replica_built.
    + rewrite dbs_get_spec. f_equal. f_equal.
      cbn [stg DatabaseStorage.later DatabaseStorage.conn].
      unfold db.add_log, db.add_report.
      cbn [db.tpsReports db.with_logs db.with_reports db.next_log_id].
      now apply head_filter_snoc.
    + rewrite dbs_get_spec. f_equal. f_equal.
      cbn [stg DatabaseStorage.later DatabaseStorage.conn].
      unfold db.add_log, db.add_report.
      cbn [db.tpsReports db.with_logs db.with_reports db.next_log_id].
      apply (head_filter_fresh _ _ (db.tps_reports_id_seq (DatabaseStorage.conn (stg w)))).
      * unfold db.wf in Hwf. rewrite !andb_true_iff in Hwf. tauto.
      * cbn. lia.
Qed.

Lemma replicate_resets_and_copies_witness :
  (exists R R' w',
      Sample.stored 1 Sample.mem_completed = Some R
      /\ post_replicate 2 (Some 1) Sample.mem_completed
         = (Ok (mkResponse 201 (ReportJson R')), w')
      /\ replica_as_built R R' "2025-03-04"
      /\ Sample.stored 1 w' = Some R
      /\ Sample.stored (TpsReport.id R') w' = Some R')
  /\
  (exists R R' w',
      Sample.stored 1 Sample.db_completed = Some R
      /\ post_replicate 2 (Some 1) Sample.db_completed
         = (Ok (mkResponse 201 (ReportJson R')), w')
      /\ replica_as_built R R' "2025-03-04"
      /\ Sample.stored 1 w' = Some R
      /\ Sample.stored (TpsReport.id R') w' = Some R').
Proof.
  split.
  - edestruct (proj1 replicate_resets_and_copies Sample.mem_completed 2 1)
      as (R' & w' & Hrun & Hbuilt & Hold & Hnew).
    + vm_compute. reflexivity.
    + vm_compute. reflexivity.
    + left. reflexivity.
    + discriminate.
    + eexists. exists R', w'. split; [vm_compute; reflexivity |].
      split; [exact Hrun |]. split; [exact Hbuilt |].
      unfold Sample.stored. cbn [getTpsReport MemStorage_IStorage].
      split.
      * now rewrite Hold.
      * now rewrite Hnew.
  - edestruct (proj2 replicate_resets_and_copies Sample.db_completed 2 1)
      as (R' & w' & Hrun & Hbuilt & Hold & Hnew).
    + vm_compute. reflexivity.
    + vm_compute. reflexivity.
    + left. reflexivity.
    + eexists. exists R', w'. split; [vm_compute; reflexivity |].
      split; [exact Hrun |]. split; [exact Hbuilt |].
      unfold Sample.stored. cbn [getTpsReport DatabaseStorage_IStorage].
      split.
      * now rewrite Hold.
      * now rewrite Hnew.
Defined.

(** (C5, as stated) The replica of the completed sample report does not keep
    the notes: [creator_notes] was "bring snacks" and comes out empty. *)
Lemma replicate_drops_notes :
  ~ replicate_as_specified MemStorage.t /\ ~ replicate_as_specified DatabaseStorage.t.
Proof.
  split; intros H.
  - edestruct (H Sample.mem_completed 2 1) as (R' & w' & Hrun & Hspec & _).
    + vm_compute. reflexivity.
    + reflexivity.
    + vm_compute in Hrun. inversion Hrun; subst R'.
      destruct Hspec as (_ & _ & _ & _ & Hnotes & _). cbn in Hnotes. discriminate.
  - edestruct (H Sample.db_completed 2 1) as (R' & w' & Hrun & Hspec & _).
    + vm_compute. reflexivity.
    + reflexivity.
    + vm_compute in Hrun. inversion Hrun; subst R'.
      destruct Hspec as (_ & _ & _ & _ & Hnotes & _). cbn in Hnotes. discriminate.
Qed.



(** ** The update handler on the database, when permission is granted *)

Lemma wf_after_update (d : db.t) (i : Z) (data : PartialTpsReport.t) (now : Date) :
  db.wf d = true -> acceptable d i data ->
  db.wf (db.with_reports (map (set_where i data now) (db.tpsReports d)) d) = true.
Proof.
  intros Hwf Hacc.
  unfold db.wf in *. rewrite !andb_true_iff in *.
  destruct Hwf as [[Hok Hrb] Hlb]. repeat split.
  - now apply acceptable_constraints.
  - change (db.tpsReports (db.with_reports (map (set_where i data now) (db.tpsReports d)) d))
      with (map (set_where i data now) (db.tpsReports d)).
    rewrite map_keeps_ids; [exact Hrb |].
    intros r. now apply (acceptable_keeps_id d).
  - exact Hlb.
Qed.

Lemma dbs_getUserWithPartner_pure (w : World DatabaseStorage.t) (userId : Z) :
  DatabaseStorage.getUserWithPartner userId w
  = (Ok (result_of (DatabaseStorage.getUserWithPartner userId) w), w).
Proof.
  destruct w as [t c co dk [p d]].
  unfold result_of, DatabaseStorage.getUserWithPartner, DatabaseStorage.on_db, zoom,
    db.getUserWithPartner, db.getUserById, get_stg.
  run_io. cbn [stg ticks clock console disk DatabaseStorage.conn DatabaseStorage.pdfDir].
  destruct (head (List.filter (fun u => (User.id u =? userId)%Z) (db.users d)))
    as [user |]; [| reflexivity].
  destruct (User.partner_id user) as [pid |]; [| reflexivity].
  destruct (pid =? 0)%Z; [reflexivity |].
  cbn [stg ticks clock console disk DatabaseStorage.conn DatabaseStorage.pdfDir].
  destruct (head (List.filter (fun u => (User.id u =? pid)%Z) (db.users d)));
    reflexivity.
Qed.

Lemma dbs_getUserWithPartner_users (w1 w2 : World DatabaseStorage.t) (userId : Z) :
  db.users (DatabaseStorage.conn (stg w1)) = db.users (DatabaseStorage.conn (stg w2)) ->
  result_of (DatabaseStorage.getUserWithPartner userId) w1
  = result_of (DatabaseStorage.getUserWithPartner userId) w2.
Proof.
  destruct w1 as [t1 c1 co1 dk1 [p1 d1]], w2 as [t2 c2 co2 dk2 [p2 d2]].
  cbn [stg DatabaseStorage.conn]. intros Hu.
  unfold result_of, DatabaseStorage.getUserWithPartner, DatabaseStorage.on_db, zoom,
    db.getUserWithPartner, db.getUserById, get_stg.
  run_io. cbn [stg ticks clock console disk DatabaseStorage.conn DatabaseStorage.pdfDir].
  rewrite Hu.
  destruct (head (List.filter (fun u => (User.id u =? userId)%Z) (db.users d2)))
    as [user |]; [| reflexivity].
  destruct (User.partner_id user) as [pid |]; [| reflexivity].
  destruct (pid =? 0)%Z; [reflexivity |].
  cbn [stg ticks clock console disk DatabaseStorage.conn DatabaseStorage.pdfDir].
  rewrite Hu.
  destruct (head (List.filter (fun u => (User.id u =? pid)%Z) (db.users d2)));
    reflexivity.
Qed.

(** The notifications only read the clock and write console lines. *)
Lemma dbs_put_notify_frame (w : World DatabaseStorage.t) (userId : Z)
    (report : TpsReport.t) (isCreator isReceiver : bool)
    (data : PartialTpsReport.t) (user partner : User.t) :
  exists n lines,
    put_notify userId report isCreator isReceiver data user partner w
    = (Ok tt, mkWorld (n + ticks w) (clock w) (console w ++ lines) (disk w) (stg w)).
Proof.
  destruct w as [t c co dk s].
  unfold put_notify.
  destruct (status_is data TpsStatus.PENDING_REVIEW && isCreator);
    [exists 0%nat; eexists [_]; reflexivity |].
  destruct (status_is data TpsStatus.PENDING_APPROVAL && isReceiver);
    [exists 0%nat; eexists [_]; reflexivity |].
  destruct (status_is data TpsStatus.COMPLETED && isCreator).
  { exists 1%nat. eexists [_; _; _]. cbn. rewrite <- !app_assoc. reflexivity. }
  destruct (status_is data TpsStatus.ABORTED);
    [exists 0%nat; eexists [_]; reflexivity |].
  exists 0%nat, []. cbn. now rewrite app_nil_r.
Qed.

(** Once permission is granted, a payload the database accepts is
    written over the row then current, logged and answered with 200; what
    the notifications add comes after.  The [report] the handler read
    earlier only feeds the notifications. *)
Lemma dbs_put_apply_spec (w : World DatabaseStorage.t) (userId reportId : Z)
    (report current : TpsReport.t) (isCreator isReceiver : bool)
    (data : PartialTpsReport.t) :
  db.wf (DatabaseStorage.conn (stg w)) = true ->
  acceptable (DatabaseStorage.conn (stg w)) reportId data ->
  head (List.filter (fun r => (TpsReport.id r =? reportId)%Z)
          (db.tpsReports (DatabaseStorage.conn (stg w)))) = Some current ->
  db.has_user (DatabaseStorage.conn (stg w)) userId = true ->
  let d := DatabaseStorage.conn (stg w) in
  let updated := spread_update current data (clock w (ticks w)) in
  let log := TpsLog.mk (db.tps_logs_id_seq d) reportId userId "updated"
               (clock w (S (ticks w)))
               (JObj [("status", JStr (TpsReport.status updated))]) in
  let d' := db.add_log log
              (db.with_reports
                 (map (set_where reportId data (clock w (ticks w))) (db.tpsReports d)) d) in
  let w1 := DatabaseStorage.later w 2 d' in
  put_apply userId reportId report isCreator isReceiver data w
  = (Ok (mkResponse 200 (ReportJson updated)),
     match result_of (DatabaseStorage.getUserWithPartner userId) w with
     | Some (user, partner) =>
         snd (put_notify userId report isCreator isReceiver data user partner w1)
     | None => w1
     end)
  /\ db.wf d' = true.
Proof.
  intros Hwf Hacc Hhead Huser. cbv zeta.
  destruct w as [t c co dk [p d]].
  cbn [stg ticks clock console disk DatabaseStorage.conn] in *.
  set (updated := spread_update current data (c t)).
  set (d1 := db.with_reports (map (set_where reportId data (c t)) (db.tpsReports d)) d).
  set (log := TpsLog.mk (db.tps_logs_id_seq d) reportId userId "updated" (c (S t))
                (JObj [("status", JStr (TpsReport.status updated))])).
  pose proof (wf_after_update d reportId data (c t) Hwf Hacc) as Hwf1. fold d1 in Hwf1.
  assert (Hok : db.constraints_ok d = true).
  { unfold db.wf in Hwf. rewrite !andb_true_iff in Hwf. tauto. }
  pose proof (dbs_update_spec (mkWorld t c co dk (DatabaseStorage.mk p d))
                reportId data Hok Hacc) as E1.
  cbn [stg ticks clock console disk DatabaseStorage.conn DatabaseStorage.pdfDir] in E1.
  rewrite Hhead in E1. cbn [option_map] in E1. fold updated d1 in E1.
  destruct (head_filter_in _ _ _ Hhead) as [Hin Hid]. apply Z.eqb_eq in Hid.
  destruct (dbs_createTpsLog_spec
              (mkWorld (S t) c co dk (DatabaseStorage.mk p d1))
              (InsertTpsLog.mk reportId userId "updated"
                 (JObj [("status", JStr (TpsReport.status updated))])))
    as [E2 Hwf2];
    cbn [stg ticks clock console disk DatabaseStorage.conn InsertTpsLog.tps_id
           InsertTpsLog.user_id]; trivial.
  { unfold d1. rewrite map_keeps_has_report.
    - rewrite <- Hid. now apply has_report_in.
    - intros r. now apply (acceptable_keeps_id d). }
  cbn [stg ticks clock console disk DatabaseStorage.conn DatabaseStorage.pdfDir
         DatabaseStorage.later InsertTpsLog.tps_id InsertTpsLog.user_id
         InsertTpsLog.action InsertTpsLog.details] in E2, Hwf2.
  change (db.tps_logs_id_seq d1) with (db.tps_logs_id_seq d) in E2, Hwf2.
  fold log in E2, Hwf2.
  split; [| exact Hwf2].
  unfold put_apply. cbn [updateTpsReport createTpsLog getUserWithPartner
                           DatabaseStorage_IStorage].
  unfold bind at 1. rewrite E1.
  unfold bind at 1. rewrite_call E2.
  unfold bind at 1. rewrite dbs_getUserWithPartner_pure.
  rewrite (dbs_getUserWithPartner_users _ (mkWorld t c co dk (DatabaseStorage.mk p d))
             userId) by reflexivity.
  destruct (result_of (DatabaseStorage.getUserWithPartner userId)
              (mkWorld t c co dk (DatabaseStorage.mk p d))) as [[user partner] |].
  - destruct (dbs_put_notify_frame
                (mkWorld (S (S t)) c co dk (DatabaseStorage.mk p (db.add_log log d1)))
                userId report isCreator isReceiver data user partner)
      as (n & lines & E3).
    unfold bind at 1. rewrite_call E3.
    unfold ret. f_equal.
    change (DatabaseStorage.later (mkWorld t c co dk (DatabaseStorage.mk p d)) 2
              (db.add_log log d1))
      with (mkWorld (S (S t)) c co dk (DatabaseStorage.mk p (db.add_log log d1))).
    now rewrite E3.
  - reflexivity.
Qed.

(** The log insert, whatever the tables: it draws an id, and the row is
    kept when the constraints hold with it. *)
Lemma dbs_createTpsLog_general (w : World DatabaseStorage.t) (log : InsertTpsLog.t) :
  let d := DatabaseStorage.conn (stg w) in
  let row := TpsLog.mk (db.tps_logs_id_seq d) (InsertTpsLog.tps_id log)
               (InsertTpsLog.user_id log) (InsertTpsLog.action log)
               (clock w (ticks w)) (InsertTpsLog.details log) in
  DatabaseStorage.createTpsLog log w
  = if db.constraints_ok (db.add_log row d)
    then (Ok row, DatabaseStorage.later w 1 (db.add_log row d))
    else (Throw db.violation, DatabaseStorage.later w 1 (db.next_log_id d)).
Proof.
  destruct w as [t c co dk [p d]]. cbv zeta.
  cbn [stg ticks clock console disk DatabaseStorage.conn].
  unfold DatabaseStorage.createTpsLog, DatabaseStorage.on_db, zoom,
    db.createTpsLog, db.commit, new_Date, get_stg, put_stg, throw.
  run_io. cbn [stg ticks clock console disk DatabaseStorage.conn].
  change (db.with_logs (db.tpsLogs (db.next_log_id d) ++ [?r]) (db.next_log_id d))
    with (db.add_log r d).
  match goal with |- context [if ?b then _ else _] => destruct b end; reflexivity.
Qed.

(** The granted part of the handler, whatever the tables and the payload:
    the update throws on a [created_at] and on a broken constraint, the log
    insert throws on a broken constraint, and otherwise the answer is 200
    with the current row rewritten. *)
Lemma dbs_put_apply_general (w : World DatabaseStorage.t) (userId reportId : Z)
    (report current : TpsReport.t) (isCreator isReceiver : bool)
    (data : PartialTpsReport.t) :
  find_report reportId (reports_of w) = Some current ->
  let d := DatabaseStorage.conn (stg w) in
  let updated := spread_update current data (clock w (ticks w)) in
  let log := TpsLog.mk (db.tps_logs_id_seq d) reportId userId "updated"
               (clock w (S (ticks w)))
               (JObj [("status", JStr (TpsReport.status updated))]) in
  let d1 := db.with_reports
              (map (set_where reportId data (clock w (ticks w))) (db.tpsReports d)) d in
  let w1 := DatabaseStorage.later w 2 (db.add_log log d1) in
  put_apply userId reportId report isCreator isReceiver data w
  = match PartialTpsReport.created_at data with
    | Some _ => (Throw db.not_a_date, DatabaseStorage.later w 1 d)
    | None =>
        if db.constraints_ok d1 then
          if db.constraints_ok (db.add_log log d1) then
            (Ok (mkResponse 200 (ReportJson updated)),
             match result_of (DatabaseStorage.getUserWithPartner userId) w with
             | Some (user, partner) =>
                 snd (put_notify userId report isCreator isReceiver data user partner w1)
             | None => w1
             end)
          else (Throw db.violation, DatabaseStorage.later w 2 (db.next_log_id d1))
        else (Throw db.violation, DatabaseStorage.later w 1 d)
    end.
Proof.
  intros Hfind. cbv zeta.
  unfold put_apply. cbn [updateTpsReport createTpsLog getUserWithPartner
                           DatabaseStorage_IStorage].
  unfold bind at 1. rewrite dbs_update_general. cbv zeta.
  destruct (PartialTpsReport.created_at data); [reflexivity |].
  destruct w as [t c co dk [p d]].
  unfold reports_of in Hfind.
  cbn [stg ticks clock console disk DatabaseStorage.conn DatabaseStorage.later
         DatabaseStorage.pdfDir Nat.add] in *.
  set (updated := spread_update current data (c t)).
  set (d1 := db.with_reports (map (set_where reportId data (c t)) (db.tpsReports d)) d).
  set (log := TpsLog.mk (db.tps_logs_id_seq d) reportId userId "updated" (c (S t))
                (JObj [("status", JStr (TpsReport.status updated))])).
  destruct (db.constraints_ok d1); [| reflexivity].
  rewrite Hfind. cbn [option_map]. fold updated.
  unfold bind at 1. rewrite dbs_createTpsLog_general. cbv zeta.
  cbn [stg ticks clock console disk DatabaseStorage.conn DatabaseStorage.later
         DatabaseStorage.pdfDir Nat.add InsertTpsLog.tps_id InsertTpsLog.user_id
         InsertTpsLog.action InsertTpsLog.details].
  change (db.tps_logs_id_seq d1) with (db.tps_logs_id_seq d). fold log.
  destruct (db.constraints_ok (db.add_log log d1)); [| reflexivity].
  unfold bind at 1. rewrite dbs_getUserWithPartner_pure.
  rewrite (dbs_getUserWithPartner_users _ (mkWorld t c co dk (DatabaseStorage.mk p d))
             userId) by reflexivity.
  destruct (result_of (DatabaseStorage.getUserWithPartner userId)
              (mkWorld t c co dk (DatabaseStorage.mk p d))) as [[user partner] |].
  - destruct (dbs_put_notify_frame
                (mkWorld (S (S t)) c co dk (DatabaseStorage.mk p (db.add_log log d1)))
                userId report isCreator isReceiver data user partner)
      as (n & lines & E3).
    unfold bind at 1. rewrite_call E3.
    unfold ret. f_equal.
    change (DatabaseStorage.later (mkWorld t c co dk (DatabaseStorage.mk p d)) 2
              (db.add_log log d1))
      with (mkWorld (S (S t)) c co dk (DatabaseStorage.mk p (db.add_log log d1))).
    now rewrite E3.
  - reflexivity.
Qed.




(** ** What a request can do to the stored statuses *)

Lemma keeps_reports_ret {A} (a : A) : keeps_reports (ret a).
Proof. intros w. reflexivity. Qed.

Lemma keeps_reports_bind {A B} (m : M DatabaseStorage.t A)
    (k : A -> M DatabaseStorage.t B) :
  keeps_reports m -> (forall a, keeps_reports (k a)) -> keeps_reports (bind m k).
Proof.
  intros Hm Hk w. unfold bind. specialize (Hm w).
  destruct (m w) as [[a | e] w1]; cbn [snd] in *.
  - now rewrite (Hk a w1).
  - exact Hm.
Qed.

Lemma keeps_reports_try_catch {A} (m : M DatabaseStorage.t A)
    (h : exn -> M DatabaseStorage.t A) :
  keeps_reports m -> (forall e, keeps_reports (h e)) -> keeps_reports (try_catch m h).
Proof.
  intros Hm Hh w. unfold try_catch. specialize (Hm w).
  destruct (m w) as [[a | e] w1]; cbn [snd] in *.
  - exact Hm.
  - now rewrite (Hh e w1).
Qed.

Lemma keeps_reports_new_Date : keeps_reports new_Date.
Proof. intros w. reflexivity. Qed.

Lemma keeps_reports_console_log (l : ConsoleLine) : keeps_reports (console_log l).
Proof. intros w. reflexivity. Qed.

Lemma keeps_reports_sendEmail (to subject body : string) :
  keeps_reports (DatabaseStorage.sendEmail to subject body).
Proof. intros w. reflexivity. Qed.

Lemma keeps_reports_addToCalendar (userId : Z) (event : CalendarEvent) :
  keeps_reports (DatabaseStorage.addToCalendar userId event).
Proof. intros w. reflexivity. Qed.

Lemma keeps_reports_savePdfToDisk (reportId : Z) (pdfData : Buffer) :
  keeps_reports (DatabaseStorage.savePdfToDisk reportId pdfData).
Proof. intros w. reflexivity. Qed.

Lemma keeps_reports_server_error (label message : string) (e : exn) :
  keeps_reports (server_error label message e).
Proof. intros w. reflexivity. Qed.

Lemma keeps_reports_getUserWithPartner (userId : Z) :
  keeps_reports (DatabaseStorage.getUserWithPartner userId).
Proof. intros w. now rewrite dbs_getUserWithPartner_pure. Qed.

Lemma keeps_reports_createTpsLog (log : InsertTpsLog.t) :
  keeps_reports (DatabaseStorage.createTpsLog log).
Proof.
  intros [t c co dk [p d]].
  unfold DatabaseStorage.createTpsLog, DatabaseStorage.on_db, zoom, db.createTpsLog,
    db.commit, new_Date, get_stg, put_stg, throw.
  run_io. cbn [stg ticks clock console disk DatabaseStorage.conn].
  match goal with |- context [if ?b then _ else _] => destruct b end; reflexivity.
Qed.

Lemma keeps_reports_put_notify (userId : Z) (report : TpsReport.t)
    (isCreator isReceiver : bool) (data : PartialTpsReport.t) (user partner : User.t) :
  keeps_reports (put_notify userId report isCreator isReceiver data user partner).
Proof.
  intros w.
  destruct (dbs_put_notify_frame w userId report isCreator isReceiver data user partner)
    as (n & lines & E).
  now rewrite E.
Qed.

(** The permission check of the update handler, outcome by outcome. *)
Lemma put_check_cases {S} {storage : IStorage S} (w : World S)
    (userId reportId : Z) (report : TpsReport.t) :
  getTpsReport reportId w = (Ok (Some report), w) ->
  (exists res, put_check userId reportId w = (Ok (Denied res), w) /\ Forbidden res)
  \/ (put_check userId reportId w
      = (Ok (Granted report (TpsReport.creator_id report =? userId)%Z
               (TpsReport.receiver_id report =? userId)%Z), w)
      /\ writes_as_owner userId report).
Proof.
  intros Hget. unfold put_check. run_io. rewrite Hget.
  unfold writes_as_owner, is_terminal.
  destruct (Z.eqb_spec (TpsReport.creator_id report) userId) as [Hc | Hc];
    destruct (Z.eqb_spec (TpsReport.receiver_id report) userId) as [Hr | Hr];
    cbn [negb andb].
  4: { left. eexists. split; reflexivity. }
  all: destruct (String.eqb_spec (TpsReport.status report) TpsStatus.DRAFT) as [Hd | Hd];
    cbn [negb andb orb];
    try (left; eexists; split; reflexivity);
    destruct (String.eqb_spec (TpsReport.status report) TpsStatus.PENDING_REVIEW)
      as [Hpr | Hpr];
    cbn [negb andb orb];
    try (left; eexists; split; reflexivity);
    destruct (String.eqb_spec (TpsReport.status report) TpsStatus.PENDING_APPROVAL)
      as [Hpa | Hpa];
    cbn [negb andb orb];
    try (left; eexists; split; reflexivity);
    destruct (String.eqb_spec (TpsReport.status report) TpsStatus.COMPLETED)
      as [Hco | Hco];
    cbn [negb andb orb];
    try (left; eexists; split; reflexivity);
    destruct (String.eqb_spec (TpsReport.status report) TpsStatus.ABORTED)
      as [Hab | Hab];
    cbn [negb andb orb];
    try (left; eexists; split; reflexivity);
    right; (split; [reflexivity |]);
    repeat split; try tauto; try congruence;
    try (rewrite Hd; discriminate); try (rewrite Hpr; discriminate);
    try (rewrite Hpa; discriminate).
Qed.

Lemma try_catch_bind_ok {S A B} (m : M S A) (k : A -> M S B) (h : exn -> M S B)
    (w w1 : World S) (a : A) :
  m w = (Ok a, w1) -> try_catch (bind m k) h w = try_catch (k a) h w1.
Proof. intros E. unfold try_catch, bind. now rewrite E. Qed.

Lemma try_catch_bind_reports {A B} (m : M DatabaseStorage.t A)
    (k : A -> M DatabaseStorage.t B) (h : exn -> M DatabaseStorage.t B)
    (w : World DatabaseStorage.t) :
  (forall a, keeps_reports (k a)) -> (forall e, keeps_reports (h e)) ->
  reports_of (snd (try_catch (bind m k) h w)) = reports_of (snd (m w)).
Proof.
  intros Hk Hh. unfold try_catch, bind.
  destruct (m w) as [[a | e] w1]; cbn [snd].
  - specialize (Hk a w1). destruct (k a w1) as [[b | e] w2]; cbn [snd] in *.
    + exact Hk.
    + now rewrite (Hh e w2).
  - apply Hh.
Qed.

Ltac keeps_reports_tac :=
  repeat first
    [ apply keeps_reports_ret
    | apply keeps_reports_new_Date
    | apply keeps_reports_console_log
    | apply keeps_reports_sendEmail
    | apply keeps_reports_addToCalendar
    | apply keeps_reports_savePdfToDisk
    | apply keeps_reports_server_error
    | apply keeps_reports_getUserWithPartner
    | apply keeps_reports_createTpsLog
    | apply keeps_reports_put_notify
    | apply keeps_reports_bind
    | match goal with
      | |- keeps_reports (match ?x with _ => _ end) => destruct x
      | |- keeps_reports (if ?b then _ else _) => destruct b
      end
    | intro ].

(** What the update handler leaves in [tps_reports]: the rows as they were,
    or, when the caller owns the report's status, the rows rewritten by the
    one UPDATE statement, whose ids are then unique. *)
Lemma dbs_put_reports (w : World DatabaseStorage.t) (userId : Z)
    (reportId : option Z) (data : PartialTpsReport.t) :
  reports_of (snd (put_tps_report userId reportId data w)) = reports_of w
  \/ exists rid report,
      reportId = Some rid
      /\ find_report rid (reports_of w) = Some report
      /\ writes_as_owner userId report
      /\ db.unique (map TpsReport.id
                      (map (set_where rid data (clock w (ticks w))) (reports_of w)))
         = true
      /\ reports_of (snd (put_tps_report userId reportId data w))
         = map (set_where rid data (clock w (ticks w))) (reports_of w).
Proof.
  destruct reportId as [rid |]; [| left; reflexivity].
  pose proof (dbs_get_spec w rid) as Hget.
  fold (find_report rid (db.tpsReports (DatabaseStorage.conn (stg w)))) in Hget.
  fold (reports_of w) in Hget.
  destruct (find_report rid (reports_of w)) as [report |] eqn:Hfind.
  2: { left. unfold put_tps_report, put_check. run_io.
       cbn [getTpsReport DatabaseStorage_IStorage]. now rewrite Hget. }
  destruct (put_check_cases (storage := DatabaseStorage_IStorage) w userId rid report Hget)
    as [(res & Hden & _) | [Hgr Hown]].
  { left. now rewrite (put_tps_report_denied _ _ _ _ _ _ Hden). }
  unfold put_tps_report. rewrite (try_catch_bind_ok _ _ _ _ _ _ Hgr).
  unfold put_apply.
  rewrite try_catch_bind_reports.
  - cbn [updateTpsReport DatabaseStorage_IStorage].
    rewrite dbs_update_general. cbv zeta. fold (reports_of w).
    destruct (PartialTpsReport.created_at data); [left; reflexivity |].
    destruct (db.constraints_ok _) eqn:Hok; cbn [snd].
    + right. exists rid, report.
      split; [reflexivity |]. split; [exact Hfind |]. split; [exact Hown |].
      split; [| reflexivity].
      unfold db.constraints_ok in Hok. rewrite !andb_true_iff in Hok.
      destruct Hok as [[[[Hu _] _] _] _]. exact Hu.
    + left. reflexivity.
  - intros [updated |]; keeps_reports_tac.
  - intros e. apply keeps_reports_server_error.
Qed.

Lemma unique_same_id (rows : list TpsReport.t) (r1 r2 : TpsReport.t) :
  db.unique (map TpsReport.id rows) = true ->
  In r1 rows -> In r2 rows -> TpsReport.id r1 = TpsReport.id r2 -> r1 = r2.
Proof.
  induction rows as [| x rows IH]; cbn; [contradiction |].
  rewrite andb_true_iff, negb_true_iff. intros [Hx Hu] H1 H2 Hid.
  assert (Hfresh : forall r, In r rows -> TpsReport.id r <> TpsReport.id x).
  { intros r Hin Heq.
    assert (Hex : existsb (Z.eqb (TpsReport.id x)) (map TpsReport.id rows) = true).
    { apply existsb_exists. exists (TpsReport.id r). split.
      - now apply in_map.
      - apply Z.eqb_eq. congruence. }
    congruence. }
  destruct H1 as [-> | H1], H2 as [-> | H2].
  - reflexivity.
  - exfalso. apply (Hfresh r2 H2). congruence.
  - exfalso. apply (Hfresh r1 H1). congruence.
  - now apply IH.
Qed.

Lemma find_report_in (id : Z) (rows : list TpsReport.t) (r : TpsReport.t) :
  find_report id rows = Some r -> In r rows /\ TpsReport.id r = id.
Proof.
  intros H. apply head_filter_in in H. destruct H as [Hin Hid].
  split; [exact Hin | now apply Z.eqb_eq].
Qed.

Lemma stored_db (w : World DatabaseStorage.t) (id : Z) :
  stored id w = find_report id (reports_of w).
Proof.
  unfold stored, result_of. cbn [getTpsReport DatabaseStorage_IStorage].
  now rewrite dbs_get_spec.
Qed.

(** An update request changes the status found under an id only if it is
    addressed to that id by the owner of the status found there, and then
    to the status its payload names. *)
Lemma put_status_change (w : World DatabaseStorage.t) (userId : Z)
    (reportId : option Z) (data : PartialTpsReport.t) (id : Z) (r r' : TpsReport.t) :
  find_report id (reports_of w) = Some r ->
  find_report id (reports_of (snd (put_tps_report userId reportId data w))) = Some r' ->
  TpsReport.status r' <> TpsReport.status r ->
  reportId = Some id
  /\ writes_as_owner userId r
  /\ PartialTpsReport.status data = Some (TpsReport.status r').
Proof.
  intros Hbefore Hafter Hchange.
  destruct (dbs_put_reports w userId reportId data)
    as [Hsame | (rid & report & -> & Hfind & Hown & Hu & Hrows)].
  { rewrite Hsame in Hafter. congruence. }
  rewrite Hrows in Hafter. clear Hrows.
  set (now := clock w (ticks w)) in *.
  destruct (find_report_in _ _ _ Hbefore) as [Hin Hid].
  destruct (find_report_in _ _ _ Hafter) as [Hin' Hid'].
  apply in_map_iff in Hin'. destruct Hin' as (r0 & Hr0 & Hin0).
  assert (Hfr : In (set_where rid data now r) (map (set_where rid data now) (reports_of w)))
    by now apply in_map.
  assert (Hfr0 : In r' (map (set_where rid data now) (reports_of w)))
    by (rewrite <- Hr0; now apply in_map).
  destruct (Z.eqb_spec (TpsReport.id r) rid) as [Hrid | Hrid].
  - assert (id = rid) by congruence. subst id.
    assert (report = r) by congruence. subst report.
    assert (Hr' : r' = set_where rid data now r).
    { apply (unique_same_id _ _ _ Hu Hfr0 Hfr).
      rewrite <- Hr0. unfold set_where.
      destruct (Z.eqb_spec (TpsReport.id r0) rid) as [H0 | H0];
        destruct (Z.eqb_spec (TpsReport.id r) rid) as [H1 | H1]; try contradiction.
      - unfold spread_update. cbn. now rewrite H0, H1.
      - exfalso. rewrite <- Hr0 in Hid'. unfold set_where in Hid'.
        destruct (Z.eqb_spec (TpsReport.id r0) rid); congruence. }
    split; [congruence |]. split; [exact Hown |].
    rewrite Hr' in Hchange |- *. unfold set_where in *.
    destruct (Z.eqb_spec (TpsReport.id r) rid); [| contradiction].
    unfold spread_update in *. cbn in *.
    destruct (PartialTpsReport.status data); [reflexivity | contradiction].
  - exfalso. apply Hchange. f_equal.
    apply (unique_same_id _ _ _ Hu Hfr0).
    + assert (Hkeep : set_where rid data now r = r).
      { unfold set_where. destruct (Z.eqb_spec (TpsReport.id r) rid);
          [contradiction | reflexivity]. }
      now rewrite <- Hkeep.
    + congruence.
Qed.

Lemma status_stable_refl (rows : list TpsReport.t) : status_stable rows rows.
Proof. intros id r H. exists r. split; [exact H | reflexivity]. Qed.

Lemma status_stable_trans (rows1 rows2 rows3 : list TpsReport.t) :
  status_stable rows1 rows2 -> status_stable rows2 rows3 -> status_stable rows1 rows3.
Proof.
  intros H12 H23 id r H.
  destruct (H12 id r H) as (r2 & H2 & E2).
  destruct (H23 id r2 H2) as (r3 & H3 & E3).
  exists r3. split; [exact H3 | congruence].
Qed.

Lemma status_stable_snoc (rows : list TpsReport.t) (row : TpsReport.t) :
  status_stable rows (rows ++ [row]).
Proof.
  intros id r H. exists r. split; [| reflexivity].
  unfold find_report in *. now apply head_filter_snoc.
Qed.

Lemma status_stable_map (f : TpsReport.t -> TpsReport.t) (rows : list TpsReport.t) :
  (forall r, TpsReport.id (f r) = TpsReport.id r) ->
  (forall r, TpsReport.status (f r) = TpsReport.status r) ->
  status_stable rows (map f rows).
Proof.
  intros Hid Hst id r H. exists (f r). split; [| apply Hst].
  unfold find_report in *. rewrite map_keeps_filter by exact Hid.
  now rewrite head_map, H.
Qed.

Lemma keeps_statuses_of_reports {A} (m : M DatabaseStorage.t A) :
  keeps_reports m -> keeps_statuses m.
Proof. intros H w. rewrite (H w). apply status_stable_refl. Qed.

Lemma keeps_statuses_bind {A B} (m : M DatabaseStorage.t A)
    (k : A -> M DatabaseStorage.t B) :
  keeps_statuses m -> (forall a, keeps_statuses (k a)) -> keeps_statuses (bind m k).
Proof.
  intros Hm Hk w. unfold bind. specialize (Hm w).
  destruct (m w) as [[a | e] w1]; cbn [snd] in *.
  - eapply status_stable_trans; [exact Hm | apply Hk].
  - exact Hm.
Qed.

Lemma keeps_statuses_try_catch {A} (m : M DatabaseStorage.t A)
    (h : exn -> M DatabaseStorage.t A) :
  keeps_statuses m -> (forall e, keeps_statuses (h e)) -> keeps_statuses (try_catch m h).
Proof.
  intros Hm Hh w. unfold try_catch. specialize (Hm w).
  destruct (m w) as [[a | e] w1]; cbn [snd] in *.
  - exact Hm.
  - eapply status_stable_trans; [exact Hm | apply Hh].
Qed.

Lemma keeps_statuses_createTpsReport (report : InsertTpsReport.t) :
  keeps_statuses (DatabaseStorage.createTpsReport report).
Proof.
  unfold DatabaseStorage.createTpsReport.
  apply keeps_statuses_bind.
  - intros [t c co dk [p d]].
    unfold DatabaseStorage.on_db, zoom, db.createTpsReport, db.commit, new_Date,
      get_stg, put_stg, throw, reports_of.
    destruct (InsertTpsReport.created_at report), (InsertTpsReport.updated_at report);
      try apply status_stable_refl.
    destruct (InsertTpsReport.id report);
      run_io; cbn [stg ticks clock console disk DatabaseStorage.conn];
      match goal with |- context [if ?b then _ else _] => destruct b end;
      cbn [snd stg DatabaseStorage.conn db.tpsReports db.with_reports db.next_report_id];
      first [apply status_stable_snoc | apply status_stable_refl].
  - intros newReport. apply keeps_statuses_of_reports. keeps_reports_tac.
Qed.

Lemma keeps_statuses_attach_pdf (id : Z) (pdfPath : string) :
  keeps_statuses (DatabaseStorage.updateTpsReport id (only_pdf_path pdfPath)).
Proof.
  intros w. rewrite dbs_update_general. cbv zeta.
  cbn [only_pdf_path PartialTpsReport.created_at].
  destruct (db.constraints_ok _); cbn [snd]; unfold reports_of;
    cbn [stg DatabaseStorage.later DatabaseStorage.conn db.tpsReports db.with_reports].
  - apply status_stable_map; intros r; unfold set_where;
      destruct (TpsReport.id r =? id)%Z; reflexivity.
  - apply status_stable_refl.
Qed.

(** A create request leaves every stored report with the status it had. *)
Lemma post_keeps_statuses (userId : Z) (body : InsertTpsReport.t)
    (pdfData : option string) :
  keeps_statuses (post_tps_report userId body pdfData).
Proof.
  unfold post_tps_report.
  apply keeps_statuses_try_catch;
    [| intros e; apply keeps_statuses_of_reports, keeps_reports_server_error].
  apply keeps_statuses_bind;
    [apply keeps_statuses_of_reports, keeps_reports_getUserWithPartner |].
  intros [[user partner] |];
    [| apply keeps_statuses_of_reports, keeps_reports_ret].
  apply keeps_statuses_bind; [apply keeps_statuses_createTpsReport |].
  intros report.
  apply keeps_statuses_bind.
  - destruct pdfData as [data |];
      [| apply keeps_statuses_of_reports, keeps_reports_ret].
    destruct (data =? "")%string;
      [apply keeps_statuses_of_reports, keeps_reports_ret |].
    apply keeps_statuses_bind;
      [apply keeps_statuses_of_reports, keeps_reports_savePdfToDisk |].
    intros pdfPath. apply keeps_statuses_bind; [apply keeps_statuses_attach_pdf |].
    intros _. apply keeps_statuses_of_reports, keeps_reports_ret.
  - intros _. apply keeps_statuses_of_reports. keeps_reports_tac.
Qed.

(** (C1, as the code has it) In the running server a stored report changes
    status only through an update request addressed to it by the owner of
    its current status: the creator while it is a draft or pending
    approval, the receiver while it is pending review, either party for a
    status outside the enumeration, and nobody once it is completed or
    aborted.  The new status is the one the payload names, whatever that
    is; a create request changes no stored status. *)
Theorem status_changes_only_by_owner (w : World DatabaseStorage.t) (req : Request)
    (id : Z) (r r' : TpsReport.t) :
  stored id w = Some r ->
  stored id (snd (handle req w)) = Some r' ->
  TpsReport.status r' <> TpsReport.status r ->
  exists userId updateData,
    req = Update userId (Some id) updateData
    /\ writes_as_owner userId r
    /\ PartialTpsReport.status updateData = Some (TpsReport.status r').
Proof.
  rewrite !stored_db. intros Hbefore Hafter Hchange.
  destruct req as [userId body pdfData | userId reportId updateData];
    cbn [handle] in Hafter.
  - exfalso.
    destruct (post_keeps_statuses userId body pdfData w id r Hbefore)
      as (r2 & H2 & E2).
    congruence.
  - destruct (put_status_change w userId reportId updateData id r r'
                Hbefore Hafter Hchange) as (-> & Hown & Hst).
    exists userId, updateData. split; [reflexivity |]. split; [exact Hown | exact Hst].
Qed.

Lemma status_changes_only_by_owner_witness :
  exists r r' userId updateData,
    stored 1 Sample.db_draft = Some r
    /\ stored 1 (snd (handle (Update 1 (Some 1) (Sample.set_status "completed"))
                        Sample.db_draft)) = Some r'
    /\ TpsReport.status r = "draft" /\ TpsReport.status r' = "completed"
    /\ Update 1 (Some 1) (Sample.set_status "completed")
       = Update userId (Some 1) updateData
    /\ writes_as_owner userId r
    /\ PartialTpsReport.status updateData = Some (TpsReport.status r').
Proof.
  do 2 eexists.
  edestruct (status_changes_only_by_owner Sample.db_draft
               (Update 1 (Some 1) (Sample.set_status "completed")) 1)
    as (userId & updateData & Hreq & Hown & Hst).
  - vm_compute. reflexivity.
  - vm_compute. reflexivity.
  - discriminate.
  - exists userId, updateData.
    split; [vm_compute; reflexivity |]. split; [vm_compute; reflexivity |].
    split; [reflexivity |]. split; [reflexivity |].
    split; [exact Hreq |]. split; [exact Hown | exact Hst].
Defined.

(** (C1, as stated) Matt saves a draft and then sends an update that sets
    it to completed: the handler stores it, and draft to completed is not a
    transition of the table. *)
Lemma draft_can_jump_to_completed :
  ~ transition_graph_closed Sample.fresh_db.
Proof.
  intros H.
  edestruct (H [Create 1 (Sample.body "draft") None]
               (Update 1 (Some 1) (Sample.set_status "completed")) 1) as [_ Hl].
  - vm_compute. reflexivity.
  - vm_compute. reflexivity.
  - cbn [TpsReport.status] in Hl.
    destruct Hl as [[Hf Ht] | [[Hf Ht] | [[Hf Ht] | [[Hf Ht] | [Hf Ht]]]]];
      try discriminate.
Qed.

(** ** Completion *)

Lemma put_check_granted {S} {storage : IStorage S} (w : World S)
    (userId reportId : Z) (report : TpsReport.t) :
  getTpsReport reportId w = (Ok (Some report), w) ->
  writes_as_owner userId report ->
  put_check userId reportId w
  = (Ok (Granted report (TpsReport.creator_id report =? userId)%Z
           (TpsReport.receiver_id report =? userId)%Z), w).
Proof.
  intros Hget Hown.
  destruct (put_check_cases w userId reportId report Hget)
    as [(res & Hden & Hf) | [Hgr _]]; [| exact Hgr].
  exfalso. revert Hden. unfold put_check. run_io. rewrite Hget.
  destruct Hown as (Hparty & Hterm & Hd & Hpr & Hpa). unfold is_terminal in Hterm.
  destruct (Z.eqb_spec (TpsReport.creator_id report) userId) as [Hc | Hc];
    destruct (Z.eqb_spec (TpsReport.receiver_id report) userId) as [Hr | Hr];
    cbn [negb andb]; try tauto;
    destruct (String.eqb_spec (TpsReport.status report) TpsStatus.DRAFT);
    cbn [negb andb orb]; try tauto;
    destruct (String.eqb_spec (TpsReport.status report) TpsStatus.PENDING_REVIEW);
    cbn [negb andb orb]; try tauto;
    destruct (String.eqb_spec (TpsReport.status report) TpsStatus.PENDING_APPROVAL);
    cbn [negb andb orb]; try tauto;
    destruct (String.eqb_spec (TpsReport.status report) TpsStatus.COMPLETED);
    cbn [negb andb orb]; try tauto;
    destruct (String.eqb_spec (TpsReport.status report) TpsStatus.ABORTED);
    cbn [negb andb orb]; try tauto;
    discriminate.
Qed.

Lemma pending_approval_owner (userId : Z) (report : TpsReport.t) :
  TpsReport.status report = TpsStatus.PENDING_APPROVAL ->
  TpsReport.creator_id report = userId ->
  writes_as_owner userId report.
Proof.
  intros Hs Hc. unfold writes_as_owner, is_terminal. rewrite Hs.
  repeat split; try tauto; try discriminate.
  intros [H | H]; discriminate.
Qed.


(** What a 200 of the update handler means: the report exists, the caller
    owns its status, the payload names no [created_at], the update and the
    log insert both keep the constraints, and the answer and the world are
    the ones below. *)
Lemma put_200_iff (w : World DatabaseStorage.t) (userId reportId : Z)
    (data : PartialTpsReport.t) :
  let d := DatabaseStorage.conn (stg w) in
  let d1 := db.with_reports
              (map (set_where reportId data (clock w (ticks w))) (db.tpsReports d)) d in
  let log_of report :=
    TpsLog.mk (db.tps_logs_id_seq d) reportId userId "updated" (clock w (S (ticks w)))
      (JObj [("status",
              JStr (TpsReport.status (spread_update report data (clock w (ticks w)))))]) in
  let went report :=
    writes_as_owner userId report
    /\ PartialTpsReport.created_at data = None
    /\ db.constraints_ok d1 = true
    /\ db.constraints_ok (db.add_log (log_of report) d1) = true in
  (forall res w',
      put_tps_report userId (Some reportId) data w = (Ok res, w') ->
      code res = 200 ->
      exists report,
        stored reportId w = Some report /\ went report)
  /\ (forall report,
        stored reportId w = Some report -> went report ->
        put_tps_report userId (Some reportId) data w
        = (Ok (mkResponse 200
                 (ReportJson (spread_update report data (clock w (ticks w))))),
           let w1 := DatabaseStorage.later w 2 (db.add_log (log_of report) d1) in
           match result_of (DatabaseStorage.getUserWithPartner userId) w with
           | Some (user, partner) =>
               snd (put_notify userId report
                      (TpsReport.creator_id report =? userId)%Z
                      (TpsReport.receiver_id report =? userId)%Z data user partner w1)
           | None => w1
           end)).
Proof.
  cbv zeta.
  pose proof (dbs_get_spec w reportId) as Hget.
  fold (find_report reportId (db.tpsReports (DatabaseStorage.conn (stg w)))) in Hget.
  fold (reports_of w) in Hget.
  rewrite stored_db.
  destruct (find_report reportId (reports_of w)) as [report |] eqn:Hfind.
  2: { split; [| intros ? [=]].
       intros res w' Hrun Hcode. exfalso.
       unfold put_tps_report, put_check, try_catch, bind, ret in Hrun.
       cbn [getTpsReport DatabaseStorage_IStorage] in Hrun. rewrite Hget in Hrun.
       inversion Hrun; subst res. cbn in Hcode. discriminate. }
  pose proof (dbs_put_apply_general w userId reportId report report
                (TpsReport.creator_id report =? userId)%Z
                (TpsReport.receiver_id report =? userId)%Z data Hfind) as Happly.
  cbv zeta in Happly.
  split.
  - intros res w' Hrun Hcode. exists report. split; [reflexivity |].
    destruct (put_check_cases (storage := DatabaseStorage_IStorage)
                w userId reportId report Hget) as [(res0 & Hden & H403) | [Hgr Hown]].
    { rewrite (put_tps_report_denied _ _ _ _ _ _ Hden) in Hrun.
      inversion Hrun; subst res0. exfalso. unfold Forbidden in H403. lia. }
    split; [exact Hown |].
    unfold put_tps_report in Hrun. rewrite (try_catch_bind_ok _ _ _ _ _ _ Hgr) in Hrun.
    unfold try_catch in Hrun. rewrite Happly in Hrun.
    destruct (PartialTpsReport.created_at data).
    { unfold put_error, server_error, bind, ret, console_log, respond in Hrun.
      inversion Hrun; subst res. cbn in Hcode. discriminate. }
    split; [reflexivity |].
    destruct (db.constraints_ok _) eqn:E1.
    2: { unfold put_error, server_error, bind, ret, console_log, respond in Hrun.
         inversion Hrun; subst res. cbn in Hcode. discriminate. }
    split; [reflexivity |].
    destruct (db.constraints_ok (db.add_log _ _)) eqn:E2; [reflexivity |].
    unfold put_error, server_error, bind, ret, console_log, respond in Hrun.
    inversion Hrun; subst res. cbn in Hcode. discriminate.
  - intros r [= <-] (Hown & Hcr & E1 & E2).
    pose proof (put_check_granted (storage := DatabaseStorage_IStorage)
                  w userId reportId report Hget Hown) as Hgr.
    unfold put_tps_report. rewrite (try_catch_bind_ok _ _ _ _ _ _ Hgr).
    unfold try_catch. rewrite Happly, Hcr, E1, E2. reflexivity.
Qed.



Lemma put_notify_stg (w : World DatabaseStorage.t) (userId : Z) (report : TpsReport.t)
    (isCreator isReceiver : bool) (data : PartialTpsReport.t) (o : option (User.t * User.t)) :
  stg (match o with
       | Some (user, partner) =>
           snd (put_notify userId report isCreator isReceiver data user partner w)
       | None => w
       end) = stg w.
Proof.
  destruct o as [[user partner] |]; [| reflexivity].
  destruct (dbs_put_notify_frame w userId report isCreator isReceiver data
              user partner) as (n & lines & E).
  now rewrite E.
Qed.




(** ** Two requests at once *)

(** The handler is its two steps run back to back. *)
Lemma put_is_check_then_apply {S} {storage : IStorage S} (w : World S)
    (userId reportId : Z) (data : PartialTpsReport.t) :
  put_tps_report userId (Some reportId) data w
  = bind (check_phase (mkUpdate userId reportId data))
         (apply_phase (mkUpdate userId reportId data)) w.
Proof.
  unfold put_tps_report, check_phase, apply_phase, try_catch, bind.
  cbn [by_user for_report payload].
  destruct (put_check userId reportId w) as [[[res | report ic ir] | e] w1].
  - reflexivity.
  - reflexivity.
  - unfold put_error, server_error, bind, ret, console_log. reflexivity.
Qed.

(** No answer of the update handler is a 409. *)
Lemma put_never_conflict {S} {storage : IStorage S} (w : World S) (userId : Z)
    (reportId : option Z) (data : PartialTpsReport.t) :
  exists res w',
    put_tps_report userId reportId data w = (Ok res, w') /\ ~ Conflict res.
Proof.
  unfold put_tps_report, Conflict.
  destruct reportId as [rid |];
    [| do 2 eexists; split; [reflexivity | cbn; discriminate]].
  unfold try_catch, bind, put_check, put_apply, put_error, server_error.
  unfold bind, ret, console_log, respond.
  destruct (getTpsReport rid w) as [[[report |] | e] w1];
    try (do 2 eexists; split; [reflexivity | cbn; discriminate]).
  repeat match goal with
         | |- context [if ?b then _ else _] => destruct b
         end;
    try (do 2 eexists; split; [reflexivity | cbn; discriminate]).
  all: destruct (updateTpsReport rid data w1) as [[[updated |] | e] w2];
    try (do 2 eexists; split; [reflexivity | cbn; discriminate]).
  all: destruct (createTpsLog _ w2) as [[l | e] w3];
    try (do 2 eexists; split; [reflexivity | cbn; discriminate]).
  all: destruct (getUserWithPartner userId w3) as [[[[user partner] |] | e] w4];
    try (do 2 eexists; split; [reflexivity | cbn; discriminate]).
  all: destruct (put_notify _ _ _ _ _ _ _ w4) as [[[] | e] w5];
    do 2 eexists; split; try reflexivity; cbn; discriminate.
Qed.

Lemma find_after_update (d : db.t) (rows : list TpsReport.t) (i : Z)
    (data : PartialTpsReport.t) (now : Date) (current : TpsReport.t) :
  acceptable d i data ->
  find_report i rows = Some current ->
  find_report i (map (set_where i data now) rows) = Some (spread_update current data now).
Proof.
  intros Hacc Hfind. destruct (find_report_in _ _ _ Hfind) as [_ Hid].
  unfold find_report in *. rewrite map_keeps_filter.
  - rewrite head_map, Hfind. cbn [option_map]. unfold set_where.
    now rewrite Hid, Z.eqb_refl.
  - intros r. now apply (acceptable_keeps_id d).
Qed.

(** The granted part of the handler on a well-formed database: it answers
    200 with the current row rewritten, and leaves a well-formed database in
    which that row is the one stored. *)
Lemma dbs_put_apply_ok (w : World DatabaseStorage.t) (userId reportId : Z)
    (report current : TpsReport.t) (isCreator isReceiver : bool)
    (data : PartialTpsReport.t) :
  db.wf (DatabaseStorage.conn (stg w)) = true ->
  acceptable (DatabaseStorage.conn (stg w)) reportId data ->
  find_report reportId (reports_of w) = Some current ->
  db.has_user (DatabaseStorage.conn (stg w)) userId = true ->
  exists w',
    put_apply userId reportId report isCreator isReceiver data w
    = (Ok (mkResponse 200 (ReportJson (spread_update current data (clock w (ticks w))))),
       w')
    /\ db.wf (DatabaseStorage.conn (stg w')) = true
    /\ find_report reportId (reports_of w')
       = Some (spread_update current data (clock w (ticks w)))
    /\ (forall u, db.has_user (DatabaseStorage.conn (stg w')) u
                  = db.has_user (DatabaseStorage.conn (stg w)) u)
    /\ (forall j, db.has_report (DatabaseStorage.conn (stg w')) j
                  = db.has_report (DatabaseStorage.conn (stg w)) j).
Proof.
  intros Hwf Hkeys Hfind Huser.
  destruct (dbs_put_apply_spec w userId reportId report current isCreator isReceiver
              data Hwf Hkeys Hfind Huser) as [Happly Hwf'].
  cbv zeta in Happly, Hwf'.
  eexists. split; [exact Happly |].
  assert (Hstg : forall w1 : World DatabaseStorage.t,
             stg (match result_of (DatabaseStorage.getUserWithPartner userId) w with
                  | Some (user, partner) =>
                      snd (put_notify userId report isCreator isReceiver data
                             user partner w1)
                  | None => w1
                  end) = stg w1).
  { intros w1.
    destruct (result_of (DatabaseStorage.getUserWithPartner userId) w)
      as [[user partner] |]; [| reflexivity].
    destruct (dbs_put_notify_frame w1 userId report isCreator isReceiver data
                user partner) as (n & lines & E).
    now rewrite E. }
  unfold reports_of. rewrite Hstg.
  cbn [stg DatabaseStorage.later DatabaseStorage.conn].
  split; [exact Hwf' |]. split; [| split; [reflexivity |]].
  - unfold db.add_log. cbn [db.tpsReports db.with_logs db.with_reports db.next_log_id].
    now apply (find_after_update (DatabaseStorage.conn (stg w))).
  - intros j. rewrite has_report_add_log. apply map_keeps_has_report.
    intros r. now apply (acceptable_keeps_id (DatabaseStorage.conn (stg w))).
Qed.

Lemma acceptable_ext (d d' : db.t) (i : Z) (data : PartialTpsReport.t) :
  (forall u, db.has_user d' u = db.has_user d u) ->
  (forall j, db.has_report d' j = db.has_report d j) ->
  acceptable d i data -> acceptable d' i data.
Proof.
  intros Hu Hr (H1 & H2 & H3 & H4 & H5 & H6).
  repeat split; trivial; intros x Hx; rewrite ?Hu, ?Hr; auto.
Qed.

(** (C7, as the code has it) The update handler has no conditional write:
    it never answers 409, and when two requests by the owner of a report's
    status are both checked before either is applied, on a well-formed
    database and with payloads the database takes, both are answered 200
    and the report is left with the status of the one applied last. *)
Theorem updates_are_not_serialized :
  (forall (S : Type) (storage : IStorage S) (w : World S) (userId : Z)
          (reportId : option Z) (data : PartialTpsReport.t),
      exists res w',
        put_tps_report userId reportId data w = (Ok res, w') /\ ~ Conflict res)
  /\
  (forall (w : World DatabaseStorage.t) (a b : UpdateRequest) (report : TpsReport.t)
          (sa sb : string),
      db.wf (DatabaseStorage.conn (stg w)) = true ->
      acceptable (DatabaseStorage.conn (stg w)) (for_report a) (payload a) ->
      acceptable (DatabaseStorage.conn (stg w)) (for_report b) (payload b) ->
      for_report a = for_report b ->
      stored (for_report a) w = Some report ->
      writes_as_owner (by_user a) report ->
      writes_as_owner (by_user b) report ->
      PartialTpsReport.status (payload a) = Some sa ->
      PartialTpsReport.status (payload b) = Some sb ->
      exists ua ub w',
        race a b w
        = (Ok (mkResponse 200 (ReportJson ua), mkResponse 200 (ReportJson ub)), w')
        /\ TpsReport.status ua = sa
        /\ TpsReport.status ub = sb
        /\ stored (for_report a) w' = Some ub).
Proof.
  split.
  { intros S storage w userId reportId data. apply put_never_conflict. }
  intros w [ua ra da] [ub rb db_] report sa sb.
  cbn [by_user for_report payload].
  intros Hwf Hka Hkb <- Hstored Howna Hownb Hsa Hsb.
  rewrite stored_db in Hstored.
  pose proof (dbs_get_spec w ra) as Hget.
  fold (find_report ra (db.tpsReports (DatabaseStorage.conn (stg w)))) in Hget.
  fold (reports_of w) in Hget. rewrite Hstored in Hget.
  pose proof (put_check_granted (storage := DatabaseStorage_IStorage)
                w ua ra report Hget Howna) as Hca.
  pose proof (put_check_granted (storage := DatabaseStorage_IStorage)
                w ub ra report Hget Hownb) as Hcb.
  destruct (find_report_in _ _ _ Hstored) as [Hin Hid].
  destruct (wf_report_users _ report Hwf Hin) as [Huc Hur].
  assert (Hua : db.has_user (DatabaseStorage.conn (stg w)) ua = true).
  { destruct Howna as ([<- | <-] & _); assumption. }
  assert (Hub : db.has_user (DatabaseStorage.conn (stg w)) ub = true).
  { destruct Hownb as ([<- | <-] & _); assumption. }
  destruct (dbs_put_apply_ok w ua ra report report
              (TpsReport.creator_id report =? ua)%Z
              (TpsReport.receiver_id report =? ua)%Z da Hwf Hka Hstored Hua)
    as (wa & Ea & Hwfa & Hfa & Husers & Hreports).
  rewrite <- Husers in Hub.
  assert (Hkb' : acceptable (DatabaseStorage.conn (stg wa)) ra db_).
  { now apply (acceptable_ext (DatabaseStorage.conn (stg w))). }
  destruct (dbs_put_apply_ok wa ub ra report _
              (TpsReport.creator_id report =? ub)%Z
              (TpsReport.receiver_id report =? ub)%Z db_ Hwfa Hkb' Hfa Hub)
    as (wb & Eb & Hwfb & Hfb & _).
  do 3 eexists. split.
  { unfold race, check_phase, apply_phase. cbn [by_user for_report payload].
    unfold bind at 1. unfold try_catch at 1. rewrite Hca.
    unfold bind at 1. unfold try_catch at 1. rewrite Hcb.
    unfold bind at 1. unfold try_catch at 1. rewrite Ea.
    unfold bind at 1. unfold try_catch at 1. rewrite Eb.
    reflexivity. }
  split.
  { unfold spread_update. cbn. now rewrite Hsa. }
  split.
  { unfold spread_update. cbn. now rewrite Hsb. }
  rewrite stored_db. exact Hfb.
Qed.

Lemma updates_are_not_serialized_witness :
  exists ua ub w',
    race (mkUpdate 2 1 (Sample.set_status "pending_approval"))
         (mkUpdate 2 1 (Sample.set_status "aborted")) Sample.db_pending_review
    = (Ok (mkResponse 200 (ReportJson ua), mkResponse 200 (ReportJson ub)), w')
    /\ TpsReport.status ua = "pending_approval"
    /\ TpsReport.status ub = "aborted"
    /\ stored 1 w' = Some ub.
Proof.
  edestruct (proj2 updates_are_not_serialized Sample.db_pending_review
               (mkUpdate 2 1 (Sample.set_status "pending_approval"))
               (mkUpdate 2 1 (Sample.set_status "aborted")))
    as (ua & ub & w' & Hrace & Ha & Hb & Hst).
  - vm_compute. reflexivity.
  - apply acceptable_set_status.
  - apply acceptable_set_status.
  - reflexivity.
  - vm_compute. reflexivity.
  - unfold writes_as_owner, is_terminal. cbn.
    repeat split; try tauto; try discriminate. intros [H | H]; discriminate.
  - unfold writes_as_owner, is_terminal. cbn.
    repeat split; try tauto; try discriminate. intros [H | H]; discriminate.
  - reflexivity.
  - reflexivity.
  - exists ua, ub, w'. split; [exact Hrace |]. split; [exact Ha |].
    split; [exact Hb | exact Hst].
Defined.

(** (C7, as stated) Mina approves the sample report and declines it at the
    same moment: both requests are answered 200. *)
Lemma both_racing_updates_succeed :
  ~ exactly_one_succeeds (S := DatabaseStorage.t).
Proof.
  intros H.
  edestruct (H Sample.db_pending_review
               (snd (race (mkUpdate 2 1 (Sample.set_status "pending_approval"))
                          (mkUpdate 2 1 (Sample.set_status "aborted"))
                          Sample.db_pending_review))
               (mkUpdate 2 1 (Sample.set_status "pending_approval"))
               (mkUpdate 2 1 (Sample.set_status "aborted")))
    as [(_ & Hc & _) | (_ & Hc & _)].
  - reflexivity.
  - reflexivity.
  - reflexivity.
  - discriminate.
  - vm_compute. reflexivity.
  - unfold Conflict in Hc. cbn in Hc. discriminate.
  - unfold Conflict in Hc. cbn in Hc. discriminate.
Qed.

(** * More of the server *)

(** ** Answers and what they cost *)

(** Once permission is granted the handler answers 200 or 500. *)
Lemma put_granted_codes {S} {storage : IStorage S} (w w' : World S)
    (userId reportId : Z) (report : TpsReport.t) (isCreator isReceiver : bool)
    (data : PartialTpsReport.t) (res : Response) :
  try_catch (put_apply userId reportId report isCreator isReceiver data) put_error w
  = (Ok res, w') ->
  code res = 200 \/ code res = 500.
Proof.
  unfold try_catch, put_apply, put_error, server_error.
  unfold bind, ret, console_log, respond.
  destruct (updateTpsReport reportId data w) as [[[updated |] | e] w2];
    try solve [intros H; inversion H; cbn; auto].
  destruct (createTpsLog _ w2) as [[l | e] w3];
    try solve [intros H; inversion H; cbn; auto].
  destruct (getUserWithPartner userId w3) as [[[[user partner] |] | e] w4];
    try solve [intros H; inversion H; cbn; auto].
  destruct (put_notify _ _ _ _ _ _ _ w4) as [[[] | e] w5];
    intros H; inversion H; cbn; auto.
Qed.

(** An update request that is answered with a 4xx code has changed nothing:
    no row, no log, no console line, not even a clock reading. *)
Theorem put_client_error_changes_nothing (w w' : World DatabaseStorage.t)
    (userId : Z) (reportId : option Z) (data : PartialTpsReport.t) (res : Response) :
  put_tps_report userId reportId data w = (Ok res, w') ->
  (400 <= code res < 500)%Z ->
  w' = w.
Proof.
  intros Hrun Hcode.
  destruct reportId as [rid |].
  2: { unfold put_tps_report, try_catch, ret in Hrun. now inversion Hrun. }
  pose proof (dbs_get_spec w rid) as Hget.
  fold (find_report rid (db.tpsReports (DatabaseStorage.conn (stg w)))) in Hget.
  fold (reports_of w) in Hget.
  destruct (find_report rid (reports_of w)) as [report |].
  2: { unfold put_tps_report, put_check, try_catch, bind, ret in Hrun.
       cbn [getTpsReport DatabaseStorage_IStorage] in Hrun. rewrite Hget in Hrun.
       now inversion Hrun. }
  destruct (put_check_cases (storage := DatabaseStorage_IStorage) w userId rid report Hget)
    as [(res0 & Hden & _) | [Hgr _]].
  - rewrite (put_tps_report_denied _ _ _ _ _ _ Hden) in Hrun. now inversion Hrun.
  - unfold put_tps_report in Hrun. rewrite (try_catch_bind_ok _ _ _ _ _ _ Hgr) in Hrun.
    apply put_granted_codes in Hrun. lia.
Qed.

Lemma put_client_error_changes_nothing_witness :
  exists res,
    put_tps_report 2 (Some 7) (Sample.set_status "aborted") Sample.db_draft
    = (Ok res, Sample.db_draft)
    /\ code res = 404.
Proof.
  destruct (put_never_conflict (storage := DatabaseStorage_IStorage) Sample.db_draft 2
              (Some 7) (Sample.set_status "aborted")) as (res & w' & Hrun & _).
  assert (Hcode : code res = 404).
  { pose proof Hrun as H. vm_compute in H. inversion H. reflexivity. }
  exists res. split; [| exact Hcode].
  rewrite Hrun. f_equal.
  apply (put_client_error_changes_nothing _ _ _ _ _ _ Hrun). rewrite Hcode. lia.
Defined.

Lemma dbs_partner_found (w : World DatabaseStorage.t) (userId : Z) (user partner : User.t) :
  result_of (DatabaseStorage.getUserWithPartner userId) w = Some (user, partner) ->
  User.id user = userId
  /\ User.partner_id user = Some (User.id partner)
  /\ db.has_user (DatabaseStorage.conn (stg w)) userId = true
  /\ db.has_user (DatabaseStorage.conn (stg w)) (User.id partner) = true.
Proof.
  destruct w as [t c co dk [p d]].
  unfold result_of, DatabaseStorage.getUserWithPartner, DatabaseStorage.on_db, zoom,
    db.getUserWithPartner, db.getUserById, get_stg.
  run_io. cbn [stg ticks clock console disk DatabaseStorage.conn DatabaseStorage.pdfDir].
  destruct (head (List.filter (fun u => (User.id u =? userId)%Z) (db.users d)))
    as [u |] eqn:Eu; [| discriminate].
  destruct (User.partner_id u) as [pid |] eqn:Ep; [| discriminate].
  destruct (pid =? 0)%Z; [discriminate |].
  cbn [stg ticks clock console disk DatabaseStorage.conn DatabaseStorage.pdfDir].
  destruct (head (List.filter (fun u => (User.id u =? pid)%Z) (db.users d)))
    as [q |] eqn:Eq; [| discriminate].
  cbn. intros H. inversion H; subst u q.
  apply head_filter_in in Eu, Eq. destruct Eu as [Hinu Hu], Eq as [Hinq Hq].
  apply Z.eqb_eq in Hu, Hq.
  repeat split.
  - exact Hu.
  - now rewrite Ep, Hq.
  - unfold db.has_user. apply existsb_exists. exists user. split; trivial.
    now apply Z.eqb_eq.
  - unfold db.has_user. apply existsb_exists. exists partner. split; trivial.
    apply Z.eqb_refl.
Qed.

Lemma put_notify_aborted (w : World DatabaseStorage.t) (userId : Z)
    (report : TpsReport.t) (isCreator isReceiver : bool) (data : PartialTpsReport.t)
    (user partner : User.t) :
  PartialTpsReport.status data = Some TpsStatus.ABORTED ->
  put_notify userId report isCreator isReceiver data user partner w
  = (Ok tt,
     mkWorld (ticks w) (clock w)
       (console w
        ++ [EmailSent (User.email (if isCreator then partner else user))
              "TPS Report Aborted"
              "A TPS report has been aborted. Please log in to FormPlay for details."])
       (disk w) (stg w)).
Proof.
  intros Hst. destruct w as [t c co dk s].
  unfold put_notify, status_is. rewrite Hst.
  destruct isCreator, isReceiver; reflexivity.
Qed.

Lemma put_notify_silent (w : World DatabaseStorage.t) (userId : Z)
    (report : TpsReport.t) (isCreator isReceiver : bool) (data : PartialTpsReport.t)
    (user partner : User.t) :
  PartialTpsReport.status data = None ->
  put_notify userId report isCreator isReceiver data user partner w = (Ok tt, w).
Proof.
  intros Hst. destruct w as [t c co dk s].
  unfold put_notify, status_is. rewrite Hst. reflexivity.
Qed.

(** The mail about an aborted report goes to the partner of the caller only
    when the caller is the report's creator.  Whenever an update that sets
    the status to aborted is answered 200, the one mail the handler has
    sent is addressed to the caller's partner if the caller created the
    report and to the caller otherwise: when the receiver declines a
    report, the creator gets none. *)
Theorem abort_mail_addressee (w w' : World DatabaseStorage.t) (userId reportId : Z)
    (data : PartialTpsReport.t) (report : TpsReport.t) (user partner : User.t)
    (res : Response) :
  stored reportId w = Some report ->
  PartialTpsReport.status data = Some TpsStatus.ABORTED ->
  result_of (DatabaseStorage.getUserWithPartner userId) w = Some (user, partner) ->
  put_tps_report userId (Some reportId) data w = (Ok res, w') ->
  code res = 200 ->
  (exists updated,
      res = mkResponse 200 (ReportJson updated)
      /\ TpsReport.status updated = TpsStatus.ABORTED)
  /\ User.id user = userId
  /\ console w'
     = console w
       ++ [EmailSent
             (if (TpsReport.creator_id report =? userId)%Z
              then User.email partner else User.email user)
             "TPS Report Aborted"
             "A TPS report has been aborted. Please log in to FormPlay for details."].
Proof.
  intros Hstored Hst Hpartner Hrun Hcode.
  destruct (put_200_iff w userId reportId data) as [Hinv Hrun200].
  cbv zeta in Hinv, Hrun200.
  destruct (Hinv res w' Hrun Hcode) as (report0 & Hst0 & Hwent).
  rewrite Hstored in Hst0. injection Hst0 as <-.
  specialize (Hrun200 report Hstored Hwent).
  rewrite Hrun in Hrun200. injection Hrun200 as Hres Hw'.
  rewrite Hpartner in Hw'.
  rewrite put_notify_aborted in Hw' by exact Hst. cbn [snd] in Hw'.
  split.
  { eexists. split; [exact Hres |]. unfold spread_update; cbn; now rewrite Hst. }
  split; [apply (dbs_partner_found w userId user partner Hpartner) |].
  rewrite Hw'. cbn [console DatabaseStorage.later].
  destruct (TpsReport.creator_id report =? userId)%Z; reflexivity.
Qed.

Lemma abort_mail_addressee_witness :
  option_map TpsReport.creator_id (stored 1 Sample.db_pending_review) = Some 1
  /\ console (snd (put_tps_report 2 (Some 1) (Sample.set_status "aborted")
                     Sample.db_pending_review))
     = console Sample.db_pending_review
       ++ [EmailSent "mina@example.com" "TPS Report Aborted"
             "A TPS report has been aborted. Please log in to FormPlay for details."].
Proof.
  split; [vm_compute; reflexivity |].
  edestruct (abort_mail_addressee Sample.db_pending_review
               (snd (put_tps_report 2 (Some 1) (Sample.set_status "aborted")
                       Sample.db_pending_review))
               2 1 (Sample.set_status "aborted"))
    as (_ & _ & Hcon).
  - vm_compute. reflexivity.
  - reflexivity.
  - vm_compute. reflexivity.
  - vm_compute. reflexivity.
  - reflexivity.
  - exact Hcon.
Defined.

(** Every update that is answered 200 has appended exactly one log entry:
    action "updated", the caller's id, and the status the report now has in
    its details.  A payload without a status has left the status alone and
    sent nothing. *)
Theorem put_logs_one_update (w w' : World DatabaseStorage.t) (userId reportId : Z)
    (data : PartialTpsReport.t) (res : Response) :
  put_tps_report userId (Some reportId) data w = (Ok res, w') ->
  code res = 200 ->
  exists report updated,
    stored reportId w = Some report
    /\ res = mkResponse 200 (ReportJson updated)
    /\ TpsReport.status updated
       = default (TpsReport.status report) (PartialTpsReport.status data)
    /\ db.tpsLogs (DatabaseStorage.conn (stg w'))
       = db.tpsLogs (DatabaseStorage.conn (stg w))
         ++ [TpsLog.mk (db.tps_logs_id_seq (DatabaseStorage.conn (stg w))) reportId
               userId "updated" (clock w (S (ticks w)))
               (JObj [("status", JStr (TpsReport.status updated))])]
    /\ (PartialTpsReport.status data = None -> console w' = console w).
Proof.
  intros Hrun Hcode.
  destruct (put_200_iff w userId reportId data) as [Hinv Hrun200].
  cbv zeta in Hinv, Hrun200.
  destruct (Hinv res w' Hrun Hcode) as (report & Hstored & Hwent).
  specialize (Hrun200 report Hstored Hwent).
  rewrite Hrun in Hrun200. injection Hrun200 as Hres Hw'.
  exists report. eexists. split; [exact Hstored |]. split; [exact Hres |].
  split; [reflexivity |].
  rewrite Hw'. split.
  - rewrite put_notify_stg. reflexivity.
  - intros Hnone.
    destruct (result_of (DatabaseStorage.getUserWithPartner userId) w)
      as [[user partner] |]; [| reflexivity].
    rewrite put_notify_silent by exact Hnone. reflexivity.
Qed.

Lemma put_logs_one_update_witness :
  exists report updated entry,
    stored 1 Sample.db_draft = Some report
    /\ TpsReport.status updated = TpsReport.status report
    /\ db.tpsLogs (DatabaseStorage.conn
                     (stg (snd (put_tps_report 1 (Some 1) PartialTpsReport.empty
                                  Sample.db_draft))))
       = db.tpsLogs (DatabaseStorage.conn (stg Sample.db_draft)) ++ [entry]
    /\ TpsLog.action entry = "updated" /\ TpsLog.user_id entry = 1
    /\ TpsLog.details entry = JObj [("status", JStr (TpsReport.status updated))]
    /\ console (snd (put_tps_report 1 (Some 1) PartialTpsReport.empty Sample.db_draft))
       = console Sample.db_draft.
Proof.
  edestruct (put_logs_one_update Sample.db_draft
               (snd (put_tps_report 1 (Some 1) PartialTpsReport.empty Sample.db_draft))
               1 1 PartialTpsReport.empty)
    as (report & updated & Hstored & _ & Hst & Hlogs & Hquiet).
  - vm_compute. reflexivity.
  - reflexivity.
  - exists report, updated. eexists.
    split; [exact Hstored |]. split; [exact Hst |]. split; [exact Hlogs |].
    split; [reflexivity |]. split; [reflexivity |]. split; [reflexivity |].
    exact (Hquiet eq_refl).
Defined.

(** ** Creating a report *)

(** A report is created for the session's user and that user's partner,
    whatever parties the body names: on a well-formed database, for a user
    with a partner and a request without PDF data whose body names no id,
    [created_at] or [updated_at], has form data other than [null] and
    names in [replicated_from_id], if at all, a stored report, the handler
    answers 201 with a report whose creator is the caller and whose
    receiver is the partner, stores it under the next id of the sequence
    with the body's status unchecked, logs "created" for the caller, and
    mails the partner exactly when that status is pending_review. *)
Theorem post_creates_for_session_user (w : World DatabaseStorage.t) (userId : Z)
    (body : InsertTpsReport.t) (pdfData : option string) (user partner : User.t) :
  db.wf (DatabaseStorage.conn (stg w)) = true ->
  result_of (DatabaseStorage.getUserWithPartner userId) w = Some (user, partner) ->
  plain body ->
  InsertTpsReport.form_data body <> JNull ->
  (forall parent, InsertTpsReport.replicated_from_id body = Some parent ->
                  db.has_report (DatabaseStorage.conn (stg w)) parent = true) ->
  pdfData = None \/ pdfData = Some "" ->
  exists report w',
    post_tps_report userId body pdfData w = (Ok (mkResponse 201 (ReportJson report)), w')
    /\ TpsReport.creator_id report = userId
    /\ TpsReport.receiver_id report = User.id partner
    /\ TpsReport.status report = InsertTpsReport.status body
    /\ TpsReport.id report = db.tps_reports_id_seq (DatabaseStorage.conn (stg w))
    /\ stored (TpsReport.id report) w' = Some report
    /\ db.tpsLogs (DatabaseStorage.conn (stg w'))
       = db.tpsLogs (DatabaseStorage.conn (stg w))
         ++ [TpsLog.mk (db.tps_logs_id_seq (DatabaseStorage.conn (stg w)))
               (TpsReport.id report) userId "created" (clock w (S (ticks w)))
               (JObj [])]
    /\ console w'
       = console w
         ++ (if (InsertTpsReport.status body =? TpsStatus.PENDING_REVIEW)%string
             then [EmailSent (User.email partner) "New TPS Report Available"
                     (User.name user
                      ++ " has created a new TPS report for you to review. Please log in to FormPlay to check it out!")%string]
             else [])
    /\ db.wf (DatabaseStorage.conn (stg w')) = true.
Proof.
  intros Hwf Hpartner Hplain Hfd Hparent Hpdf.
  destruct (dbs_partner_found w userId user partner Hpartner) as (_ & _ & Hu & Hp).
  set (reportData :=
         InsertTpsReport.mk userId (User.id partner)
           (InsertTpsReport.status body) (InsertTpsReport.date body)
           (InsertTpsReport.time_start body) (InsertTpsReport.time_end body)
           (InsertTpsReport.location body) (InsertTpsReport.location_other body)
           (InsertTpsReport.sound body) (InsertTpsReport.form_data body)
           (InsertTpsReport.creator_notes body) (InsertTpsReport.receiver_notes body)
           (InsertTpsReport.creator_initials body)
           (InsertTpsReport.receiver_initials body)
           (InsertTpsReport.replicated_from_id body) (InsertTpsReport.pdf_path body)
           (InsertTpsReport.id body) (InsertTpsReport.created_at body)
           (InsertTpsReport.updated_at body)).
  destruct (dbs_createTpsReport_spec w reportData Hwf Hplain Hfd Hu Hp Hparent)
    as [Ecreate Hwf'].
  cbv zeta in Ecreate, Hwf'.
  assert (Hwfd : db.ids_below (db.tps_reports_id_seq (DatabaseStorage.conn (stg w)))
                   (map TpsReport.id (db.tpsReports (DatabaseStorage.conn (stg w))))
                 = true).
  { unfold db.wf in Hwf. rewrite !andb_true_iff in Hwf. tauto. }
  assert (Hrun : exists w',
             post_tps_report userId body pdfData w
             = (Ok (mkResponse 201
                      (ReportJson
                         (spread_insert reportData
                            (db.tps_reports_id_seq (DatabaseStorage.conn (stg w)))
                            (clock w (ticks w))))), w')
             /\ stg w' = stg (DatabaseStorage.later w 2
                               (db.add_log
                                  (TpsLog.mk
                                     (db.tps_logs_id_seq (DatabaseStorage.conn (stg w)))
                                     (db.tps_reports_id_seq (DatabaseStorage.conn (stg w)))
                                     userId "created" (clock w (S (ticks w))) (JObj []))
                                  (db.add_report
                                     (spread_insert reportData
                                        (db.tps_reports_id_seq
                                           (DatabaseStorage.conn (stg w)))
                                        (clock w (ticks w)))
                                     (DatabaseStorage.conn (stg w)))))
             /\ console w'
                = console w
                  ++ (if (InsertTpsReport.status body =? TpsStatus.PENDING_REVIEW)%string
                      then [EmailSent (User.email partner) "New TPS Report Available"
                              (User.name user
                               ++ " has created a new TPS report for you to review. Please log in to FormPlay to check it out!")%string]
                      else [])).
  { unfold post_tps_report. cbn [getUserWithPartner createTpsReport sendEmail
                                   DatabaseStorage_IStorage].
    unfold try_catch. unfold bind at 1.
    rewrite dbs_getUserWithPartner_pure, Hpartner.
    unfold bind at 1. fold reportData. rewrite Ecreate.
    cbn [TpsReport.status spread_insert reportData InsertTpsReport.status].
    destruct Hpdf as [-> | ->];
      destruct (InsertTpsReport.status body =? TpsStatus.PENDING_REVIEW)%string;
      cbn; eexists; (split; [reflexivity |]); split;
        try reflexivity; now rewrite ?app_nil_r. }
  destruct Hrun as (w' & Hrun & Hstg & Hcon).
  do 2 eexists. split; [exact Hrun |].
  split; [reflexivity |]. split; [reflexivity |]. split; [reflexivity |].
  split; [reflexivity |].
  split.
  { rewrite stored_db. unfold reports_of. rewrite Hstg.
    cbn [stg DatabaseStorage.later DatabaseStorage.conn].
    unfold db.add_log, db.add_report, find_report.
    cbn [db.tpsReports db.with_logs db.with_reports db.next_log_id].
    apply (head_filter_fresh _ _ (db.tps_reports_id_seq (DatabaseStorage.conn (stg w))));
      [exact Hwfd | cbn; lia]. }
  split.
  { rewrite Hstg. cbn [stg DatabaseStorage.later DatabaseStorage.conn].
    unfold db.add_log, db.add_report.
    cbn [db.tpsLogs db.with_logs db.with_reports db.next_log_id db.next_report_id].
    reflexivity. }
  split; [exact Hcon |].
  rewrite Hstg. exact Hwf'.
Qed.

Lemma post_creates_for_session_user_witness :
  exists report w',
    post_tps_report 2 (Sample.body "pending_review") None Sample.fresh_db
    = (Ok (mkResponse 201 (ReportJson report)), w')
    /\ TpsReport.creator_id report = 2
    /\ TpsReport.receiver_id report = 1
    /\ TpsReport.status report = "pending_review"
    /\ stored (TpsReport.id report) w' = Some report
    /\ console w'
       = [EmailSent "matt@example.com" "New TPS Report Available"
            "Mina has created a new TPS report for you to review. Please log in to FormPlay to check it out!"].
Proof.
  edestruct (post_creates_for_session_user Sample.fresh_db 2
               (Sample.body "pending_review") None)
    as (report & w' & Hrun & Hc & Hr & Hs & _ & Hst & _ & Hcon & _).
  - vm_compute. reflexivity.
  - vm_compute. reflexivity.
  - repeat split.
  - discriminate.
  - discriminate.
  - left. reflexivity.
  - exists report, w'. split; [exact Hrun |]. split; [exact Hc |].
    split; [exact Hr |]. split; [exact Hs |]. split; [exact Hst | exact Hcon].
Defined.

(** With PDF data in the request, the file is written and the stored report
    is given its path by a second statement, after the report to be
    answered was taken: on a well-formed database, for a user with a
    partner and a body that names no id, [created_at] or [updated_at], has
    form data other than [null] and names in [replicated_from_id], if at
    all, a stored report, the 201 answer still shows the [pdf_path] of the
    body, the stored report shows the path of the file.  The store does
    this for a report of any status. *)
Theorem post_answer_predates_pdf_path (w : World DatabaseStorage.t) (userId : Z)
    (body : InsertTpsReport.t) (data : string) (user partner : User.t) :
  db.wf (DatabaseStorage.conn (stg w)) = true ->
  result_of (DatabaseStorage.getUserWithPartner userId) w = Some (user, partner) ->
  plain body ->
  InsertTpsReport.form_data body <> JNull ->
  (forall parent, InsertTpsReport.replicated_from_id body = Some parent ->
                  db.has_report (DatabaseStorage.conn (stg w)) parent = true) ->
  data <> "" ->
  let path := pdf_path_of (DatabaseStorage.pdfDir (stg w))
                (db.tps_reports_id_seq (DatabaseStorage.conn (stg w))) in
  exists report saved w',
    post_tps_report userId body (Some data) w
    = (Ok (mkResponse 201 (ReportJson report)), w')
    /\ TpsReport.pdf_path report = InsertTpsReport.pdf_path body
    /\ stored (TpsReport.id report) w' = Some saved
    /\ TpsReport.pdf_path saved = Some path
    /\ TpsReport.status saved = InsertTpsReport.status body
    /\ disk w' = (path, Buffer_from_base64 data) :: disk w.
Proof.
  intros Hwf Hpartner Hplain Hfd Hparent Hdata. cbv zeta.
  destruct (dbs_partner_found w userId user partner Hpartner) as (_ & _ & Hu & Hp).
  set (reportData :=
         InsertTpsReport.mk userId (User.id partner)
           (InsertTpsReport.status body) (InsertTpsReport.date body)
           (InsertTpsReport.time_start body) (InsertTpsReport.time_end body)
           (InsertTpsReport.location body) (InsertTpsReport.location_other body)
           (InsertTpsReport.sound body) (InsertTpsReport.form_data body)
           (InsertTpsReport.creator_notes body) (InsertTpsReport.receiver_notes body)
           (InsertTpsReport.creator_initials body)
           (InsertTpsReport.receiver_initials body)
           (InsertTpsReport.replicated_from_id body) (InsertTpsReport.pdf_path body)
           (InsertTpsReport.id body) (InsertTpsReport.created_at body)
           (InsertTpsReport.updated_at body)).
  destruct (dbs_createTpsReport_spec w reportData Hwf Hplain Hfd Hu Hp Hparent)
    as [Ecreate Hwf'].
  cbv zeta in Ecreate, Hwf'.
  destruct w as [t c co dk [p d]].
  cbn [stg ticks clock console disk DatabaseStorage.conn DatabaseStorage.pdfDir] in *.
  set (row := spread_insert reportData (db.tps_reports_id_seq d) (c t)) in *.
  set (log := TpsLog.mk (db.tps_logs_id_seq d) (db.tps_reports_id_seq d) userId
                "created" (c (S t)) (JObj [])) in *.
  set (d2 := db.add_log log (db.add_report row d)) in *.
  set (path := pdf_path_of p (db.tps_reports_id_seq d)).
  assert (Hok2 : db.constraints_ok d2 = true).
  { unfold db.wf in Hwf'. rewrite !andb_true_iff in Hwf'. tauto. }
  assert (Hkeys : acceptable d2 (db.tps_reports_id_seq d) (only_pdf_path path)).
  { repeat split; cbn; intros; discriminate. }
  pose proof (dbs_update_spec
                (mkWorld (S (S t)) c co ((path, Buffer_from_base64 data) :: dk)
                   (DatabaseStorage.mk p d2))
                (db.tps_reports_id_seq d) (only_pdf_path path) Hok2 Hkeys) as Eupd.
  cbn [stg ticks clock console disk DatabaseStorage.conn DatabaseStorage.pdfDir] in Eupd.
  assert (Hfind : find_report (db.tps_reports_id_seq d) (db.tpsReports d2) = Some row).
  { unfold d2, db.add_log, db.add_report, find_report.
    cbn [db.tpsReports db.with_logs db.with_reports db.next_log_id].
    apply (head_filter_fresh _ row (db.tps_reports_id_seq d)).
    - unfold db.wf in Hwf. rewrite !andb_true_iff in Hwf. tauto.
    - cbn. lia. }
  assert (Hrun : exists w',
             post_tps_report userId body (Some data)
               (mkWorld t c co dk (DatabaseStorage.mk p d))
             = (Ok (mkResponse 201 (ReportJson row)), w')
             /\ stg w' = DatabaseStorage.mk p
                           (db.with_reports
                              (map (set_where (db.tps_reports_id_seq d)
                                      (only_pdf_path path) (c (S (S t))))
                                 (db.tpsReports d2)) d2)
             /\ disk w' = (path, Buffer_from_base64 data) :: dk).
  { unfold post_tps_report. cbn [getUserWithPartner createTpsReport sendEmail
                                   savePdfToDisk updateTpsReport
                                   DatabaseStorage_IStorage].
    unfold try_catch. unfold bind at 1.
    rewrite dbs_getUserWithPartner_pure, Hpartner.
    unfold bind at 1. fold reportData. rewrite Ecreate.
    destruct (String.eqb_spec data "") as [| _]; [contradiction |].
    unfold bind at 1. unfold bind at 1.
    unfold DatabaseStorage.savePdfToDisk, write_pdf, writeFile, get_stg.
    unfold bind at 1. unfold bind at 1. unfold ret at 1.
    cbn [stg ticks clock console disk DatabaseStorage.conn DatabaseStorage.pdfDir
           DatabaseStorage.later].
    unfold bind at 1. unfold ret at 1.
    unfold bind at 1.
    cbn [TpsReport.id row spread_insert]. fold path.
    rewrite_call Eupd.
    destruct (TpsReport.status row =? TpsStatus.PENDING_REVIEW)%string;
      cbn; eexists; (split; [reflexivity |]); split; reflexivity. }
  destruct Hrun as (w' & Hrun & Hstg & Hdisk).
  exists row. eexists. exists w'.
  split; [exact Hrun |]. split; [reflexivity |].
  split.
  { rewrite stored_db. unfold reports_of. rewrite Hstg.
    cbn [DatabaseStorage.conn db.tpsReports db.with_reports TpsReport.id row spread_insert].
    apply (find_after_update d2); [exact Hkeys | exact Hfind]. }
  split; [reflexivity |]. split; [reflexivity | exact Hdisk].
Qed.

Lemma post_answer_predates_pdf_path_witness :
  exists report saved w',
    post_tps_report 1 (Sample.body "completed") (Some "JVBERi0=") Sample.fresh_db
    = (Ok (mkResponse 201 (ReportJson report)), w')
    /\ TpsReport.pdf_path report = None
    /\ stored (TpsReport.id report) w' = Some saved
    /\ TpsReport.pdf_path saved = Some "/app/storage/pdfs/tps_report_1.pdf"
    /\ TpsReport.status saved = "completed"
    /\ disk w' = [("/app/storage/pdfs/tps_report_1.pdf", Buffer_from_base64 "JVBERi0=")].
Proof.
  edestruct (post_answer_predates_pdf_path Sample.fresh_db 1
               (Sample.body "completed") "JVBERi0=")
    as (report & saved & w' & Hrun & Hp & Hst & Hsp & Hss & Hd).
  - vm_compute. reflexivity.
  - vm_compute. reflexivity.
  - repeat split.
  - discriminate.
  - discriminate.
  - discriminate.
  - exists report, saved, w'. split; [exact Hrun |]. split; [exact Hp |].
    split; [exact Hst |]. split; [exact Hsp |]. split; [exact Hss | exact Hd].
Defined.

(** ** What replication refuses *)




(** ** Ids stay *)

(** A report that has a log entry keeps its id: an update by its owner whose
    payload names another id is turned down by the database, the handler
    answers 500, and the tables are as before. *)
Theorem logged_report_keeps_its_id (w : World DatabaseStorage.t) (userId reportId : Z)
    (data : PartialTpsReport.t) (report : TpsReport.t) (entry : TpsLog.t) (j : Z) :
  stored reportId w = Some report ->
  writes_as_owner userId report ->
  In entry (db.tpsLogs (DatabaseStorage.conn (stg w))) ->
  TpsLog.tps_id entry = reportId ->
  PartialTpsReport.id data = Some j ->
  j <> reportId ->
  exists res w',
    put_tps_report userId (Some reportId) data w = (Ok res, w')
    /\ code res = 500
    /\ DatabaseStorage.conn (stg w') = DatabaseStorage.conn (stg w).
Proof.
  intros Hstored Hown Hin Htps Hid Hj.
  rewrite stored_db in Hstored.
  pose proof (dbs_get_spec w reportId) as Hget.
  fold (find_report reportId (db.tpsReports (DatabaseStorage.conn (stg w)))) in Hget.
  fold (reports_of w) in Hget. rewrite Hstored in Hget.
  pose proof (put_check_granted (storage := DatabaseStorage_IStorage)
                w userId reportId report Hget Hown) as Hgr.
  assert (Hbad : db.constraints_ok
                   (db.with_reports
                      (map (set_where reportId data (clock w (ticks w)))
                         (db.tpsReports (DatabaseStorage.conn (stg w))))
                      (DatabaseStorage.conn (stg w))) = false).
  { apply not_true_is_false. intros Hok.
    unfold db.constraints_ok in Hok. rewrite !andb_true_iff in Hok.
    destruct Hok as [[_ Hl] _].
    cbn [db.tpsLogs db.with_reports] in Hl.
    rewrite forallb_forall in Hl. specialize (Hl entry Hin).
    unfold db.log_fk_ok in Hl. rewrite andb_true_iff in Hl. destruct Hl as [Hl _].
    unfold db.has_report in Hl. cbn [db.tpsReports db.with_reports] in Hl.
    apply existsb_exists in Hl. destruct Hl as (r' & Hr' & Hidr').
    apply in_map_iff in Hr'. destruct Hr' as (r0 & <- & _).
    apply Z.eqb_eq in Hidr'. rewrite Htps in Hidr'.
    unfold set_where in Hidr'.
    destruct (Z.eqb_spec (TpsReport.id r0) reportId) as [E | E].
    - unfold spread_update in Hidr'. cbn in Hidr'. rewrite Hid in Hidr'.
      cbn in Hidr'. contradiction.
    - contradiction. }
  unfold put_tps_report. rewrite (try_catch_bind_ok _ _ _ _ _ _ Hgr).
  unfold put_apply. cbn [updateTpsReport DatabaseStorage_IStorage].
  unfold try_catch, bind. rewrite dbs_update_general. cbv zeta. rewrite Hbad.
  destruct w as [t c co dk [p d]].
  destruct (PartialTpsReport.created_at data);
    (do 2 eexists; split; [reflexivity |]; split; reflexivity).
Qed.

Lemma logged_report_keeps_its_id_witness :
  exists res w',
    put_tps_report 1 (Some 1)
      (PartialTpsReport.mk (Some 9) None None None None None None None None None
         None None None None None None None None None)
      Sample.db_draft
    = (Ok res, w')
    /\ code res = 500
    /\ DatabaseStorage.conn (stg w') = DatabaseStorage.conn (stg Sample.db_draft).
Proof.
  eapply (logged_report_keeps_its_id Sample.db_draft 1 1 _ _
            (TpsLog.mk 1 1 1 "created" (mkDate 1 "2025-03-04T20:15:00.000Z") (JObj []))
            9).
  - vm_compute. reflexivity.
  - unfold writes_as_owner, is_terminal. cbn.
    repeat split; try tauto; try discriminate. intros [H | H]; discriminate.
  - vm_compute. left. reflexivity.
  - reflexivity.
  - reflexivity.
  - discriminate.
Defined.

(** ** Well-formedness is kept *)

Lemma keeps_wf_of_conn {A} (m : M DatabaseStorage.t A) :
  (forall w, DatabaseStorage.conn (stg (snd (m w))) = DatabaseStorage.conn (stg w)) ->
  keeps_wf m.
Proof. intros H w Hwf. now rewrite H. Qed.

Lemma keeps_wf_ret {A} (a : A) : keeps_wf (ret a).
Proof. intros w H. exact H. Qed.

Lemma keeps_wf_bind {A B} (m : M DatabaseStorage.t A) (k : A -> M DatabaseStorage.t B) :
  keeps_wf m -> (forall a, keeps_wf (k a)) -> keeps_wf (bind m k).
Proof.
  intros Hm Hk w Hwf. unfold bind. specialize (Hm w Hwf).
  destruct (m w) as [[a | e] w1]; cbn [snd] in *.
  - now apply Hk.
  - exact Hm.
Qed.

Lemma keeps_wf_try_catch {A} (m : M DatabaseStorage.t A)
    (h : exn -> M DatabaseStorage.t A) :
  keeps_wf m -> (forall e, keeps_wf (h e)) -> keeps_wf (try_catch m h).
Proof.
  intros Hm Hh w Hwf. unfold try_catch. specialize (Hm w Hwf).
  destruct (m w) as [[a | e] w1]; cbn [snd] in *.
  - exact Hm.
  - now apply Hh.
Qed.

Lemma keeps_wf_lift {A} (o : outcome A) : keeps_wf (lift_outcome o).
Proof. intros w H. exact H. Qed.

Lemma keeps_wf_new_Date : keeps_wf new_Date.
Proof. intros w H. exact H. Qed.

Lemma keeps_wf_console_log (l : ConsoleLine) : keeps_wf (console_log l).
Proof. intros w H. exact H. Qed.

Lemma keeps_wf_sendEmail (to subject body : string) :
  keeps_wf (DatabaseStorage.sendEmail to subject body).
Proof. intros w H. exact H. Qed.

Lemma keeps_wf_addToCalendar (userId : Z) (event : CalendarEvent) :
  keeps_wf (DatabaseStorage.addToCalendar userId event).
Proof. intros w H. exact H. Qed.

Lemma keeps_wf_savePdfToDisk (reportId : Z) (pdfData : Buffer) :
  keeps_wf (DatabaseStorage.savePdfToDisk reportId pdfData).
Proof. intros w H. exact H. Qed.

Lemma keeps_wf_server_error (label message : string) (e : exn) :
  keeps_wf (server_error label message e).
Proof. intros w H. exact H. Qed.

Lemma keeps_wf_read_error (label message : string) (e : exn) :
  keeps_wf (read_error label message e).
Proof. intros w H. exact H. Qed.

Lemma keeps_wf_getTpsReport (id : Z) : keeps_wf (DatabaseStorage.getTpsReport id).
Proof. intros w H. now rewrite dbs_get_spec. Qed.

Lemma keeps_wf_getUserWithPartner (userId : Z) :
  keeps_wf (DatabaseStorage.getUserWithPartner userId).
Proof. intros w H. now rewrite dbs_getUserWithPartner_pure. Qed.

Lemma keeps_wf_getAllUsers : keeps_wf DatabaseStorage_getAllUsers.
Proof. apply keeps_wf_of_conn. intros [t c co dk [p d]]. reflexivity. Qed.

Lemma keeps_wf_getTpsReportsByUser (userId : Z) :
  keeps_wf (DatabaseStorage_getTpsReportsByUser userId).
Proof. apply keeps_wf_of_conn. intros [t c co dk [p d]]. reflexivity. Qed.

Lemma keeps_wf_getTpsReportsByStatus (status : string) :
  keeps_wf (DatabaseStorage_getTpsReportsByStatus status).
Proof. apply keeps_wf_of_conn. intros [t c co dk [p d]]. reflexivity. Qed.

Lemma keeps_wf_getTpsLogsByReport (tpsId : Z) :
  keeps_wf (DatabaseStorage_getTpsLogsByReport tpsId).
Proof. apply keeps_wf_of_conn. intros [t c co dk [p d]]. reflexivity. Qed.

Lemma wf_parts (d : db.t) :
  db.wf d = true <->
  db.constraints_ok d = true
  /\ db.ids_below (db.tps_reports_id_seq d) (map TpsReport.id (db.tpsReports d)) = true
  /\ db.ids_below (db.tps_logs_id_seq d) (map TpsLog.id (db.tpsLogs d)) = true.
Proof. unfold db.wf. rewrite !andb_true_iff. tauto. Qed.

(** An INSERT keeps the database well formed whether it commits or not. *)
Lemma keeps_wf_createTpsLog (log : InsertTpsLog.t) :
  keeps_wf (DatabaseStorage.createTpsLog log).
Proof.
  intros [t c co dk [p d]] Hwf.
  cbn [stg DatabaseStorage.conn] in Hwf. apply wf_parts in Hwf.
  destruct Hwf as (Hok & Hrb & Hlb).
  unfold DatabaseStorage.createTpsLog, DatabaseStorage.on_db, zoom, db.createTpsLog,
    db.commit, new_Date, get_stg, put_stg, throw.
  run_io. cbn [stg ticks clock console disk DatabaseStorage.conn].
  match goal with |- context [if ?b then _ else _] => destruct b eqn:Hc end;
    cbn [snd stg DatabaseStorage.conn]; apply wf_parts.
  - split; [exact Hc |]. split; [exact Hrb |].
    cbn [db.tpsLogs db.with_logs db.tps_logs_id_seq db.next_log_id].
    rewrite map_app. cbn [map TpsLog.id].
    apply (ids_below_snoc (db.tps_logs_id_seq d)); [exact Hlb | lia].
  - split; [exact Hok |]. split; [exact Hrb |].
    cbn [db.tpsLogs db.tps_logs_id_seq db.next_log_id].
    apply (ids_below_weaken (db.tps_logs_id_seq d)); [exact Hlb | lia].
Qed.

Lemma keeps_wf_db_createTpsReport (report : InsertTpsReport.t) :
  InsertTpsReport.id report = None ->
  keeps_wf (DatabaseStorage.on_db (db.createTpsReport report)).
Proof.
  intros Hid [t c co dk [p d]] Hwf.
  unfold DatabaseStorage.on_db, zoom, db.createTpsReport,
    db.commit, new_Date, get_stg, put_stg, throw.
  rewrite Hid.
  destruct (InsertTpsReport.created_at report), (InsertTpsReport.updated_at report);
    try exact Hwf.
  cbn [stg DatabaseStorage.conn] in Hwf. apply wf_parts in Hwf.
  destruct Hwf as (Hok & Hrb & Hlb).
  run_io. cbn [stg ticks clock console disk DatabaseStorage.conn].
  match goal with |- context [if ?b then _ else _] => destruct b eqn:Hc end;
    cbn [snd stg DatabaseStorage.conn]; apply wf_parts.
  - split; [exact Hc |]. split; [| exact Hlb].
    cbn [db.tpsReports db.with_reports db.tps_reports_id_seq db.next_report_id].
    rewrite map_app. cbn [map TpsReport.id spread_insert].
    apply (ids_below_snoc (db.tps_reports_id_seq d)); [exact Hrb | lia].
  - split; [exact Hok |]. split; [| exact Hlb].
    cbn [db.tpsReports db.tps_reports_id_seq db.next_report_id].
    apply (ids_below_weaken (db.tps_reports_id_seq d)); [exact Hrb | lia].
Qed.

Lemma keeps_wf_createTpsReport (report : InsertTpsReport.t) :
  InsertTpsReport.id report = None ->
  keeps_wf (DatabaseStorage.createTpsReport report).
Proof.
  intros Hid. unfold DatabaseStorage.createTpsReport.
  apply keeps_wf_bind; [now apply keeps_wf_db_createTpsReport |].
  intros newReport. apply keeps_wf_bind; [apply keeps_wf_createTpsLog |].
  intros _. apply keeps_wf_ret.
Qed.

(** An UPDATE that names no id keeps it well formed too. *)
Lemma keeps_wf_updateTpsReport (id : Z) (data : PartialTpsReport.t) :
  PartialTpsReport.id data = None ->
  keeps_wf (DatabaseStorage.updateTpsReport id data).
Proof.
  intros Hid w Hwf. rewrite dbs_update_general. cbv zeta.
  destruct (PartialTpsReport.created_at data); [exact Hwf |].
  match goal with |- context [if ?b then _ else _] => destruct b eqn:Hc end;
    cbn [snd stg DatabaseStorage.later DatabaseStorage.conn]; [| exact Hwf].
  apply wf_parts in Hwf. destruct Hwf as (Hok & Hrb & Hlb).
  apply wf_parts.
  split; [exact Hc |]. split; [| exact Hlb].
  cbn [db.tpsReports db.with_reports db.tps_reports_id_seq].
  rewrite map_keeps_ids; [exact Hrb |].
  intros r. unfold set_where. destruct (TpsReport.id r =? id)%Z; [| reflexivity].
  unfold spread_update. cbn. now rewrite Hid.
Qed.

Lemma keeps_wf_put_notify (userId : Z) (report : TpsReport.t)
    (isCreator isReceiver : bool) (data : PartialTpsReport.t) (user partner : User.t) :
  keeps_wf (put_notify userId report isCreator isReceiver data user partner).
Proof.
  intros w Hwf.
  destruct (dbs_put_notify_frame w userId report isCreator isReceiver data user partner)
    as (n & lines & E).
  now rewrite E.
Qed.

Lemma keeps_wf_replicateTpsReport (id : Z) :
  keeps_wf (DatabaseStorage.replicateTpsReport id).
Proof.
  unfold DatabaseStorage.replicateTpsReport.
  apply keeps_wf_bind; [apply keeps_wf_getTpsReport |].
  intros [original |]; [| apply keeps_wf_ret].
  apply keeps_wf_bind; [apply keeps_wf_lift |]. intros formData.
  apply keeps_wf_bind; [apply keeps_wf_new_Date |]. intros d.
  apply keeps_wf_bind; [now apply keeps_wf_createTpsReport |]. intros report.
  apply keeps_wf_bind; [apply keeps_wf_createTpsLog |]. intros _.
  apply keeps_wf_ret.
Qed.

Ltac keeps_wf_step :=
  lazymatch goal with
  | |- keeps_wf (bind _ _) => apply keeps_wf_bind
  | |- keeps_wf (try_catch _ _) => apply keeps_wf_try_catch
  | |- keeps_wf (ret _) => apply keeps_wf_ret
  | |- keeps_wf (lift_outcome _) => apply keeps_wf_lift
  | |- keeps_wf new_Date => apply keeps_wf_new_Date
  | |- keeps_wf (console_log _) => apply keeps_wf_console_log
  | |- keeps_wf (server_error _ _ _) => apply keeps_wf_server_error
  | |- keeps_wf (read_error _ _ _) => apply keeps_wf_read_error
  | |- keeps_wf (DatabaseStorage.sendEmail _ _ _) => apply keeps_wf_sendEmail
  | |- keeps_wf (DatabaseStorage.addToCalendar _ _) => apply keeps_wf_addToCalendar
  | |- keeps_wf (DatabaseStorage.savePdfToDisk _ _) => apply keeps_wf_savePdfToDisk
  | |- keeps_wf (DatabaseStorage.getTpsReport _) => apply keeps_wf_getTpsReport
  | |- keeps_wf (DatabaseStorage.getUserWithPartner _) =>
      apply keeps_wf_getUserWithPartner
  | |- keeps_wf DatabaseStorage_getAllUsers => apply keeps_wf_getAllUsers
  | |- keeps_wf (DatabaseStorage_getTpsReportsByUser _) =>
      apply keeps_wf_getTpsReportsByUser
  | |- keeps_wf (DatabaseStorage_getTpsReportsByStatus _) =>
      apply keeps_wf_getTpsReportsByStatus
  | |- keeps_wf (DatabaseStorage_getTpsLogsByReport _) =>
      apply keeps_wf_getTpsLogsByReport
  | |- keeps_wf (DatabaseStorage.createTpsLog _) => apply keeps_wf_createTpsLog
  | |- keeps_wf (DatabaseStorage.createTpsReport _) =>
      apply keeps_wf_createTpsReport; reflexivity
  | |- keeps_wf (DatabaseStorage.replicateTpsReport _) =>
      apply keeps_wf_replicateTpsReport
  | |- keeps_wf (put_notify _ _ _ _ _ _ _) => apply keeps_wf_put_notify
  | |- keeps_wf (match ?x with _ => _ end) => destruct x
  | |- keeps_wf (if ?b then _ else _) => destruct b
  | |- forall _, _ => intro
  end.

Ltac keeps_wf_tac := repeat keeps_wf_step.

Lemma keeps_wf_post_tps_report (userId : Z) (body : InsertTpsReport.t)
    (pdfData : option string) :
  InsertTpsReport.id body = None ->
  keeps_wf (post_tps_report (storage := DatabaseStorage_IStorage) userId body pdfData).
Proof.
  intros Hid. unfold post_tps_report.
  cbn [getUserWithPartner createTpsReport savePdfToDisk updateTpsReport sendEmail
         DatabaseStorage_IStorage].
  apply keeps_wf_try_catch; [| intros e; apply keeps_wf_server_error].
  apply keeps_wf_bind; [apply keeps_wf_getUserWithPartner |].
  intros [[user partner] |]; [| apply keeps_wf_ret].
  apply keeps_wf_bind; [now apply keeps_wf_createTpsReport |]. intros report.
  apply keeps_wf_bind.
  - destruct pdfData as [data |]; [| apply keeps_wf_ret].
    destruct (data =? "")%string; [apply keeps_wf_ret |].
    apply keeps_wf_bind; [apply keeps_wf_savePdfToDisk |]. intros pdfPath.
    apply keeps_wf_bind; [now apply keeps_wf_updateTpsReport |]. intros _.
    apply keeps_wf_ret.
  - intros _. keeps_wf_tac.
Qed.

Lemma keeps_wf_put_tps_report (userId : Z) (reportId : option Z)
    (data : PartialTpsReport.t) :
  PartialTpsReport.id data = None ->
  keeps_wf (put_tps_report (storage := DatabaseStorage_IStorage) userId reportId data).
Proof.
  intros Hid. unfold put_tps_report, put_check, put_apply.
  cbn [getTpsReport updateTpsReport createTpsLog getUserWithPartner
         DatabaseStorage_IStorage].
  apply keeps_wf_try_catch; [| intros e; apply keeps_wf_server_error].
  destruct reportId as [rid |]; [| apply keeps_wf_ret].
  apply keeps_wf_bind.
  - keeps_wf_tac.
  - intros [res | report ic ir]; [apply keeps_wf_ret |].
    apply keeps_wf_bind; [now apply keeps_wf_updateTpsReport |].
    intros [updated |]; keeps_wf_tac.
Qed.

Lemma keeps_wf_post_replicate (userId : Z) (reportId : option Z) :
  keeps_wf (post_replicate (storage := DatabaseStorage_IStorage) userId reportId).
Proof.
  unfold post_replicate.
  cbn [getTpsReport replicateTpsReport DatabaseStorage_IStorage].
  keeps_wf_tac.
Qed.

(** The database of the running server stays well formed: its constraints
    hold and every id in use lies below its sequence, after any sequence of
    calls of the report API in which no create body and no update payload
    names an id.  So the next id a sequence hands out is never taken. *)
Theorem served_database_is_well_formed (calls : list ApiCall) (pdfDir : string)
    (clk : nat -> Date) :
  Forall writes_no_id calls ->
  db.wf (DatabaseStorage.conn
           (stg (serve calls (mkWorld 0%nat clk [] [] (DatabaseStorage.new pdfDir)))))
  = true.
Proof.
  intros Hcalls.
  assert (Hstep : forall call w,
             writes_no_id call ->
             db.wf (DatabaseStorage.conn (stg w)) = true ->
             db.wf (DatabaseStorage.conn (stg (world_after call w))) = true).
  { intros call w Hcall Hwf. destruct call; cbn [world_after writes_no_id] in *.
    - now apply keeps_wf_post_tps_report.
    - now apply keeps_wf_put_tps_report.
    - now apply keeps_wf_post_replicate.
    - revert w Hwf. change (keeps_wf (get_tps_report userId reportId)).
      unfold get_tps_report. keeps_wf_tac.
    - revert w Hwf. change (keeps_wf (get_tps_reports userId status)).
      unfold get_tps_reports. keeps_wf_tac.
    - revert w Hwf. change (keeps_wf (get_tps_logs userId reportId)).
      unfold get_tps_logs. keeps_wf_tac.
    - revert w Hwf. change (keeps_wf (get_stats userId)).
      unfold get_stats. keeps_wf_tac. }
  unfold serve.
  assert (H0 : db.wf (DatabaseStorage.conn (stg (mkWorld 0%nat clk [] []
                                                  (DatabaseStorage.new pdfDir)))) = true)
    by reflexivity.
  revert H0.
  generalize (mkWorld 0%nat clk [] [] (DatabaseStorage.new pdfDir)).
  induction Hcalls as [| call calls Hcall _ IH]; intros w Hwf; cbn [fold_left].
  - exact Hwf.
  - apply IH. now apply Hstep.
Qed.

(** ** The reads *)

Lemma dbs_getAllUsers_spec (w : World DatabaseStorage.t) :
  DatabaseStorage_getAllUsers w = (Ok (db.users (DatabaseStorage.conn (stg w))), w).
Proof. destruct w as [t c co d [p cn]]. reflexivity. Qed.

Lemma dbs_getTpsReportsByUser_spec (w : World DatabaseStorage.t) (userId : Z) :
  DatabaseStorage_getTpsReportsByUser userId w
  = (Ok (List.filter
           (fun r => (TpsReport.creator_id r =? userId)%Z
                     || (TpsReport.receiver_id r =? userId)%Z)
           (reports_of w)), w).
Proof. destruct w as [t c co d [p cn]]. reflexivity. Qed.

Lemma dbs_getTpsReportsByStatus_spec (w : World DatabaseStorage.t) (status : string) :
  DatabaseStorage_getTpsReportsByStatus status w
  = (Ok (List.filter (fun r => (TpsReport.status r =? status)%string) (reports_of w)),
     w).
Proof. destruct w as [t c co d [p cn]]. reflexivity. Qed.

Lemma dbs_getTpsLogsByReport_spec (w : World DatabaseStorage.t) (tpsId : Z) :
  DatabaseStorage_getTpsLogsByReport tpsId w
  = (Ok (sort_newest_first
           (List.filter (fun l => (TpsLog.tps_id l =? tpsId)%Z)
              (db.tpsLogs (DatabaseStorage.conn (stg w))))), w).
Proof. destruct w as [t c co d [p cn]]. reflexivity. Qed.

Lemma party_test (report : TpsReport.t) (userId : Z) :
  negb (TpsReport.creator_id report =? userId)%Z
  && negb (TpsReport.receiver_id report =? userId)%Z = false
  <-> TpsReport.creator_id report = userId \/ TpsReport.receiver_id report = userId.
Proof.
  destruct (Z.eqb_spec (TpsReport.creator_id report) userId),
    (Z.eqb_spec (TpsReport.receiver_id report) userId); cbn; intuition congruence.
Qed.

Lemma map_fst_enrich (users : list User.t) (rows : list TpsReport.t) :
  map (fun x : TpsReport.t * string * string => fst (fst x)) (map (enrich users) rows)
  = rows.
Proof. rewrite map_map. cbn. apply map_id. Qed.

Lemma get_tps_reports_all (w : World DatabaseStorage.t) (userId : Z) :
  get_tps_reports userId None w
  = (Ok (mkRead 200
           (EnrichedReports
              (map (enrich (db.users (DatabaseStorage.conn (stg w))))
                 (List.filter
                    (fun r => (TpsReport.creator_id r =? userId)%Z
                              || (TpsReport.receiver_id r =? userId)%Z)
                    (reports_of w))))), w).
Proof.
  unfold get_tps_reports. run_io.
  rewrite dbs_getTpsReportsByUser_spec. cbn [fst snd].
  rewrite dbs_getAllUsers_spec. reflexivity.
Qed.

Lemma get_tps_reports_by_status (w : World DatabaseStorage.t) (userId : Z)
    (status : string) :
  status <> "" ->
  get_tps_reports userId (Some status) w
  = (Ok (mkRead 200
           (EnrichedReports
              (map (enrich (db.users (DatabaseStorage.conn (stg w))))
                 (List.filter
                    (fun r => (TpsReport.creator_id r =? userId)%Z
                              || (TpsReport.receiver_id r =? userId)%Z)
                    (List.filter (fun r => (TpsReport.status r =? status)%string)
                       (reports_of w)))))), w).
Proof.
  intros Hne. destruct status as [| c s]; [congruence |].
  unfold get_tps_reports. run_io.
  rewrite dbs_getTpsReportsByStatus_spec. cbn [fst snd].
  rewrite dbs_getAllUsers_spec. reflexivity.
Qed.

Lemma filter_filter_swap {A} (p q : A -> bool) (l : list A) :
  List.filter p (List.filter q l) = List.filter q (List.filter p l).
Proof.
  induction l as [| x l IH]; [reflexivity |]. cbn.
  destruct (p x) eqn:Hp, (q x) eqn:Hq; cbn; rewrite ?Hp, ?Hq, IH; reflexivity.
Qed.

Lemma count_or_disjoint {A} (p q : A -> bool) (l : list A) :
  (forall x, p x = true -> q x = true -> False) ->
  length (List.filter (fun x => p x || q x) l)
  = (length (List.filter p l) + length (List.filter q l))%nat.
Proof.
  intros Hd. induction l as [| x l IH]; [reflexivity |]. cbn.
  destruct (p x) eqn:Hp, (q x) eqn:Hq; cbn; rewrite IH; try lia.
  exfalso. eauto.
Qed.

(** GET /api/tps-reports with a status shows the caller's reports of that
    status and no others: the listing is, up to order, the unfiltered
    listing of the same caller restricted to that status, every report in
    it has the caller as creator or receiver, and the listing writes
    nothing. *)
Theorem listing_by_status_is_own_listing_filtered (w : World DatabaseStorage.t)
    (userId : Z) (status : string) :
  status <> "" ->
  let filtered := get_tps_reports userId (Some status) w in
  let all := get_tps_reports userId None w in
  Permutation (listed (fst filtered))
    (List.filter (fun r => (TpsReport.status r =? status)%string) (listed (fst all)))
  /\ (forall r, In r (listed (fst filtered)) ->
        (TpsReport.creator_id r = userId \/ TpsReport.receiver_id r = userId)
        /\ TpsReport.status r = status
        /\ In r (reports_of w))
  /\ snd filtered = w.
Proof.
  intros Hne filtered all. subst filtered all.
  rewrite get_tps_reports_by_status by exact Hne.
  rewrite get_tps_reports_all. cbn [fst snd listed].
  rewrite !map_fst_enrich.
  split; [| split; [| reflexivity]].
  - rewrite filter_filter_swap. apply Permutation_refl.
  - intros r Hin.
    apply List.filter_In in Hin. destruct Hin as [Hin Hparty].
    apply List.filter_In in Hin. destruct Hin as [Hin Hst].
    apply orb_true_iff in Hparty. rewrite !Z.eqb_eq in Hparty.
    apply String.eqb_eq in Hst. tauto.
Qed.

Lemma listing_by_status_is_own_listing_filtered_witness :
  "pending_review" <> ""
  /\ snd (get_tps_reports 2 (Some "pending_review") Sample.db_pending_review)
     = Sample.db_pending_review.
Proof.
  assert (H : "pending_review" <> "") by discriminate.
  split; [exact H |].
  exact (proj2 (proj2 (listing_by_status_is_own_listing_filtered
                         Sample.db_pending_review 2 "pending_review" H))).
Defined.

(** GET /api/stats counts what the listings show: [pending] is the number
    of the caller's reports listed as pending review plus those listed as
    pending approval, [completed] and [aborted] are the lengths of those
    listings, and the three together never exceed the caller's unfiltered
    listing.  The call writes nothing. *)
Theorem stats_agree_with_listings (w : World DatabaseStorage.t) (userId : Z) :
  let count := fun status =>
    length (listed (fst (get_tps_reports userId (Some status) w))) in
  let pending := (count TpsStatus.PENDING_REVIEW + count TpsStatus.PENDING_APPROVAL)%nat in
  get_stats userId w
  = (Ok (mkRead 200 (Stats pending (count TpsStatus.COMPLETED) (count TpsStatus.ABORTED))),
     w)
  /\ (pending + count TpsStatus.COMPLETED + count TpsStatus.ABORTED
      <= length (listed (fst (get_tps_reports userId None w))))%nat.
Proof.
  intros count pending. subst count pending. cbv beta.
  rewrite !get_tps_reports_by_status by discriminate.
  rewrite get_tps_reports_all. cbn [fst listed]. rewrite !map_fst_enrich.
  set (party := fun r => (TpsReport.creator_id r =? userId)%Z
                         || (TpsReport.receiver_id r =? userId)%Z).
  set (rows := reports_of w).
  rewrite !(filter_filter_swap party).
  set (mine := List.filter party rows).
  split.
  - unfold get_stats. run_io. rewrite dbs_getTpsReportsByUser_spec. cbn [fst snd].
    fold party rows mine. unfold count_reports.
    rewrite (count_or_disjoint
               (fun r => (TpsReport.status r =? TpsStatus.PENDING_REVIEW)%string)
               (fun r => (TpsReport.status r =? TpsStatus.PENDING_APPROVAL)%string)).
    + reflexivity.
    + intros r H1 H2. apply String.eqb_eq in H1, H2. rewrite H1 in H2. discriminate.
  - clearbody mine. clear. induction mine as [| r l IH]; [cbn; lia |].
    cbn [List.filter].
    destruct (String.eqb_spec (TpsReport.status r) TpsStatus.PENDING_REVIEW) as [E | _];
      [rewrite E; cbn; lia |].
    destruct (String.eqb_spec (TpsReport.status r) TpsStatus.PENDING_APPROVAL) as [E | _];
      [rewrite E; cbn; lia |].
    destruct (String.eqb_spec (TpsReport.status r) TpsStatus.COMPLETED) as [E | _];
      [rewrite E; cbn; lia |].
    destruct (String.eqb_spec (TpsReport.status r) TpsStatus.ABORTED) as [E | _];
      cbn; lia.
Qed.

Lemma stored_party_known (w : World DatabaseStorage.t) (reportId : Z)
    (report : TpsReport.t) :
  db.wf (DatabaseStorage.conn (stg w)) = true ->
  stored reportId w = Some report ->
  db.has_report (DatabaseStorage.conn (stg w)) reportId = true
  /\ db.has_user (DatabaseStorage.conn (stg w)) (TpsReport.creator_id report) = true
  /\ db.has_user (DatabaseStorage.conn (stg w)) (TpsReport.receiver_id report) = true.
Proof.
  intros Hwf Hst. rewrite stored_db in Hst.
  apply find_report_in in Hst. destruct Hst as [Hin Hid].
  split.
  - rewrite <- Hid. now apply has_report_in.
  - now apply wf_report_users.
Qed.

Lemma stored_get (w : World DatabaseStorage.t) (reportId : Z) :
  DatabaseStorage.getTpsReport reportId w = (Ok (stored reportId w), w).
Proof. rewrite stored_db. apply dbs_get_spec. Qed.

(** GET /api/tps-reports/:id is not a pure read: for the creator or the
    receiver of a stored report it answers 200 with the report as stored
    and appends exactly one "viewed" row to the log table, under the
    caller's id and the next log id; the reports stay as they were. *)
Theorem viewing_a_report_is_logged (w : World DatabaseStorage.t) (userId reportId : Z)
    (report : TpsReport.t) :
  db.wf (DatabaseStorage.conn (stg w)) = true ->
  stored reportId w = Some report ->
  TpsReport.creator_id report = userId \/ TpsReport.receiver_id report = userId ->
  let d := DatabaseStorage.conn (stg w) in
  let row := TpsLog.mk (db.tps_logs_id_seq d) reportId userId "viewed"
               (clock w (ticks w)) (JObj []) in
  get_tps_report userId (Some reportId) w
  = (Ok (mkRead 200
           (EnrichedReport report
              (name_in (db.users d) (TpsReport.creator_id report))
              (name_in (db.users d) (TpsReport.receiver_id report)))),
     DatabaseStorage.later w 1 (db.add_log row d))
  /\ db.tpsLogs (db.add_log row d) = (db.tpsLogs d ++ [row])%list
  /\ db.tpsReports (db.add_log row d) = db.tpsReports d.
Proof.
  intros Hwf Hst Hparty d row.
  destruct (stored_party_known w reportId report Hwf Hst) as (Hrep & Hc & Hr).
  assert (Husr : db.has_user d userId = true)
    by (destruct Hparty as [<- | <-]; assumption).
  destruct (dbs_createTpsLog_spec w (InsertTpsLog.mk reportId userId "viewed" (JObj []))
              Hwf Hrep Husr) as [E _].
  cbv zeta in E. cbn [InsertTpsLog.tps_id InsertTpsLog.user_id InsertTpsLog.action
                        InsertTpsLog.details] in E.
  split; [| split; reflexivity].
  unfold get_tps_report. run_io.
  rewrite stored_get. cbn [fst snd]. rewrite Hst.
  apply party_test in Hparty. rewrite Hparty.
  rewrite E. cbn [fst snd].
  rewrite dbs_getAllUsers_spec. reflexivity.
Qed.

Lemma viewing_a_report_is_logged_witness :
  exists report creator_name receiver_name w',
    get_tps_report 2 (Some 1) Sample.db_draft
    = (Ok (mkRead 200 (EnrichedReport report creator_name receiver_name)), w').
Proof.
  do 4 eexists.
  refine (proj1 (viewing_a_report_is_logged Sample.db_draft 2 1 _ _ _ _)).
  - vm_compute. reflexivity.
  - vm_compute. reflexivity.
  - right. vm_compute. reflexivity.
Defined.

(** A user who is neither creator nor receiver of a stored report gets 403
    from both GET /api/tps-reports/:id and GET /api/tps-reports/:id/logs,
    and neither call writes anything: no "viewed" row is logged for a
    refused view. *)
Theorem strangers_read_nothing (w : World DatabaseStorage.t) (userId reportId : Z)
    (report : TpsReport.t) :
  stored reportId w = Some report ->
  TpsReport.creator_id report <> userId ->
  TpsReport.receiver_id report <> userId ->
  get_tps_report userId (Some reportId) w
  = (Ok (mkRead 403 (ReadMessage "Access denied to this report")), w)
  /\ get_tps_logs userId (Some reportId) w
     = (Ok (mkRead 403 (ReadMessage "Access denied to this report logs")), w).
Proof.
  intros Hst Hc Hr.
  assert (Ht : negb (TpsReport.creator_id report =? userId)%Z
               && negb (TpsReport.receiver_id report =? userId)%Z = true).
  { apply andb_true_iff. rewrite !negb_true_iff, !Z.eqb_neq. tauto. }
  split.
  - unfold get_tps_report. run_io. rewrite stored_get. cbn [fst snd].
    rewrite Hst, Ht. reflexivity.
  - unfold get_tps_logs. run_io. rewrite stored_get. cbn [fst snd].
    rewrite Hst, Ht. reflexivity.
Qed.

Lemma strangers_read_nothing_witness :
  get_tps_report 3 (Some 1) Sample.db_draft
  = (Ok (mkRead 403 (ReadMessage "Access denied to this report")), Sample.db_draft)
  /\ get_tps_logs 3 (Some 1) Sample.db_draft
     = (Ok (mkRead 403 (ReadMessage "Access denied to this report logs")),
        Sample.db_draft).
Proof.
  eapply (strangers_read_nothing Sample.db_draft 3 1).
  - vm_compute. reflexivity.
  - vm_compute. discriminate.
  - vm_compute. discriminate.
Defined.

(** ** The log listing *)

Lemma insert_newest_first_perm (x : TpsLog.t) (l : list TpsLog.t) :
  Permutation (insert_newest_first x l) (x :: l).
Proof.
  induction l as [| y ys IH]; cbn [insert_newest_first]; [apply Permutation_refl |].
  destruct (getTime (TpsLog.timestamp y) <=? getTime (TpsLog.timestamp x))%Z.
  - apply Permutation_refl.
  - eapply perm_trans; [apply perm_skip, IH | apply perm_swap].
Qed.

Lemma sort_newest_first_perm (l : list TpsLog.t) :
  Permutation (sort_newest_first l) l.
Proof.
  induction l as [| x l IH]; cbn; [apply perm_nil |].
  eapply perm_trans; [apply insert_newest_first_perm | now apply perm_skip].
Qed.

Lemma insert_newest_first_sorted (x : TpsLog.t) (l : list TpsLog.t) :
  StronglySorted newer_or_same l ->
  StronglySorted newer_or_same (insert_newest_first x l).
Proof.
  induction 1 as [| y ys Hs IH Hall]; cbn [insert_newest_first].
  - constructor; [constructor | constructor].
  - destruct (Z.leb_spec (getTime (TpsLog.timestamp y)) (getTime (TpsLog.timestamp x)))
      as [Hle | Hlt].
    + constructor; [now constructor |].
      constructor; [exact Hle |].
      eapply List.Forall_impl; [| exact Hall].
      intros z Hz. unfold newer_or_same in *. lia.
    + constructor; [exact IH |].
      eapply Permutation_Forall;
        [apply Permutation_sym, insert_newest_first_perm |].
      constructor; [unfold newer_or_same; lia | exact Hall].
Qed.

Lemma sort_newest_first_sorted (l : list TpsLog.t) :
  StronglySorted newer_or_same (sort_newest_first l).
Proof.
  induction l as [| x l IH]; cbn; [constructor |].
  now apply insert_newest_first_sorted.
Qed.

(** GET /api/tps-reports/:id/logs gives the creator or the receiver of a
    stored report exactly the log rows of that report, each once, newest
    first, and writes nothing. *)
Theorem log_listing_is_complete_and_newest_first (w : World DatabaseStorage.t)
    (userId reportId : Z) (report : TpsReport.t) :
  stored reportId w = Some report ->
  TpsReport.creator_id report = userId \/ TpsReport.receiver_id report = userId ->
  exists logs,
    get_tps_logs userId (Some reportId) w
    = (Ok (mkRead 200
             (EnrichedLogs
                (map (fun log =>
                        (log, name_in (db.users (DatabaseStorage.conn (stg w)))
                                (TpsLog.user_id log)))
                   logs))), w)
    /\ Permutation logs
         (List.filter (fun l => (TpsLog.tps_id l =? reportId)%Z)
            (db.tpsLogs (DatabaseStorage.conn (stg w))))
    /\ StronglySorted newer_or_same logs.
Proof.
  intros Hst Hparty.
  exists (sort_newest_first
            (List.filter (fun l => (TpsLog.tps_id l =? reportId)%Z)
               (db.tpsLogs (DatabaseStorage.conn (stg w))))).
  split; [| split; [apply sort_newest_first_perm | apply sort_newest_first_sorted]].
  unfold get_tps_logs. run_io. rewrite stored_get. cbn [fst snd]. rewrite Hst.
  apply party_test in Hparty. rewrite Hparty.
  rewrite dbs_getTpsLogsByReport_spec. cbn [fst snd].
  rewrite dbs_getAllUsers_spec. reflexivity.
Qed.

Lemma log_listing_is_complete_and_newest_first_witness :
  exists logs,
    fst (get_tps_logs 2 (Some 1) Sample.db_pending_review)
    = Ok (mkRead 200
            (EnrichedLogs
               (map (fun log =>
                       (log, name_in (db.users (DatabaseStorage.conn
                                                  (stg Sample.db_pending_review)))
                               (TpsLog.user_id log)))
                  logs)))
    /\ StronglySorted newer_or_same logs.
Proof.
  edestruct (log_listing_is_complete_and_newest_first Sample.db_pending_review 2 1)
    as (logs & Hrun & _ & Hsorted).
  - vm_compute. reflexivity.
  - right. vm_compute. reflexivity.
  - exists logs. rewrite Hrun. split; [reflexivity | exact Hsorted].
Defined.

Lemma served_database_is_well_formed_witness :
  db.wf (DatabaseStorage.conn
           (stg (serve [CreateReport 1 (Sample.body "draft") None;
                        UpdateReport 1 (Some 1) (Sample.set_status "pending_review");
                        ViewReport 2 (Some 1);
                        ReplicateReport 2 (Some 1);
                        ListLogs 1 (Some 2)]
                   (mkWorld 0%nat Sample.clock [] []
                      (DatabaseStorage.new "/app/storage/pdfs")))))
  = true.
Proof.
  apply (served_database_is_well_formed _ "/app/storage/pdfs" Sample.clock).
  repeat constructor.
Defined.

(** ** [MemStorage]: the index of the report map *)

Lemma mem_create_spec (w : World MemStorage.t) (report : InsertTpsReport.t) :
  let s := stg w in
  let r := spread_insert report (MemStorage.tpsId s) (clock w (ticks w)) in
  let created := TpsLog.mk (MemStorage.logId s) (MemStorage.tpsId s)
                   (InsertTpsReport.creator_id report) "created"
                   (clock w (S (ticks w))) (JObj []) in
  MemStorage.createTpsReport report w
  = (Ok r,
     mkWorld (2 + ticks w) (clock w) (console w) (disk w)
       (MemStorage.mk (MemStorage.users s)
          (<[MemStorage.tpsId s := r]> (MemStorage.tpsReports s))
          (<[MemStorage.logId s := created]> (MemStorage.tpsLogs s))
          (MemStorage.userId s) (MemStorage.tpsId s + 1)
          (MemStorage.logId s + 1) (MemStorage.pdfDir s))).
Proof. reflexivity. Qed.

Lemma mem_fresh_key (s : MemStorage.t) :
  mem_ids_below s -> MemStorage.tpsReports s !! MemStorage.tpsId s = None.
Proof.
  intros Hb. destruct (MemStorage.tpsReports s !! MemStorage.tpsId s) eqn:E;
    [| reflexivity].
  specialize (Hb (MemStorage.tpsId s)). rewrite E in Hb.
  assert (H : (MemStorage.tpsId s < MemStorage.tpsId s)%Z) by (apply Hb; eauto).
  lia.
Qed.

Lemma mem_insert_fresh_ok (s : MemStorage.t) (r : TpsReport.t) (next : Z) :
  mem_ids_below s -> mem_keyed_by_id s ->
  TpsReport.id r = MemStorage.tpsId s ->
  (MemStorage.tpsId s < next)%Z ->
  forall logs logId,
    let s' := MemStorage.mk (MemStorage.users s)
                (<[MemStorage.tpsId s := r]> (MemStorage.tpsReports s))
                logs (MemStorage.userId s) next logId (MemStorage.pdfDir s) in
    mem_ids_below s' /\ mem_keyed_by_id s'
    /\ (forall k r0, MemStorage.tpsReports s !! k = Some r0 ->
                     MemStorage.tpsReports s' !! k = Some r0).
Proof.
  intros Hb Hk Hid Hnext logs logId s'. subst s'.
  unfold mem_ids_below, mem_keyed_by_id. cbn [MemStorage.tpsReports MemStorage.tpsId].
  split; [| split].
  - intros k Hs. destruct (decide (k = MemStorage.tpsId s)) as [-> | Hne]; [lia |].
    rewrite lookup_insert_ne in Hs by congruence. specialize (Hb k Hs). lia.
  - intros k r0 Hl. destruct (decide (k = MemStorage.tpsId s)) as [-> | Hne].
    + rewrite lookup_insert_eq in Hl. congruence.
    + rewrite lookup_insert_ne in Hl by congruence. now apply Hk.
  - intros k r0 Hl.
    assert (Hlt : (k < MemStorage.tpsId s)%Z) by (apply Hb; eauto).
    rewrite lookup_insert_ne by lia. exact Hl.
Qed.

Lemma mem_replicate_throws (w : World MemStorage.t) (id : Z) (R : TpsReport.t)
    (e : exn) :
  MemStorage.tpsReports (stg w) !! id = Some R ->
  reset_form_data (TpsReport.form_data R) = Throw e ->
  MemStorage.replicateTpsReport id w = (Throw e, w).
Proof.
  intros Hl Hr.
  unfold MemStorage.replicateTpsReport, MemStorage.getTpsReport, get_stg.
  unfold bind at 1. unfold bind at 1. cbn [ret]. rewrite Hl.
  unfold bind at 1. unfold lift_outcome. rewrite Hr. reflexivity.
Qed.

Lemma mem_replicate_missing (w : World MemStorage.t) (id : Z) :
  MemStorage.tpsReports (stg w) !! id = None ->
  MemStorage.replicateTpsReport id w = (Ok None, w).
Proof.
  intros Hl.
  unfold MemStorage.replicateTpsReport, MemStorage.getTpsReport, get_stg.
  unfold bind at 1. unfold bind at 1. cbn [ret]. rewrite Hl. reflexivity.
Qed.

(** In [MemStorage], [createTpsReport] and [replicateTpsReport] never
    overwrite a stored report: provided the ids in use lie below [tpsId] and
    every report sits under its own id, both properties hold again after
    either call, however it ends, and every report stored before is stored
    unchanged after. *)
Theorem mem_creation_never_overwrites (w : World MemStorage.t)
    (report : InsertTpsReport.t) (id : Z) :
  mem_ids_below (stg w) -> mem_keyed_by_id (stg w) ->
  forall w',
    w' = snd (MemStorage.createTpsReport report w)
    \/ w' = snd (MemStorage.replicateTpsReport id w) ->
    mem_ids_below (stg w') /\ mem_keyed_by_id (stg w')
    /\ (forall k r0, MemStorage.tpsReports (stg w) !! k = Some r0 ->
                     MemStorage.tpsReports (stg w') !! k = Some r0).
Proof.
  intros Hb Hk w' [-> | ->].
  - rewrite mem_create_spec. cbn [snd stg].
    apply (mem_insert_fresh_ok (stg w)); [exact Hb | exact Hk | reflexivity | lia].
  - destruct (MemStorage.tpsReports (stg w) !! id) as [R |] eqn:Hl.
    + destruct (reset_form_data (TpsReport.form_data R)) as [formData | e] eqn:Hr.
      * rewrite (mem_replicate_spec w id R formData Hl Hr). cbn [snd stg].
        apply (mem_insert_fresh_ok (stg w));
          [exact Hb | exact Hk | reflexivity | lia].
      * rewrite (mem_replicate_throws w id R e Hl Hr). cbn [snd]. auto.
    + rewrite (mem_replicate_missing w id Hl). cbn [snd]. auto.
Qed.

Lemma mem_fresh_ok :
  mem_ids_below (stg Sample.fresh_mem) /\ mem_keyed_by_id (stg Sample.fresh_mem).
Proof.
  split.
  - intros k [r H]. change (MemStorage.tpsReports (stg Sample.fresh_mem))
      with (∅ : gmap Z TpsReport.t) in H.
    rewrite lookup_empty in H. discriminate.
  - intros k r H. change (MemStorage.tpsReports (stg Sample.fresh_mem))
      with (∅ : gmap Z TpsReport.t) in H.
    rewrite lookup_empty in H. discriminate.
Defined.

Lemma mem_creation_never_overwrites_witness :
  mem_ids_below (stg (snd (MemStorage.createTpsReport (Sample.body "draft")
                             Sample.fresh_mem)))
  /\ mem_keyed_by_id (stg (snd (MemStorage.createTpsReport (Sample.body "draft")
                                  Sample.fresh_mem))).
Proof.
  destruct (mem_creation_never_overwrites Sample.fresh_mem (Sample.body "draft") 1
              (proj1 mem_fresh_ok) (proj2 mem_fresh_ok) _ (or_introl eq_refl))
    as (H1 & H2 & _).
  split; assumption.
Defined.

(** In [MemStorage], [updateTpsReport] writes the merged report back under
    the key it was asked for, whatever id the payload carries: ids in use
    stay below [tpsId], and the reports stay stored under their own ids
    exactly when the payload names no id or the id of the report itself. *)
Theorem mem_update_keeps_index_iff (w : World MemStorage.t) (id : Z)
    (data : PartialTpsReport.t) (report : TpsReport.t) :
  mem_ids_below (stg w) -> mem_keyed_by_id (stg w) ->
  MemStorage.tpsReports (stg w) !! id = Some report ->
  let w' := snd (MemStorage.updateTpsReport id data w) in
  mem_ids_below (stg w')
  /\ (mem_keyed_by_id (stg w')
      <-> PartialTpsReport.id data = None \/ PartialTpsReport.id data = Some id).
Proof.
  intros Hb Hk Hl w'. subst w'. rewrite (mem_update_spec w id data report Hl).
  cbn [snd stg]. unfold mem_ids_below, mem_keyed_by_id.
  cbn [MemStorage.tpsReports MemStorage.set_reports MemStorage.tpsId].
  pose proof (Hk id report Hl) as Hid.
  split; [| split].
  - intros k Hs. destruct (decide (k = id)) as [-> | Hne].
    + apply Hb. eauto.
    + rewrite lookup_insert_ne in Hs by congruence. now apply Hb.
  - intros Hk'. specialize (Hk' id _ (lookup_insert_eq _ _ _)).
    cbn [spread_update TpsReport.id] in Hk'.
    destruct (PartialTpsReport.id data) as [j |]; [right | now left].
    cbn in Hk'. congruence.
  - intros Hd k r0 Hl0. destruct (decide (k = id)) as [-> | Hne].
    + rewrite lookup_insert_eq in Hl0. inversion Hl0. subst r0.
      cbn [spread_update TpsReport.id].
      destruct Hd as [-> | ->]; cbn; congruence.
    + rewrite lookup_insert_ne in Hl0 by congruence. now apply Hk.
Qed.

Lemma mem_update_keeps_index_iff_witness :
  exists report,
    MemStorage.tpsReports
      (stg (snd (MemStorage.createTpsReport (Sample.body "draft") Sample.fresh_mem)))
    !! 1 = Some report
    /\ mem_ids_below
         (stg (snd (MemStorage.updateTpsReport 1 (Sample.set_status "pending_review")
                      (snd (MemStorage.createTpsReport (Sample.body "draft")
                              Sample.fresh_mem))))).
Proof.
  set (w := snd (MemStorage.createTpsReport (Sample.body "draft") Sample.fresh_mem)).
  assert (Hl : MemStorage.tpsReports (stg w) !! 1
               = Some (spread_insert (Sample.body "draft") 1 (Sample.clock 0%nat))).
  { subst w. rewrite mem_create_spec. cbn [snd stg MemStorage.tpsReports].
    apply lookup_insert_eq. }
  eexists. split; [exact Hl |].
  refine (proj1 (mem_update_keeps_index_iff w 1 (Sample.set_status "pending_review") _
                   _ _ Hl)).
  - subst w. rewrite mem_create_spec. cbn [snd stg].
    apply (mem_insert_fresh_ok (stg Sample.fresh_mem));
      [apply mem_fresh_ok | apply mem_fresh_ok | reflexivity | reflexivity].
  - subst w. rewrite mem_create_spec. cbn [snd stg].
    apply (mem_insert_fresh_ok (stg Sample.fresh_mem));
      [apply mem_fresh_ok | apply mem_fresh_ok | reflexivity | reflexivity].
Defined.

(** * The client: client/src/lib/pdf.ts *)

Lemma extract_pages_spec (pages : list (list Annotation.t)) (i : Z)
    (formFields : list FormField.t) :
  extract_pages i pages formFields = formFields ++ fields_from i pages.
Proof.
  revert i formFields. induction pages as [| annotations rest IH]; intros i acc; cbn.
  - now rewrite app_nil_r.
  - rewrite IH. now rewrite <- app_assoc.
Qed.

Lemma fields_from_pages (pages : list (list Annotation.t)) (i : Z) :
  Forall (fun f => FormField.pageNumber f = Some (page_of f)
                   /\ i <= page_of f < i + Z.of_nat (length pages))
    (fields_from i pages).
Proof.
  revert i. induction pages as [| annotations rest IH]; intros i; cbn [fields_from].
  - constructor.
  - apply Forall_app. split.
    + apply List.Forall_forall. intros f Hin. apply in_map_iff in Hin.
      destruct Hin as (a & <- & _). cbn. split; [reflexivity | lia].
    + eapply List.Forall_impl; [| apply (IH (i + 1))].
      cbn beta. intros f [H1 H2]. split; [exact H1 |].
      cbn [length]. lia.
Qed.


Lemma fields_from_length (pages : list (list Annotation.t)) (i : Z) :
  length (fields_from i pages) = length (List.filter is_widget (concat pages)).
Proof.
  revert i. induction pages as [| annotations rest IH]; intros i; cbn; [reflexivity |].
  rewrite List.filter_app, !length_app, length_map. now rewrite IH.
Qed.




(** The fields of the first pages of a document do not depend on the pages
    that follow: the fields of [pdfDoc ++ more] are those of [pdfDoc]
    followed by those of [more], the latter numbered on from the last page
    of [pdfDoc]. *)
Theorem extraction_is_page_by_page (pdfDoc more : PDFDocumentProxy) :
  extractFormFields (pdfDoc ++ more)
  = extractFormFields pdfDoc
    ++ extract_pages (1 + Z.of_nat (length pdfDoc)) more [].
Proof.
  unfold extractFormFields. rewrite !extract_pages_spec. cbn [app].
  generalize 1. induction pdfDoc as [| annotations rest IH]; intros i.
  - cbn. f_equal. lia.
  - cbn [app fields_from length]. rewrite IH, <- app_assoc. do 3 f_equal. lia.
Qed.

(** [getFormFields] cannot tell a loaded document without form fields from
    no document: on the fields of a loaded document it throws exactly when
    the document has no Widget annotation, and otherwise hands them back. *)
Theorem no_widget_reads_as_no_pdf (pdfDoc : PDFDocumentProxy) :
  (List.filter is_widget (concat pdfDoc) = []
   -> getFormFields (extractFormFields pdfDoc)
      = Throw (TypeError "No PDF loaded or no form fields found"))
  /\ (List.filter is_widget (concat pdfDoc) <> []
      -> getFormFields (extractFormFields pdfDoc) = Ok (extractFormFields pdfDoc)).
Proof.
  pose proof (fields_from_length pdfDoc 1) as Hlen.
  unfold extractFormFields. rewrite extract_pages_spec. cbn [app].
  split; intros H.
  - rewrite H in Hlen. destruct (fields_from 1 pdfDoc); [reflexivity | discriminate].
  - destruct (fields_from 1 pdfDoc) eqn:E; [| reflexivity].
    exfalso. apply H.
    destruct (List.filter is_widget (concat pdfDoc)); [reflexivity | discriminate].
Qed.

Lemma no_widget_reads_as_no_pdf_witness :
  getFormFields
    (extractFormFields
       [[Annotation.mk "Link" None None None None None None None None None None]])
  = Throw (TypeError "No PDF loaded or no form fields found").
Proof.
  apply (proj1 (no_widget_reads_as_no_pdf
                  [[Annotation.mk "Link" None None None None None None None None None
                      None]])).
  reflexivity.
Defined.

(** ** The overlay *)

Lemma filter_on_other_page (pageNumber : Z) (fields : list FormField.t) :
  Forall (fun f => FormField.pageNumber f = Some (page_of f)
                   /\ page_of f <> pageNumber) fields ->
  List.filter (on_page pageNumber) fields = [].
Proof.
  induction 1 as [| f l [Hp Hne] _ IH]; [reflexivity |].
  cbn [List.filter]. unfold on_page at 1. rewrite Hp.
  destruct (Z.eqb_spec (page_of f) pageNumber); [contradiction | exact IH].
Qed.

Lemma filter_on_same_page (pageNumber : Z) (annotations : list Annotation.t) :
  List.filter (on_page pageNumber) (map (field_of pageNumber) annotations)
  = map (field_of pageNumber) annotations.
Proof.
  induction annotations as [| a l IH]; [reflexivity |].
  cbn [map List.filter]. unfold on_page at 1. cbn [FormField.pageNumber field_of].
  rewrite Z.eqb_refl. now rewrite IH.
Qed.

Lemma first_page_fields (page : list Annotation.t) (rest : PDFDocumentProxy) :
  List.filter (on_page 1) (extractFormFields (page :: rest))
  = map (field_of 1) (List.filter is_widget page).
Proof.
  unfold extractFormFields. rewrite extract_pages_spec. cbn [app fields_from].
  rewrite List.filter_app, filter_on_same_page.
  rewrite (filter_on_other_page 1 (fields_from (1 + 1) rest)); [apply app_nil_r |].
  eapply List.Forall_impl; [| apply fields_from_pages].
  cbn beta. intros f [H1 H2]. split; [exact H1 | lia].
Qed.

Lemma omap_cons {A B} (f : A -> option B) (a : A) (l : list A) :
  omap f (a :: l) = match f a with Some b => b :: omap f l | None => omap f l end.
Proof. reflexivity. Qed.

Lemma container_of_extracted (canvasElement : Canvas) (values : list (string * json))
    (readOnly : bool) (a : Annotation.t) :
  has_rect a
  = match container_of canvasElement values readOnly (field_of 1 a) with
    | Some _ => true
    | None => false
    end.
Proof.
  unfold container_of, has_rect. cbn [field_of FormField.rect].
  destruct (Annotation.rect a) as [[[[x1 y1] x2] y2] |]; reflexivity.
Qed.

(** [createInteractiveFormElements] lays elements over the first page only:
    of the fields extracted from a document, exactly the Widget annotations
    of page 1 that have a rectangle get a container, in their order,
    whatever the later pages hold; an empty document gets none. *)
Theorem overlay_covers_first_page_only (canvasElement : Canvas)
    (values : list (string * json)) (readOnly : bool)
    (page : list Annotation.t) (rest : PDFDocumentProxy) :
  let made := fun pdfDoc =>
    children (createInteractiveFormElements canvasElement (extractFormFields pdfDoc)
                values readOnly) in
  made (page :: rest) = made [page]
  /\ made (page :: rest)
     = omap (container_of canvasElement values readOnly)
         (map (field_of 1) (List.filter is_widget page))
  /\ length (made (page :: rest))
     = length (List.filter (fun a => is_widget a && has_rect a) page)
  /\ made [] = [].
Proof.
  cbv zeta. unfold createInteractiveFormElements. cbn [children].
  rewrite !first_page_fields.
  split; [reflexivity |]. split; [reflexivity |]. split; [| reflexivity].
  induction page as [| a l IH]; [reflexivity |].
  cbn [List.filter]. destruct (is_widget a) eqn:Hw; cbn [andb map]; [| exact IH].
  rewrite omap_cons. pose proof (container_of_extracted canvasElement values readOnly a)
    as Hc.
  destruct (container_of canvasElement values readOnly (field_of 1 a)) as [box |];
    rewrite Hc; cbn [length]; now rewrite IH.
Qed.

(** ** Checkboxes *)

(** Checking a box sticks, unchecking it falls back on the document: when
    [values] owns for a checkbox field what its listener passed to
    [onChange], the box made for it shows checked after it was checked, and
    after it was unchecked it shows what it shows under values that have
    nothing of that name, so that a box the document has checked cannot be
    shown unchecked.  A field named like a member of [Object.prototype] is
    shown unchecked as long as [values] does not own its name, whatever the
    document says. *)
Theorem checkbox_round_trip (field : FormField.t) (checked : bool) :
  FormField.type field = "checkbox" ->
  exists v,
    emitted false field (Toggled checked) = Some (FormField.name field, v)
    /\ (forall values,
          assoc_get (FormField.name field) values = Some v ->
          if checked then shows_checked field values = true
          else forall bare,
                 js_read (FormField.name field) bare = None ->
                 shows_checked field values = shows_checked field bare)
    /\ (In (FormField.name field) Object_prototype ->
        forall bare,
          assoc_get (FormField.name field) bare = None ->
          shows_checked field bare = false).
Proof.
  intros Ht. unfold emitted, shows_checked, element_of, currentValue_of.
  rewrite Ht. cbn [String.eqb Ascii.eqb Bool.eqb andb negb].
  assert (Hproto : In (FormField.name field) Object_prototype ->
                   forall bare,
                     assoc_get (FormField.name field) bare = None ->
                     match
                       match js_read (FormField.name field) bare with
                       | Some (Builtin name) => Builtin name
                       | Some (Data v) =>
                           Data (js_or_else (js_or (Some v) (Some (FormField.value field)))
                                   (JStr ""))
                       | None =>
                           Data (js_or_else (js_or None (Some (FormField.value field)))
                                   (JStr ""))
                       end
                     with
                     | Data (JBool true) => true
                     | _ => false
                     end
                     || strict_eq_str
                          match js_read (FormField.name field) bare with
                          | Some (Builtin name) => Builtin name
                          | Some (Data v) =>
                              Data (js_or_else
                                      (js_or (Some v) (Some (FormField.value field)))
                                      (JStr ""))
                          | None =>
                              Data (js_or_else
                                      (js_or None (Some (FormField.value field)))
                                      (JStr ""))
                          end (FormField.exportValue field) = false).
  { intros Hin bare Hbare. unfold js_read. rewrite Hbare.
    assert (E : existsb (String.eqb (FormField.name field)) Object_prototype = true).
    { apply existsb_exists. exists (FormField.name field).
      split; [exact Hin | apply String.eqb_refl]. }
    rewrite E. reflexivity. }
  destruct checked.
  - destruct (FormField.exportValue field) as [[| c s] |] eqn:He;
      eexists; (split; [reflexivity |]); (split; [| exact Hproto]);
      intros values Hv; unfold js_read; rewrite Hv;
      unfold js_or_else, js_or; cbn; try reflexivity.
    rewrite Ascii.eqb_refl, String.eqb_refl. reflexivity.
  - eexists. split; [reflexivity |]. split; [| exact Hproto].
    intros values Hv bare Hbare. unfold js_read at 1 2. rewrite Hv, Hbare.
    reflexivity.
Qed.

Lemma checkbox_round_trip_witness :
  exists v,
    emitted false (field_of 1 SamplePdf.agree) (Toggled false) = Some ("agree", v)
    /\ shows_checked (field_of 1 SamplePdf.agree) [("agree", v)] = true.
Proof.
  destruct (checkbox_round_trip (field_of 1 SamplePdf.agree) false eq_refl)
    as (v & Hv & Hshow & _).
  exists v. split; [exact Hv |].
  assert (E : v = JBool false) by (cbv in Hv; congruence). subst v.
  rewrite (Hshow [("agree", JBool false)] eq_refl []); reflexivity.
Defined.

(** * The client's mode and the server's check *)

Lemma formMode_offered (report : TpsReport.t) (userId : Z) :
  TpsReport.creator_id report = userId \/ TpsReport.receiver_id report = userId ->
  formMode report userId <> "view" ->
  writes_as_owner userId report.
Proof.
  intros Hparty Hmode. unfold formMode in Hmode. cbv zeta in Hmode.
  unfold writes_as_owner, is_terminal.
  destruct (Z.eqb_spec (TpsReport.creator_id report) userId) as [Hc | Hc];
    destruct (String.eqb_spec (TpsReport.status report) TpsStatus.DRAFT) as [Hd | Hd];
    destruct (String.eqb_spec (TpsReport.status report) TpsStatus.PENDING_REVIEW)
      as [Hr | Hr];
    destruct (String.eqb_spec (TpsReport.status report) TpsStatus.PENDING_APPROVAL)
      as [Ha | Ha];
    cbn in Hmode; try congruence;
    (split; [exact Hparty |]);
    (split; [intros [H | H]; rewrite H in *; discriminate |]);
    repeat split; intros H; try (rewrite H in *; discriminate); try assumption;
    destruct Hparty; congruence.
Qed.

Lemma formMode_view (report : TpsReport.t) (userId : Z) :
  enumerated (TpsReport.status report) ->
  TpsReport.creator_id report <> TpsReport.receiver_id report ->
  formMode report userId = "view" ->
  ~ writes_as_owner userId report.
Proof.
  intros Hen Hne Hmode (Hparty & Hterm & Hd & Hr & Ha).
  unfold formMode in Hmode. cbv zeta in Hmode.
  unfold is_terminal in Hterm.
  destruct Hen as [E | [E | [E | [E | [E | []]]]]]; symmetry in E.
  - specialize (Hd E). rewrite E in Hmode. apply Z.eqb_eq in Hd. rewrite Hd in Hmode.
    discriminate.
  - specialize (Hr E). rewrite E in Hmode.
    destruct (Z.eqb_spec (TpsReport.creator_id report) userId) as [Hc | Hc];
      [congruence | discriminate].
  - specialize (Ha E). rewrite E in Hmode. apply Z.eqb_eq in Ha. rewrite Ha in Hmode.
    discriminate.
  - tauto.
  - tauto.
Qed.

(** The page and the server agree on who may write: when [ViewTps] opens a
    report for its creator or receiver in a mode other than "view", the
    check of PUT /api/tps-reports/:id lets that user through; and for a
    report with one of the five statuses and two different parties, the
    mode "view" means the check answers 403. *)
Theorem offered_mode_is_granted {S} {storage : IStorage S} (w : World S)
    (userId reportId : Z) (report : TpsReport.t) :
  getTpsReport reportId w = (Ok (Some report), w) ->
  TpsReport.creator_id report = userId \/ TpsReport.receiver_id report = userId ->
  (formMode report userId <> "view" ->
   put_check userId reportId w
   = (Ok (Granted report (TpsReport.creator_id report =? userId)%Z
            (TpsReport.receiver_id report =? userId)%Z), w))
  /\ (enumerated (TpsReport.status report) ->
      TpsReport.creator_id report <> TpsReport.receiver_id report ->
      formMode report userId = "view" ->
      exists res, put_check userId reportId w = (Ok (Denied res), w) /\ code res = 403).
Proof.
  intros Hget Hparty. split.
  - intros Hmode. apply put_check_granted; [exact Hget |].
    now apply formMode_offered.
  - intros Hen Hne Hmode.
    destruct (put_check_cases w userId reportId report Hget)
      as [(res & Hrun & Hf) | [_ Hw]].
    + exists res. split; [exact Hrun | exact Hf].
    + exfalso. now apply (formMode_view report userId Hen Hne Hmode).
Qed.

Lemma offered_mode_is_granted_witness :
  exists report isCreator isReceiver,
    put_check (storage := DatabaseStorage_IStorage) 1 1 Sample.db_draft
    = (Ok (Granted report isCreator isReceiver), Sample.db_draft).
Proof.
  do 3 eexists.
  refine (proj1 (offered_mode_is_granted (storage := DatabaseStorage_IStorage)
                   Sample.db_draft 1 1 _ _ _) _).
  - etransitivity; [apply stored_get |].
    apply (f_equal (fun o => (Ok o, Sample.db_draft))). vm_compute. reflexivity.
  - left. vm_compute. reflexivity.
  - vm_compute. discriminate.
Defined.

(** * Logging in *)

Lemma dbs_getUserByUsername_spec (w : World DatabaseStorage.t) (username : string) :
  DatabaseStorage_getUserByUsername username w
  = (Ok (head (List.filter (fun u => (User.username u =? username)%string)
                 (db.users (DatabaseStorage.conn (stg w))))), w).
Proof. destruct w as [t c co d [p cn]]. reflexivity. Qed.

(** POST /api/login binds the session to a user only for that user's own
    password: a 200 answer means that the first user of that name has the
    password given, and the session then carries that user's id; any other
    answer leaves the session as it was, so that a failed login does not end
    an earlier one.  Nothing is written either way. *)
Theorem login_binds_session_on_match_only (w : World DatabaseStorage.t)
    (session : Session) (username password : option string) :
  exists res session',
    post_login session username password w = (Ok (res, session'), w)
    /\ (login_code res = 200 ->
        exists user,
          In user (db.users (DatabaseStorage.conn (stg w)))
          /\ username = Some (User.username user)
          /\ password = Some (User.password user)
          /\ session' = Some (User.id user)
          /\ login_body res
             = LoggedIn (User.id user) (User.username user) (User.name user)
                 (User.email user))
    /\ (login_code res <> 200 -> session' = session).
Proof.
  unfold post_login. run_io.
  destruct username as [[| c u] |], password as [[| c' p] |];
    try (do 2 eexists; split; [reflexivity |]; cbn; split; [discriminate | reflexivity]).
  rewrite dbs_getUserByUsername_spec. cbn [fst snd].
  destruct (head (List.filter (fun u0 => (User.username u0 =? String c u)%string)
                    (db.users (DatabaseStorage.conn (stg w))))) as [user |] eqn:Hu;
    [| do 2 eexists; split; [reflexivity |]; cbn; split; [discriminate | reflexivity]].
  apply head_filter_in in Hu. destruct Hu as [Hin Hname]. apply String.eqb_eq in Hname.
  destruct (String.eqb_spec (User.password user) (String c' p)) as [Hp | Hp]; cbn [negb];
    [| do 2 eexists; split; [reflexivity |]; cbn; split; [discriminate | reflexivity]].
  do 2 eexists. split; [reflexivity |]. cbn. split; [| congruence].
  intros _. exists user. repeat split; congruence.
Qed.

Lemma login_binds_session_on_match_only_witness :
  exists res,
    fst (post_login (Some 2) (Some "matt") (Some "password") Sample.fresh_db)
    = Ok (res, Some 1).
Proof.
  destruct (login_binds_session_on_match_only Sample.fresh_db (Some 2) (Some "matt")
              (Some "password")) as (res & session' & Hrun & Hok & _).
  exists res. rewrite Hrun. cbn [fst]. do 2 f_equal.
  assert (Hcode : login_code res = 200).
  { pose proof Hrun as H. vm_compute in H. inversion H. reflexivity. }
  destruct (Hok Hcode) as (user & Hin & Hname & _ & Hs & _).
  rewrite Hs. f_equal.
  vm_compute in Hin. destruct Hin as [<- | [<- | []]]; [reflexivity |].
  discriminate Hname.
Defined.

(** * The list's label and the page's mode *)

(** The list asks a user to act exactly on the reports the page then opens
    for action: for a report whose status is one of the five, the label is
    "Your Review Needed" exactly when [ViewTps] opens it in mode "review",
    and "Your Approval Needed" exactly when it opens it in mode "approve".
    A status outside the five is shown as its own label, so that the first
    half of each equivalence holds for any status and the second does not. *)
Theorem label_asks_when_mode_offers (report : TpsReport.t) (userId : Z) :
  (formMode report userId = "review" -> list_label report userId = "Your Review Needed")
  /\ (formMode report userId = "approve"
      -> list_label report userId = "Your Approval Needed")
  /\ (enumerated (TpsReport.status report) ->
      (list_label report userId = "Your Review Needed"
       -> formMode report userId = "review")
      /\ (list_label report userId = "Your Approval Needed"
          -> formMode report userId = "approve")).
Proof.
  unfold formMode, list_label, getStatusLabel, enumerated. cbv zeta.
  destruct (TpsReport.creator_id report =? userId)%Z.
  - split; [| split].
    + destruct (String.eqb_spec (TpsReport.status report) TpsStatus.DRAFT) as [-> | _];
        [discriminate |].
      destruct (String.eqb_spec (TpsReport.status report) TpsStatus.PENDING_REVIEW)
        as [-> | _]; [discriminate |].
      destruct (String.eqb_spec (TpsReport.status report) TpsStatus.PENDING_APPROVAL)
        as [-> | _]; discriminate.
    + destruct (String.eqb_spec (TpsReport.status report) TpsStatus.DRAFT) as [-> | _];
        [discriminate |].
      destruct (String.eqb_spec (TpsReport.status report) TpsStatus.PENDING_REVIEW)
        as [-> | _]; [discriminate |].
      destruct (String.eqb_spec (TpsReport.status report) TpsStatus.PENDING_APPROVAL)
        as [-> | _]; [reflexivity | discriminate].
    + intros [E | [E | [E | [E | [E | []]]]]]; rewrite <- E; cbn;
        split; intros H; try discriminate H; reflexivity.
  - split; [| split].
    + destruct (String.eqb_spec (TpsReport.status report) TpsStatus.DRAFT) as [-> | _];
        [discriminate |].
      destruct (String.eqb_spec (TpsReport.status report) TpsStatus.PENDING_REVIEW)
        as [-> | _]; [reflexivity |].
      destruct (String.eqb_spec (TpsReport.status report) TpsStatus.PENDING_APPROVAL)
        as [-> | _]; discriminate.
    + destruct (String.eqb_spec (TpsReport.status report) TpsStatus.DRAFT) as [-> | _];
        [discriminate |].
      destruct (String.eqb_spec (TpsReport.status report) TpsStatus.PENDING_REVIEW)
        as [-> | _]; [discriminate |].
      destruct (String.eqb_spec (TpsReport.status report) TpsStatus.PENDING_APPROVAL)
        as [-> | _]; discriminate.
    + intros [E | [E | [E | [E | [E | []]]]]]; rewrite <- E; cbn;
        split; intros H; try discriminate H; reflexivity.
Qed.

Lemma label_asks_when_mode_offers_witness :
  exists report,
    stored 1 Sample.db_pending_review = Some report
    /\ list_label report 2 = "Your Review Needed".
Proof.
  eexists. split; [vm_compute; reflexivity |].
  apply (proj1 (label_asks_when_mode_offers _ 2)).
  vm_compute. reflexivity.
Defined.
